(** * tmux-window-name: the name-resolution engine of
      [scripts/rename_session_windows.py]

    A shallow embedding of the functions that turn a process snapshot and the
    active panes of a session into window labels, and the properties the
    specification states about them.

    Conventions of the embedding.
    - A Python [str] is a list of Unicode code points ([N]); a Python [bytes]
      is a list of [Byte.byte].  [bytes.decode()] is strict UTF-8.
    - A Python call that may raise returns a [result]: [Ok v] or [Raise e].
    - Logging calls have no effect on the values computed and are left out.
    - Calls on the tmux server are collaborators: what they read is a
      parameter, what they write is the list of rename requests returned. *)

From Stdlib Require Import Strings.String Strings.Byte.
From Stdlib Require Import List NArith ZArith Bool Lia Permutation.
Import ListNotations.
Local Open Scope N_scope.
Local Open Scope list_scope.

(** ** Exceptions and results *)

Inductive exn : Type :=
| ValueError
| IndexError
| UnicodeDecodeError
| ReError.

Inductive result (A : Type) : Type :=
| Ok (a : A)
| Raise (e : exn).

Arguments Ok {A} a.
Arguments Raise {A} e.

Definition bind {A B : Type} (r : result A) (k : A -> result B) : result B :=
  match r with
  | Ok a => k a
  | Raise e => Raise e
  end.

Notation "x <- e ;; k" := (bind e (fun x => k))
  (at level 61, e at next level, right associativity).

Definition fmap {A B : Type} (f : A -> B) (r : result A) : result B :=
  x <- r ;; Ok (f x).

(** [[f(x) for x in l]] for an [f] that may raise: the first failure aborts. *)
Fixpoint mapM {A B : Type} (f : A -> result B) (l : list A) : result (list B) :=
  match l with
  | [] => Ok []
  | x :: l' => y <- f x ;; ys <- mapM f l' ;; Ok (y :: ys)
  end.

Definition raises {A : Type} (r : result A) : Prop :=
  exists e, r = Raise e.

(** ** Strings and bytes *)

Definition char := N.
Definition str := list char.
Definition bytes := list byte.

(** An ASCII literal as a [str] and as [bytes]. *)
Definition u (s : string) : str := map Byte.to_N (list_byte_of_string s).
Definition b (s : string) : bytes := list_byte_of_string s.

Fixpoint str_eqb (x y : str) : bool :=
  match x, y with
  | [], [] => true
  | c :: x', d :: y' => (c =? d) && str_eqb x' y'
  | _, _ => false
  end.

(** [x in l] for a list of strings. *)
Definition str_in (x : str) (l : list str) : bool := existsb (str_eqb x) l.

(** [s.startswith(p)], returning what follows the prefix. *)
Fixpoint strip_prefix (p s : str) : option str :=
  match p with
  | [] => Some s
  | c :: p' =>
    match s with
    | [] => None
    | d :: s' => if c =? d then strip_prefix p' s' else None
    end
  end.

Definition startswith (s p : str) : bool :=
  match strip_prefix p s with Some _ => true | None => false end.

(** [p in s] for strings: [p] occurs somewhere in [s]. *)
Fixpoint contains (s p : str) : bool :=
  startswith s p ||
  match s with
  | [] => false
  | _ :: s' => contains s' p
  end.

(** [sep.join(l)] *)
Fixpoint join {A : Type} (sep : list A) (l : list (list A)) : list A :=
  match l with
  | [] => []
  | [x] => x
  | x :: l' => x ++ sep ++ join sep l'
  end.

(** ASCII whitespace, as [bytes.split()] and [int(bytes)] see it. *)
Definition is_space_ascii (c : N) : bool :=
  ((9 <=? c) && (c <=? 13)) || (c =? 32).

(** Unicode whitespace, as [str.split()] and [int(str)] see it
    ([str.isspace]). *)
Definition is_space_unicode (c : N) : bool :=
  ((9 <=? c) && (c <=? 13)) || ((28 <=? c) && (c <=? 32)) ||
  (c =? 133) || (c =? 160) || (c =? 5760) ||
  ((8192 <=? c) && (c <=? 8202)) || (c =? 8232) || (c =? 8233) ||
  (c =? 8239) || (c =? 8287) || (c =? 12288).

(** [s.split()] without argument: maximal runs of non-whitespace.  [cur]
    holds the token being read, reversed. *)
Fixpoint split_ws {A : Type} (ws : A -> bool) (s cur : list A) : list (list A) :=
  match s with
  | [] => match cur with [] => [] | _ => [rev cur] end
  | c :: s' =>
    if ws c
    then match cur with [] => split_ws ws s' [] | _ => rev cur :: split_ws ws s' [] end
    else split_ws ws s' (c :: cur)
  end.

Definition bytes_split (s : bytes) : list bytes :=
  split_ws (fun c => is_space_ascii (Byte.to_N c)) s [].

Definition str_split (s : str) : list str :=
  split_ws is_space_unicode s [].

(** [s.split(sep)] for a one-character separator: always at least one piece. *)
Fixpoint split_on (sep : char) (s cur : str) : list str :=
  match s with
  | [] => [rev cur]
  | c :: s' =>
    if c =? sep then rev cur :: split_on sep s' [] else split_on sep s' (c :: cur)
  end.

(** [bytes.splitlines()]: lines end at LF, CR or CR LF; no empty last line. *)
Fixpoint splitlines (s cur : bytes) : list bytes :=
  match s with
  | [] => match cur with [] => [] | _ => [rev cur] end
  | c :: s' =>
    if Byte.to_N c =? 10 then rev cur :: splitlines s' []
    else if Byte.to_N c =? 13 then
      match s' with
      | d :: s'' =>
        if Byte.to_N d =? 10 then rev cur :: splitlines s'' []
        else rev cur :: splitlines s' []
      | [] => [rev cur]
      end
    else splitlines s' (c :: cur)
  end.

(** Strict UTF-8 decoding of a byte string ([bytes.decode()]): overlong
    forms, surrogates, values above U+10FFFF and truncated sequences fail. *)
Definition is_cont (x : N) : bool := (128 <=? x) && (x <? 192).

Fixpoint utf8_decode (bs : list N) : option str :=
  match bs with
  | [] => Some []
  | b0 :: r0 =>
    if b0 <? 128 then option_map (cons b0) (utf8_decode r0)
    else if b0 <? 194 then None
    else if b0 <? 224 then
      match r0 with
      | b1 :: r1 =>
        if is_cont b1
        then option_map (cons ((b0 - 192) * 64 + (b1 - 128))) (utf8_decode r1)
        else None
      | _ => None
      end
    else if b0 <? 240 then
      match r0 with
      | b1 :: b2 :: r2 =>
        if is_cont b1 && is_cont b2 &&
           (negb (b0 =? 224) || (160 <=? b1)) &&
           (negb (b0 =? 237) || (b1 <? 160))
        then option_map
               (cons ((b0 - 224) * 4096 + (b1 - 128) * 64 + (b2 - 128)))
               (utf8_decode r2)
        else None
      | _ => None
      end
    else if b0 <? 245 then
      match r0 with
      | b1 :: b2 :: b3 :: r3 =>
        if is_cont b1 && is_cont b2 && is_cont b3 &&
           (negb (b0 =? 240) || (144 <=? b1)) &&
           (negb (b0 =? 244) || (b1 <? 144))
        then option_map
               (cons ((b0 - 240) * 262144 + (b1 - 128) * 4096 +
                      (b2 - 128) * 64 + (b3 - 128)))
               (utf8_decode r3)
        else None
      | _ => None
      end
    else None
  end.

Definition decode (x : bytes) : result str :=
  match utf8_decode (map Byte.to_N x) with
  | Some s => Ok s
  | None => Raise UnicodeDecodeError
  end.

(** [l[i]] on a list: out of range raises [IndexError]. *)
Definition index {A : Type} (l : list A) (i : nat) : result A :=
  match nth_error l i with
  | Some x => Ok x
  | None => Raise IndexError
  end.

(** [l[-1]] *)
Definition index_last {A : Type} (l : list A) : result A :=
  match rev l with
  | x :: _ => Ok x
  | [] => Raise IndexError
  end.

(** [int(x)] for a decimal numeral: surrounding ASCII whitespace is dropped,
    one sign is allowed, and single underscores may separate digits.  A
    numeral of more than 4300 digits, leading zeros counted, is refused with
    [ValueError]: 4300 is [sys.int_info.default_max_str_digits], the limit of
    the interpreter, which the script does not change. *)
Definition is_digit (c : N) : bool := (48 <=? c) && (c <=? 57).

Fixpoint digits_val (acc : Z) (after_digit : bool) (s : list N) : option Z :=
  match s with
  | [] => if after_digit then Some acc else None
  | c :: s' =>
    if is_digit c then digits_val (10 * acc + Z.of_N (c - 48))%Z true s'
    else if (c =? 95) && after_digit then digits_val acc false s'
    else None
  end.

Fixpoint lstrip (s : list N) : list N :=
  match s with
  | c :: s' => if is_space_ascii c then lstrip s' else s
  | [] => []
  end.

Definition strip (s : list N) : list N :=
  rev (lstrip (rev (lstrip s))).

Definition signed_val (s : list N) : option Z :=
  match s with
  | 45 :: s' => option_map Z.opp (digits_val 0 false s')
  | 43 :: s' => digits_val 0 false s'
  | _ => digits_val 0 false s
  end.

Definition default_max_str_digits : N := 4300.

Definition py_int (s : list N) : result Z :=
  match signed_val (strip s) with
  | Some z =>
    if N.of_nat (length (filter is_digit s)) <=? default_max_str_digits
    then Ok z
    else Raise ValueError
  | None => Raise ValueError
  end.

(** [int(x)] for [bytes]: the bytes are read as ASCII. *)
Definition int_of_bytes (x : bytes) : result Z := py_int (map Byte.to_N x).

(** The zero of each run of decimal digits outside ASCII (the characters of
    category [Nd] of Unicode 14.0, the version of CPython 3.11); its digits
    1 to 9 follow it. *)
Definition decimal_zeros : list N :=
  [1632; 1776; 1984; 2406; 2534; 2662; 2790; 2918; 3046; 3174; 3302; 3430;
   3558; 3664; 3792; 3872; 4160; 4240; 6112; 6160; 6470; 6608; 6784; 6800;
   6992; 7088; 7232; 7248; 42528; 43216; 43264; 43472; 43504; 43600; 44016;
   65296; 66720; 68912; 69734; 69872; 69942; 70096; 70384; 70736; 70864;
   71248; 71360; 71472; 71904; 72016; 72784; 73040; 73120; 92768; 92864;
   93008; 120782; 120792; 120802; 120812; 120822; 123200; 123632; 125264;
   130032].

Definition decimal_value (c : N) : option N :=
  option_map (fun zero => c - zero)
             (find (fun zero => (zero <=? c) && (c <=? zero + 9)) decimal_zeros).

(** What [int(x)] reads of a [str]: a character below 127 as it is, any
    other white space as a space, any other decimal digit as its ASCII digit.
    The string is cut at the first character that is none of these, a
    question mark standing for it, so that the numeral is refused. *)
Fixpoint ascii_numeral (s : str) : list N :=
  match s with
  | [] => []
  | c :: s' =>
    if c <? 127 then c :: ascii_numeral s'
    else if is_space_unicode c then 32 :: ascii_numeral s'
    else
      match decimal_value c with
      | Some d => (48 + d) :: ascii_numeral s'
      | None => [63]
      end
  end.

(** [int(x)] for a [str]. *)
Definition int_of_str (x : str) : result Z := py_int (ascii_numeral x).

(** ** Regular expressions: the fragment of [re] the script's patterns use

    A pattern is given parsed.  The fragment has literals, [.], character
    classes, [^] and [$], sequence, alternation, a greedy optional part,
    greedy [*] and [+] over one-character matchers, and numbered groups
    (numbered as [re] does, by opening parenthesis).  Matching is the
    backtracking search of [re]: the first alternative that lets the rest of
    the pattern succeed wins. *)

Inductive cset : Type :=
| Any                                         (* .      any but newline *)
| Class (neg : bool) (ranges : list (char * char)).   (* [a-z], [^/] *)

Inductive regex : Type :=
| Lit (s : str)
| One (cs : cset)
| Many0 (cs : cset)                           (* cs*  *)
| Many1 (cs : cset)                           (* cs+  *)
| Bol                                         (* ^ *)
| Eol                                         (* $ *)
| Seq (r1 r2 : regex)
| Alt (r1 r2 : regex)
| Opt (r : regex)                             (* r?  *)
| Group (n : nat) (r : regex).

Definition in_cset (cs : cset) (c : char) : bool :=
  match cs with
  | Any => negb (c =? 10)
  | Class neg ranges =>
    xorb neg (existsb (fun lh => (fst lh <=? c) && (c <=? snd lh)) ranges)
  end.

(** Where a match attempt stands: what is left of the subject, how many
    characters precede it, and the groups closed so far (latest first). *)
Record mstate : Type := MState {
  rest : str;
  pos : nat;
  caps : list (nat * str)
}.

Definition cont := mstate -> option mstate.

Definition first_of {A : Type} (x y : option A) : option A :=
  match x with Some _ => x | None => y end.

(** Greedy repetition of a one-character matcher: take the character and go
    on, or else stop here. *)
Fixpoint many (cs : cset) (k : cont) (s : str) (p : nat) (g : list (nat * str))
  : option mstate :=
  match s with
  | c :: s' =>
    if in_cset cs c
    then first_of (many cs k s' (S p) g) (k (MState s p g))
    else k (MState s p g)
  | [] => k (MState s p g)
  end.

Definition step1 (cs : cset) (k : cont) (st : mstate) : option mstate :=
  match rest st with
  | c :: s' => if in_cset cs c then k (MState s' (S (pos st)) (caps st)) else None
  | [] => None
  end.

Fixpoint rmatch (r : regex) (k : cont) (st : mstate) : option mstate :=
  match r with
  | Lit l =>
    match strip_prefix l (rest st) with
    | Some s' => k (MState s' (pos st + length l) (caps st))
    | None => None
    end
  | One cs => step1 cs k st
  | Many0 cs => many cs k (rest st) (pos st) (caps st)
  | Many1 cs => step1 cs (fun st' => many cs k (rest st') (pos st') (caps st')) st
  | Bol => match pos st with O => k st | S _ => None end
  | Eol => match rest st with [] => k st | [10] => k st | _ => None end
  | Seq r1 r2 => rmatch r1 (rmatch r2 k) st
  | Alt r1 r2 => first_of (rmatch r1 k st) (rmatch r2 k st)
  | Opt r1 => first_of (rmatch r1 k st) (k st)
  | Group n r1 =>
    rmatch r1
      (fun st' =>
         k (MState (rest st') (pos st')
                   ((n, firstn (pos st' - pos st) (rest st)) :: caps st')))
      st
  end.

(** One attempt at position [p], where [s] is what is left of the subject.
    [must_advance] refuses the empty match at [p]: [re] sets it after an
    empty match so that the search moves on. *)
Definition match_at (r : regex) (s : str) (p : nat) (must_advance : bool)
  : option mstate :=
  rmatch r
    (fun st' => if must_advance && Nat.eqb (pos st') p then None else Some st')
    (MState s p []).

(** A replacement template, parsed: literal text and [\g<n>] references. *)
Inductive titem : Type :=
| TLit (s : str)
| TGroup (n : nat).

Definition template := list titem.

Fixpoint group_text (n : nat) (g : list (nat * str)) : str :=
  match g with
  | [] => []                       (* a group that took no part is empty *)
  | (m, t) :: g' => if Nat.eqb m n then t else group_text n g'
  end.

Definition expand (t : template) (whole : str) (g : list (nat * str)) : str :=
  flat_map (fun it =>
              match it with
              | TLit s => s
              | TGroup O => whole
              | TGroup n => group_text n g
              end) t.

Fixpoint sub_loop (fuel : nat) (r : regex) (t : template) (s : str) (p : nat)
         (must_advance : bool) : str :=
  match fuel with
  | O => s
  | S fuel' =>
    match match_at r s p must_advance with
    | Some st' =>
      expand t (firstn (pos st' - p) s) (caps st') ++
      sub_loop fuel' r t (rest st') (pos st') (Nat.eqb (pos st') p)
    | None =>
      match s with
      | [] => []
      | c :: s' => c :: sub_loop fuel' r t s' (S p) false
      end
    end
  end.

(** The highest group number of a pattern. *)
Fixpoint groups (r : regex) : nat :=
  match r with
  | Seq r1 r2 | Alt r1 r2 => Nat.max (groups r1) (groups r2)
  | Opt r1 => groups r1
  | Group n r1 => Nat.max n (groups r1)
  | _ => O
  end.

Definition template_ok (r : regex) (t : template) : bool :=
  forallb (fun it => match it with TLit _ => true | TGroup n => Nat.leb n (groups r) end) t.

(** [re.sub(pattern, repl, string)]: every non-overlapping match, leftmost
    first, is replaced.  A template that names a group the pattern lacks is
    refused before any matching. *)
Definition re_sub (r : regex) (t : template) (s : str) : result str :=
  if template_ok r t
  then Ok (sub_loop (2 * length s + 2) r t s O false)
  else Raise ReError.

(** ** Paths *)

(** [Path(p).name]: the last component of a POSIX path, where empty
    components and [.] do not count; empty when there is none. *)
Definition path_parts (p : str) : list str :=
  filter (fun seg => negb (str_eqb seg []) && negb (str_eqb seg (u ".")))
         (split_on 47 p []).

Definition path_name (p : str) : str := last (path_parts p) [].

(** [s.replace(old, new)].  [skip] counts the characters of an occurrence of
    [old] still to be passed over. *)
Fixpoint replace_from (old new s : str) (skip : nat) : str :=
  match s with
  | [] => []
  | c :: s' =>
    match skip with
    | S k => replace_from old new s' k
    | O =>
      if startswith s old
      then new ++ replace_from old new s' (length old - 1)
      else c :: replace_from old new s' O
    end
  end.

Definition str_replace (s old new : str) : str :=
  match old with
  | [] => new ++ flat_map (fun c => c :: new) s
  | _ => replace_from old new s O
  end.

(** [s[:n]] for an integer [n]: a negative bound counts from the end. *)
Definition slice_to (s : str) (n : Z) : str :=
  if (0 <=? n)%Z then firstn (Z.to_nat n) s
  else firstn (length s - Z.to_nat (- n)) s.

(** ** Configuration *)

Definition USR_BIN_REMOVER : regex * template :=
  (Seq Bol (Seq (Opt (Group 1 (Lit (u "/usr"))))
                (Seq (Lit (u "/bin/")) (Group 2 (Many1 Any)))),
   [TGroup 2]).

Definition CUR_SYSTEM_REMOVER : regex * template :=
  (Seq Bol (Seq (Lit (u "/run/current-system/sw/bin/")) (Group 1 (Many1 Any))),
   [TGroup 1]).

Definition letters : cset := Class false [(97, 122); (65, 90)].

Definition PROFILE_REMOVER : regex * template :=
  (Seq Bol (Seq (Lit (u "/home/")) (Seq (Many0 letters)
     (Seq (Lit (u "/")) (Seq (One Any)
        (Seq (Lit (u "nix-profile/bin/")) (Group 1 (Many1 Any))))))),
   [TGroup 1]).

Definition NIX_STORE_REMOVER : regex * template :=
  (Seq Bol (Seq (Lit (u "/nix/store/")) (Seq (Many1 (Class true [(47, 47)]))
     (Seq (Lit (u "/")) (Seq (One Any)
        (Seq (Lit (u "nix-profile/bin/")) (Group 1 (Many1 Any))))))),
   [TGroup 1]).

Definition DEFAULT_PROGRAM_ICONS : list (str * str) :=
  [ (u "nvim", [58923]); (u "vim", [58923]); (u "vi", [58923]);
    (u "git", [59138]); (u "python", [58886]);
    (u "node", [59160]); (u "npm", [59160]); (u "yarn", [59160]);
    (u "docker", [59312]); (u "kubectl", [59319]); (u "go", [58919]);
    (u "rust", [59304]); (u "cargo", [59304]); (u "php", [58888]);
    (u "ruby", [59193]); (u "java", [59192]); (u "mvn", [59192]);
    (u "gradle", [59192]); (u "bash", [59298]); (u "zsh", [59298]);
    (u "fish", [59298]); (u "sh", [59298]) ].

(** [d.get(key)] on the items of a dict (keys are distinct). *)
Fixpoint dict_get (d : list (str * str)) (key : str) : option str :=
  match d with
  | [] => None
  | (k, v) :: d' => if str_eqb k key then Some v else dict_get d' key
  end.

Inductive IconStyle : Type :=
| NAME
| ICON
| NAME_AND_ICON.

Record Options : Type := {
  shells : list str;
  dir_programs : list str;
  ignored_programs : list str;
  max_name_len : Z;
  use_tilde : bool;
  icon_style : IconStyle;
  custom_icons : list (str * str);
  substitute_sets : list (regex * template);
  dir_substitute_sets : list (regex * template);
  show_program_args : bool
}.

(** The defaults of the [Options] dataclass. *)
Definition default_options : Options := {|
  shells := [u "bash"; u "fish"; u "sh"; u "zsh"];
  dir_programs := [u "nvim"; u "vim"; u "vi"; u "git"];
  ignored_programs := [];
  max_name_len := 20;
  use_tilde := false;
  icon_style := NAME;
  custom_icons := [];
  substitute_sets :=
    [ (Seq (Many1 Any) (Seq (Lit (u "ipython"))
         (Group 1 (One (Class false [(51, 51); (50, 50)])))),
       [TLit (u "ipython"); TGroup 1]);
      USR_BIN_REMOVER;
      CUR_SYSTEM_REMOVER;
      PROFILE_REMOVER;
      NIX_STORE_REMOVER;
      (Seq (Group 1 (Lit (u "bash"))) (Seq (Lit (u " "))
         (Seq (Group 2 (Many1 Any)) (Seq (Lit (u "/"))
            (Seq (Group 3 (Seq (Many1 Any) (One (Class false [(32, 32); (36, 36)]))))
                 (Group 4 (Many1 Any)))))),
       [TGroup 3; TGroup 4]);
      (Seq (Many1 Any) (Lit (u "poetry shell")), [TLit (u "poetry")]) ];
  dir_substitute_sets := [];
  show_program_args := true
|}.

(** ** Panes *)

(** The fields of a libtmux pane that the script reads; each may be absent. *)
Record TmuxPane : Type := {
  pane_pid : option str;
  window_id : option str;
  pane_current_path : option str
}.

(** Modelled from the spec: [path_utils.Pane], whose declaration is not among
    the sources, is the [ResolvedPane] of the spec (3): a pane and the
    program resolved for it, [None] when there is none.  The script reads
    and writes the two fields [info] and [program]. *)
Record Pane : Type := {
  info : TmuxPane;
  program : option str
}.

(** ** The Foreground Program Resolver *)

(** [parse_shell_command]: what a shell was asked to run, [None] for a shell
    on its own. *)
Definition parse_shell_command (shell_cmd : list bytes) : result (option str) :=
  if Nat.eqb (length shell_cmd) 1 then Ok None
  else
    shell_cmd_str <- mapM decode shell_cmd ;;
    arg1 <- index shell_cmd_str 1 ;;
    Ok (Some (join (u " ") (path_name arg1 :: skipn 2 shell_cmd_str))).

(** The path by which the script recognises its own invocation. *)
Definition script_token : str := u "scripts/rename_session_windows.py".

(** The local [program_name_stripped] of [get_current_program]: the first
    token of the command after [USR_BIN_REMOVER]. *)
Definition program_name_stripped (program_name : str) : result str :=
  re_sub (fst USR_BIN_REMOVER) (snd USR_BIN_REMOVER) program_name.

(** How the body of the loop of [get_current_program] ends for one line of
    the snapshot: it goes on to the next line or returns. *)
Inductive step : Type :=
| Continue
| Return (r : option str).

(** The body of the loop, for a pane whose process id is [pid]. *)
Definition resolve_line (line : bytes) (pid : str) (options : Options)
  : result step :=
  let program := bytes_split line in
  ppid <- index program 0 ;;
  a <- int_of_bytes ppid ;;
  c <- int_of_str pid ;;
  if (a =? c)%Z then
    let program := skipn 1 program in
    name0 <- index program 0 ;;
    program_name <- decode name0 ;;
    stripped <- program_name_stripped program_name ;;
    is_script <-
      (if Nat.ltb 1 (length program)
       then arg1 <- index program 1 ;;
            arg1 <- decode arg1 ;;
            Ok (contains arg1 script_token)
       else Ok false) ;;
    if is_script then Ok Continue
    else if str_in stripped (ignored_programs options) then Ok Continue
    else if str_in stripped (shells options) then
      fmap Return (parse_shell_command program)
    else if negb (show_program_args options) then
      fmap (fun s => Return (Some s)) (decode name0)
    else
      fmap (fun s => Return (Some s)) (decode (join (b " ") program))
  else Ok Continue.

(** The loop over the snapshot; [None] when no line made it return. *)
Fixpoint resolve_lines (lines : list bytes) (pid : str)
         (options : Options) : result (option str) :=
  match lines with
  | [] => Ok None
  | line :: more =>
    s <- resolve_line line pid options ;;
    match s with
    | Return r => Ok r
    | Continue => resolve_lines more pid options
    end
  end.

(** [get_current_program(running_programs, pane, options)] *)
Definition get_current_program (lines : list bytes) (pane : TmuxPane)
           (options : Options) : result (option str) :=
  match pane_pid pane with
  | None => Raise ValueError
  | Some pid => resolve_lines lines pid options
  end.

(** [get_program_if_dir]: the program line, re-joined, when its first word
    is one of [dir_programs]. *)
Definition get_program_if_dir (program_line : str) (dir_programs : list str)
  : result (option str) :=
  let program := str_split program_line in
  (fix loop (ps : list str) : result (option str) :=
     match ps with
     | [] => Ok None
     | p :: ps' =>
       p0 <- index program 0 ;;
       if str_eqb p p0
       then Ok (Some (join (u " ") (p :: skipn 1 program)))
       else loop ps'
     end) dir_programs.

(** The local [running_programs] of [get_panes_programs]: the lines of the
    snapshot after the header.  [ps_output] is what [ps -a -oppid,command]
    printed, or [None] when the call failed with [CalledProcessError]. *)
Definition running_programs (ps_output : option bytes) : list bytes :=
  match ps_output with
  | Some out => skipn 1 (splitlines out [])
  | None => []
  end.

(** [get_panes_programs]: each active pane with its resolved program; the
    first pane that makes the resolver raise aborts the whole. *)
Definition get_panes_programs (session_active_panes : list TmuxPane)
           (ps_output : option bytes) (options : Options) : result (list Pane) :=
  mapM (fun p =>
          prog <- get_current_program (running_programs ps_output) p options ;;
          Ok {| info := p; program := prog |})
       session_active_panes.

(** ** The Substitution Pipeline *)

(** [substitute_name]: the rules in order, each on the output of the one
    before. *)
Fixpoint substitute_name (name : str) (substitute_sets : list (regex * template))
  : result str :=
  match substitute_sets with
  | [] => Ok name
  | (pattern, replacement) :: more =>
    name' <- re_sub pattern replacement name ;;
    substitute_name name' more
  end.

(** ** The Directory Disambiguator *)

(** [path_utils.py], which defines [get_exclusive_paths], is not among the
    sources: the definitions of this part follow the spec (4.3).  Each pane
    gets the shortest suffix of its working directory, counted in segments
    from the leaf upward, that no other pane of the list shares; a pane whose
    ancestry is exhausted first keeps its full path. *)

(** Modelled from the spec: the segments of a directory, the root first if
    the directory is absolute, then its non-empty segments. *)
Definition segments (d : str) : list str :=
  (if startswith d (u "/") then [u "/"] else []) ++
  filter (fun seg => negb (str_eqb seg [])) (split_on 47 d []).

(** Modelled from the spec: a pane without a directory has no segment. *)
Definition dir_segments (p : Pane) : list str :=
  match pane_current_path (info p) with
  | Some d => segments d
  | None => []
  end.

(** The last [k] segments. *)
Definition suffix (k : nat) (segs : list str) : list str :=
  skipn (length segs - k) segs.

Fixpoint segs_eqb (x y : list str) : bool :=
  match x, y with
  | [], [] => true
  | a :: x', c :: y' => str_eqb a c && segs_eqb x' y'
  | _, _ => false
  end.

(** Modelled from the spec: how many panes of the list have the same
    accumulated suffix of [k] segments (the pane itself is one of them). *)
Definition sharing (k : nat) (segs : list str) (all : list (list str)) : nat :=
  length (filter (fun q => segs_eqb (suffix k q) (suffix k segs)) all).

(** Modelled from the spec: walk upward from [k] segments while the suffix
    collides with another pane's, for at most [fuel] more segments. *)
Fixpoint extend (all : list (list str)) (segs : list str) (k fuel : nat)
  : list str :=
  match fuel with
  | O => suffix k segs
  | S fuel' =>
    if Nat.ltb 1 (sharing k segs all)
    then extend all segs (S k) fuel'
    else suffix k segs
  end.

(** The segments as one path again: the root, if any, is not followed by a
    separator of its own. *)
Definition join_path (segs : list str) : str :=
  match segs with
  | root :: more =>
    if str_eqb root (u "/") then u "/" ++ join (u "/") more else join (u "/") segs
  | [] => []
  end.

(** Modelled from the spec: the display path of one pane among [panes]. *)
Definition display_path (panes : list Pane) (p : Pane) : str :=
  let segs := dir_segments p in
  join_path (extend (map dir_segments panes) segs 1 (length segs - 1)).

(** Modelled from the spec: [get_exclusive_paths] of [path_utils.py], which
    is not among the sources, pairs each pane of the list, in order, with
    its display path. *)
Definition get_exclusive_paths (panes : list Pane) : list (Pane * str) :=
  map (fun p => (p, display_path panes p)) panes.

(** ** The Label Composer and the run over a session *)

Section Engine.

Set Default Proof Using "Type".

(** The home directory of the user, [os.path.expanduser('~')]. *)
Variable HOME_DIR : str.

(** [s.encode('utf-8').decode('unicode-escape')], the codec of the standard
    library that turns a written escape into the character it names. *)
Variable unicode_escape : str -> result str.

(** What [get_window_option(server, window_id, 'enabled', 1)] answers, as a
    truth value.  The hook that could change it is off during a run. *)
Variable enabled_in_window : option str -> bool.

(** [get_program_icon]: the glyph for the base name of a program, from the
    custom icons first, else from the built-in ones; empty when unknown. *)
Definition get_program_icon (program_name : str) (options : Options)
  : result str :=
  word0 <- index (str_split program_name) 0 ;;
  base_name <- index_last (split_on 47 word0 []) ;;
  base_name <-
    (if contains base_name (u ":")
     then index (split_on 58 base_name []) 0
     else Ok base_name) ;;
  let icon :=
    match dict_get (custom_icons options) base_name with
    | Some (c :: v) => c :: v
    | _ =>
      match dict_get DEFAULT_PROGRAM_ICONS base_name with
      | Some v => v
      | None => []
      end
    end in
  if startswith icon [92; 117] then unicode_escape icon else Ok icon.

(** [apply_icon_if_in_style]: the name, the icon, or both, by the style. *)
Definition apply_icon_if_in_style (name : str) (options : Options)
  : result str :=
  match icon_style options with
  | NAME => Ok name
  | style =>
    icon <- get_program_icon name options ;;
    match icon with
    | [] => Ok name
    | _ =>
      match style with
      | ICON => Ok icon
      | _ => Ok (icon ++ u " " ++ name)
      end
    end
  end.

(** [rename_window]: the name handed to [rename-window] (and stored as the
    window's [automatic-rename-format]). *)
Definition rename_window (window_name : str) (max_name_len : Z)
           (options : Options) : result str :=
  window_name <- apply_icon_if_in_style window_name options ;;
  Ok (slice_to window_name max_name_len).

(** [fix_pane_path]: the home directory written as a tilde, if asked. *)
Definition fix_pane_path (pane : Pane) (options : Options) : Pane :=
  match pane_current_path (info pane) with
  | None => pane
  | Some path =>
    let path := if use_tilde options then str_replace path HOME_DIR (u "~") else path in
    {| info := {| pane_pid := pane_pid (info pane);
                  window_id := window_id (info pane);
                  pane_current_path := Some path |};
       program := program pane |}
  end.

(** [str(x)] of an optional string. *)
Definition py_str (x : option str) : str :=
  match x with
  | Some s => s
  | None => u "None"
  end.

(** A rename request sent to the server: which of the two loops of
    [rename_windows] sent it, for which pane, and the window id and name. *)
Inductive route : Type :=
| ByProgram
| ByPath.

Record rename : Type := {
  via : route;
  target : TmuxPane;
  rn_window : str;
  rn_name : str
}.

(** The first loop of [rename_windows], over the panes with a program.  It
    returns its rename requests and the panes it hands over to the second
    loop, in order. *)
Fixpoint program_loop (panes : list Pane) (options : Options)
  : result (list rename * list Pane) :=
  match panes with
  | [] => Ok ([], [])
  | pane :: more =>
    if negb (enabled_in_window (window_id (info pane)))
    then program_loop more options
    else
      program_name <- get_program_if_dir (py_str (program pane)) (dir_programs options) ;;
      match program_name with
      | Some program_name =>
        r <- program_loop more options ;;
        Ok (fst r, {| info := info pane; program := Some program_name |} :: snd r)
      | None =>
        prog <- substitute_name (py_str (program pane)) (substitute_sets options) ;;
        name <- rename_window prog (max_name_len options) options ;;
        r <- program_loop more options ;;
        Ok ({| via := ByProgram; target := info pane;
               rn_window := py_str (window_id (info pane)); rn_name := name |}
              :: fst r, snd r)
      end
  end.

(** The second loop, over the panes paired with their display path. *)
Fixpoint path_loop (exclusive_paths : list (Pane * str)) (options : Options)
  : result (list rename) :=
  match exclusive_paths with
  | [] => Ok []
  | (p, display_path) :: more =>
    if negb (enabled_in_window (window_id (info p)))
    then path_loop more options
    else
      display_path <- substitute_name display_path (dir_substitute_sets options) ;;
      display_path <-
        match program p with
        | Some prog =>
          prog <- substitute_name prog (substitute_sets options) ;;
          Ok (prog ++ u ":" ++ display_path)
        | None => Ok display_path
        end ;;
      name <- rename_window display_path (max_name_len options) options ;;
      r <- path_loop more options ;;
      Ok ({| via := ByPath; target := info p;
             rn_window := py_str (window_id (info p)); rn_name := name |} :: r)
  end.

Definition is_none {A : Type} (x : option A) : bool :=
  match x with None => true | Some _ => false end.

Definition panes_with_programs (panes_programs : list Pane) : list Pane :=
  filter (fun p => negb (is_none (program p))) panes_programs.

Definition panes_with_dir (panes_programs : list Pane) : list Pane :=
  filter (fun p => is_none (program p)) panes_programs.

(** [rename_windows], from the active panes of the current session and the
    output of [ps].  [already_running] is what [tmux_guard] yields.  A run
    that completes returns its rename requests in the order sent; for a run
    that raises only the exception is kept. *)
Definition rename_windows (already_running : bool)
           (session_active_panes : list TmuxPane) (ps_output : option bytes)
           (options : Options) : result (list rename) :=
  if already_running then Ok []
  else
    panes_programs <- get_panes_programs session_active_panes ps_output options ;;
    let panes_programs := map (fun p => fix_pane_path p options) panes_programs in
    r <- program_loop (panes_with_programs panes_programs) options ;;
    let exclusive_paths :=
      get_exclusive_paths (panes_with_dir panes_programs ++ snd r) in
    r2 <- path_loop exclusive_paths options ;;
    Ok (fst r ++ r2).

(** [print_programs]: for each pane with a program that is not empty, the
    line printed, [program -> name], the name being the program after the
    substitutions and the icon.  A run that raises keeps the exception only. *)
Fixpoint print_lines (panes_programs : list Pane) (options : Options)
  : result (list str) :=
  match panes_programs with
  | [] => Ok []
  | pane :: more =>
    match program pane with
    | Some (c :: prog) =>
      program_name <- substitute_name (c :: prog) (substitute_sets options) ;;
      program_name <- apply_icon_if_in_style program_name options ;;
      lines <- print_lines more options ;;
      Ok (((c :: prog) ++ u " -> " ++ program_name) :: lines)
    | _ => print_lines more options
    end
  end.

Definition print_programs (session_active_panes : list TmuxPane)
           (ps_output : option bytes) (options : Options) : result (list str) :=
  panes_programs <- get_panes_programs session_active_panes ps_output options ;;
  print_lines panes_programs options.

(** ** Notions used to state the properties *)

(** The longest run of characters of a set at the head of a string. *)
Fixpoint run (cs : cset) (s : str) : str :=
  match s with
  | c :: s' => if in_cset cs c then c :: run cs s' else []
  | [] => []
  end.

Fixpoint after_run (cs : cset) (s : str) : str :=
  match s with
  | c :: s' => if in_cset cs c then after_run cs s' else s
  | [] => []
  end.

(** Something other than a line end follows. *)
Definition has_name (s : str) : bool :=
  match s with
  | c :: _ => negb (c =? 10)
  | [] => false
  end.

(** A leading [/usr/bin/] or [/bin/] is dropped when a name follows it. *)
Definition strip_usr_bin (name : str) : str :=
  match strip_prefix (u "/usr/bin/") name with
  | Some s => if has_name s then s else name
  | None =>
    match strip_prefix (u "/bin/") name with
    | Some s => if has_name s then s else name
    | None => name
    end
  end.

(** The last part of [USR_BIN_REMOVER], [/bin/(.+)]. *)
Definition bin_name : regex := Seq (Lit (u "/bin/")) (Group 2 (Many1 Any)).

(** The process id a line of the snapshot starts with, as [int] reads it:
    a blank line has none, and [int] refuses a first token that is no
    decimal numeral or has more than 4300 digits. *)
Definition line_ppid (line : bytes) : result Z :=
  ppid <- index (bytes_split line) 0 ;;
  int_of_bytes ppid.

Definition is_ok {A : Type} (r : result A) : bool :=
  match r with Ok _ => true | Raise _ => false end.

(** A line the resolver can read: a numeral that [int] reads, then at least
    one token of the command, every token of the command being UTF-8. *)
Definition readable (line : bytes) : bool :=
  match bytes_split line with
  | ppid :: name0 :: args =>
    is_ok (int_of_bytes ppid) && forallb (fun t => is_ok (decode t)) (name0 :: args)
  | _ => false
  end.

(** The self-exclusion test on the decoded arguments of a command. *)
Definition is_script (args : list str) : bool :=
  match args with
  | arg1 :: _ => contains arg1 script_token
  | [] => false
  end.

(** A pane known by its process id only. *)
Definition pane_of (pid : option str) : TmuxPane :=
  {| pane_pid := pid; window_id := None; pane_current_path := None |}.

(** The window of a pane is enabled. *)
Definition enabled_pane (i : TmuxPane) : bool := enabled_in_window (window_id i).

(** What [fix_pane_path] makes of the pane of the session. *)
Definition fixed_info (options : Options) (i : TmuxPane) : TmuxPane :=
  info (fix_pane_path {| info := i; program := None |} options).

(** An instance of the collaborators, for the worked examples: a home
    directory, a codec that reads [\uXXXX] escapes and leaves other text as
    it is, and a session in which every window is enabled. *)
Definition example_home : str := u "/home/u".

Definition hex_val (c : N) : option N :=
  if (48 <=? c) && (c <=? 57) then Some (c - 48)
  else if (97 <=? c) && (c <=? 102) then Some (c - 87)
  else if (65 <=? c) && (c <=? 70) then Some (c - 55)
  else None.

Fixpoint example_codec (s : str) : result str :=
  match s with
  | [] => Ok []
  | c :: s' =>
    match s' with
    | d :: h1 :: h2 :: h3 :: h4 :: s'' =>
      if (c =? 92) && (d =? 117) then
        match hex_val h1, hex_val h2, hex_val h3, hex_val h4 with
        | Some a1, Some a2, Some a3, Some a4 =>
          fmap (cons (a1 * 4096 + a2 * 256 + a3 * 16 + a4)) (example_codec s'')
        | _, _, _, _ => Raise UnicodeDecodeError
        end
      else fmap (cons c) (example_codec s')
    | _ => fmap (cons c) (example_codec s')
    end
  end.

Definition all_enabled (w : option str) : bool := true.

Definition example_pane (pid w d : string) : TmuxPane :=
  {| pane_pid := Some (u pid); window_id := Some (u w);
     pane_current_path := Some (u d) |}.

Definition example_panes : list TmuxPane :=
  [ example_pane "5" "@1" "/home/u/a/x"; example_pane "7" "@2" "/home/u/b/x";
    example_pane "6" "@3" "/srv"; example_pane "8" "@4" "/home/u/proj/web" ].

Definition example_ps : option bytes :=
  Some (b "PPID COMMAND" ++ [x0a] ++
        b " 5 python3 /x/scripts/rename_session_windows.py" ++ [x0a] ++
        b " 5 vim notes.txt" ++ [x0a] ++
        b " 6 /usr/bin/python3 -m http.server 8000" ++ [x0a]).

Definition with_icons (style : IconStyle) (icons : list (str * str))
           (o : Options) : Options :=
  {| shells := shells o; dir_programs := dir_programs o;
     ignored_programs := ignored_programs o; max_name_len := max_name_len o;
     use_tilde := use_tilde o; icon_style := style; custom_icons := icons;
     substitute_sets := substitute_sets o;
     dir_substitute_sets := dir_substitute_sets o;
     show_program_args := show_program_args o |}.

(** The bare name as the specification words it (4.1, rule 2): the [/bin/],
    [/usr/bin/], Nix-profile and current-system prefixes are all removed. *)
Definition strip_interpreter_prefix_spec (name : str) : result str :=
  substitute_name name
    [USR_BIN_REMOVER; CUR_SYSTEM_REMOVER; PROFILE_REMOVER; NIX_STORE_REMOVER].

(** No line end in a byte string. *)
Definition one_line (x : bytes) : bool :=
  forallb (fun c => negb (Byte.to_N c =? 10) && negb (Byte.to_N c =? 13)) x.

(** The key under which [get_program_icon] looks an icon up: the last
    path component of the first word, up to its first colon. *)
Definition icon_key (program_name : str) : result str :=
  word0 <- index (str_split program_name) 0 ;;
  base_name <- index_last (split_on 47 word0 []) ;;
  if contains base_name (u ":")
  then index (split_on 58 base_name []) 0
  else Ok base_name.

(** The icon found for a key, before any escape is decoded. *)
Definition icon_for (options : Options) (key : str) : str :=
  match dict_get (custom_icons options) key with
  | Some (c :: v) => c :: v
  | _ =>
    match dict_get DEFAULT_PROGRAM_ICONS key with
    | Some v => v
    | None => []
    end
  end.

(** A string up to its first [c]. *)
Fixpoint upto (c : char) (s : str) : str :=
  match s with
  | [] => []
  | d :: s' => if d =? c then [] else d :: upto c s'
  end.

Definition no_space (s : str) : bool :=
  forallb (fun c => negb (is_space_unicode c)) s.

Definition no_char (c : char) (s : str) : bool :=
  forallb (fun d => negb (d =? c)) s.

(** The three rules of the default [substitute_sets] that have no name in
    the script. *)
Definition ipython_rule : regex * template :=
  (Seq (Many1 Any) (Seq (Lit (u "ipython"))
     (Group 1 (One (Class false [(51, 51); (50, 50)])))),
   [TLit (u "ipython"); TGroup 1]).

Definition bash_script_rule : regex * template :=
  (Seq (Group 1 (Lit (u "bash"))) (Seq (Lit (u " "))
     (Seq (Group 2 (Many1 Any)) (Seq (Lit (u "/"))
        (Seq (Group 3 (Seq (Many1 Any) (One (Class false [(32, 32); (36, 36)]))))
             (Group 4 (Many1 Any)))))),
   [TGroup 3; TGroup 4]).

Definition poetry_rule : regex * template :=
  (Seq (Many1 Any) (Lit (u "poetry shell")), [TLit (u "poetry")]).

(** The literal [l] starts at no position of [s]. *)
Definition nowhere (l s : str) : Prop :=
  forall n, strip_prefix l (skipn n s) = None.

(** A pane whose program [print_programs] prints: one that is not empty. *)
Definition has_program (p : Pane) : bool :=
  match program p with
  | Some (_ :: _) => true
  | _ => false
  end.

(** Options for the worked examples: with a list of ignored programs, and
    with the tilde asked for. *)
Definition ignoring (l : list str) (o : Options) : Options :=
  {| shells := shells o; dir_programs := dir_programs o;
     ignored_programs := l; max_name_len := max_name_len o;
     use_tilde := use_tilde o; icon_style := icon_style o;
     custom_icons := custom_icons o; substitute_sets := substitute_sets o;
     dir_substitute_sets := dir_substitute_sets o;
     show_program_args := show_program_args o |}.

Definition with_tilde (o : Options) : Options :=
  {| shells := shells o; dir_programs := dir_programs o;
     ignored_programs := ignored_programs o; max_name_len := max_name_len o;
     use_tilde := true; icon_style := icon_style o;
     custom_icons := custom_icons o; substitute_sets := substitute_sets o;
     dir_substitute_sets := dir_substitute_sets o;
     show_program_args := show_program_args o |}.

(** The program of a pane starts with one of the directory programs. *)
Definition runs_dir_program (options : Options) (p : Pane) : bool :=
  match str_split (py_str (program p)) with
  | word :: _ => str_in word (dir_programs options)
  | [] => false
  end.

(** The panes of enabled windows that the first loop names itself, and
    those it leaves to the second loop. *)
Definition named_by_program (options : Options) (p : Pane) : bool :=
  enabled_pane (info p) && negb (runs_dir_program options p).

Definition left_to_paths (options : Options) (p : Pane) : bool :=
  enabled_pane (info p) && runs_dir_program options p.

(** [r] is the request of the first loop for [p]: the window of [p] named
    after its program, substituted, decorated and cut. *)
Definition program_label (options : Options) (p : Pane) (r : rename) : Prop :=
  target r = info p /\
  rn_window r = py_str (window_id (info p)) /\
  exists prog,
    substitute_name (py_str (program p)) (substitute_sets options) = Ok prog /\
    rename_window prog (max_name_len options) options = Ok (rn_name r).

(** [h] is [p] as the first loop appends it to [panes_with_dir]: the same
    pane, its program line re-joined by single spaces. *)
Definition handed_for (p h : Pane) : Prop :=
  info h = info p /\
  program h = Some (join (u " ") (str_split (py_str (program p)))).

(** [r] is the request of the second loop for a pane and its display path:
    the window named after the path, behind the program and a colon if the
    pane has a program. *)
Definition path_label (options : Options) (x : Pane * str) (r : rename) : Prop :=
  target r = info (fst x) /\
  rn_window r = py_str (window_id (info (fst x))) /\
  exists display_path,
    substitute_name (snd x) (dir_substitute_sets options) = Ok display_path /\
    match program (fst x) with
    | Some prog =>
      exists prog',
        substitute_name prog (substitute_sets options) = Ok prog' /\
        rename_window (prog' ++ u ":" ++ display_path)
                      (max_name_len options) options = Ok (rn_name r)
    | None =>
      rename_window display_path (max_name_len options) options = Ok (rn_name r)
    end.

(** A pane that runs an editor, and the output of [ps] that shows it. *)
Definition vim_pane : Pane :=
  {| info := example_pane "5" "@1" "/home/u/a/x";
     program := Some (u "vim notes.txt") |}.

Definition vim_ps : option bytes :=
  Some (b "PPID COMMAND" ++ [x0a] ++ b "    5 vim notes.txt" ++ [x0a]).

(** A session in which only window [@3] is enabled. *)
Definition only_third (w : option str) : bool :=
  match w with
  | Some s => str_eqb s (u "@3")
  | None => false
  end.

(** * Properties *)

(** ** Strings *)

Lemma str_eqb_eq (x y : str) : str_eqb x y = true <-> x = y.
Proof.
  revert y; induction x as [|c x IH]; intros [|d y]; simpl; split;
    try congruence; try reflexivity.
  - intros H. apply andb_true_iff in H as [H1 H2].
    apply N.eqb_eq in H1. apply IH in H2. congruence.
  - intros H. injection H as -> ->.
    rewrite N.eqb_refl. simpl. now apply IH.
Qed.

Lemma str_eqb_refl (x : str) : str_eqb x x = true.
Proof. now apply str_eqb_eq. Qed.

Lemma str_eqb_neq (x y : str) : str_eqb x y = false <-> x <> y.
Proof.
  split.
  - intros H E. apply str_eqb_eq in E. congruence.
  - intros H. destruct (str_eqb x y) eqn:E; [|reflexivity].
    apply str_eqb_eq in E. contradiction.
Qed.

Lemma strip_prefix_some (p s r : str) :
  strip_prefix p s = Some r <-> s = p ++ r.
Proof.
  revert s; induction p as [|c p IH]; intros s; simpl.
  - split; congruence.
  - destruct s as [|d s].
    + split; discriminate.
    + destruct (N.eqb_spec c d) as [->|Hne].
      * rewrite IH. split; congruence.
      * split; [discriminate|]. intros H. injection H as H _. congruence.
Qed.

Lemma strip_prefix_app (p r : str) : strip_prefix p (p ++ r) = Some r.
Proof. now apply strip_prefix_some. Qed.

Lemma strip_prefix_self (p : str) : strip_prefix p p = Some [].
Proof. apply strip_prefix_some. now rewrite app_nil_r. Qed.

Lemma strip_prefix_split (p q s : str) :
  strip_prefix (p ++ q) s =
  match strip_prefix p s with
  | Some r => strip_prefix q r
  | None => None
  end.
Proof.
  revert s; induction p as [|c p IH]; intros s; simpl; [reflexivity|].
  destruct s as [|d s]; [reflexivity|].
  destruct (c =? d); [apply IH|reflexivity].
Qed.

Lemma contains_startswith (s p : str) :
  contains s p = false -> startswith s p = false.
Proof.
  destruct s; simpl; intros H; apply orb_false_iff in H as [H _]; exact H.
Qed.

(** ** The matcher *)

Lemma run_after_run (cs : cset) (s : str) : run cs s ++ after_run cs s = s.
Proof.
  induction s as [|c s IH]; simpl; [reflexivity|].
  destruct (in_cset cs c); simpl; congruence.
Qed.

Lemma firstn_run (cs : cset) (s : str) : firstn (length (run cs s)) s = run cs s.
Proof.
  induction s as [|c s IH]; simpl; [reflexivity|].
  destruct (in_cset cs c); simpl; congruence.
Qed.

(** Under a continuation that takes whatever it is given, a greedy
    repetition takes the longest run. *)
Lemma many_greedy (cs : cset) (k : cont) (s : str) (p : nat) (g : list (nat * str)) :
  (forall st, k st <> None) ->
  many cs k s p g = k (MState (after_run cs s) (p + length (run cs s)) g).
Proof.
  intros Hk. revert p; induction s as [|c s IH]; intros p; simpl.
  - now rewrite Nat.add_0_r.
  - destruct (in_cset cs c); simpl.
    + rewrite IH. rewrite Nat.add_succ_r. simpl.
      destruct (k _) eqn:E; [reflexivity|]. now apply Hk in E.
    + now rewrite Nat.add_0_r.
Qed.

(** A pattern anchored at the start matches nowhere but at the start. *)
Lemma sub_loop_anchored (fuel : nat) (r : regex) (t : template) (s : str)
      (p : nat) (ma : bool) :
  p <> O -> sub_loop fuel (Seq Bol r) t s p ma = s.
Proof.
  revert s p ma; induction fuel as [|fuel IH]; intros s p ma Hp; simpl;
    [reflexivity|].
  unfold match_at. simpl. destruct p as [|p]; [congruence|].
  destruct s as [|c s]; [reflexivity|].
  now rewrite IH.
Qed.

(** A literal that does not occur is replaced nowhere. *)
Lemma sub_loop_absent (fuel : nat) (l : str) (t : template) (s : str)
      (p : nat) (ma : bool) :
  contains s l = false -> sub_loop fuel (Lit l) t s p ma = s.
Proof.
  revert s p ma; induction fuel as [|fuel IH]; intros s p ma H; simpl;
    [reflexivity|].
  unfold match_at. simpl.
  pose proof (contains_startswith _ _ H) as Hs. unfold startswith in Hs.
  destruct (strip_prefix l s); [discriminate|].
  destruct s as [|c s]; [reflexivity|].
  simpl in H. apply orb_false_iff in H as [_ H].
  now rewrite IH.
Qed.

(** ** The prefix of the first token that the resolver drops *)

Lemma bin_name_match (s : str) (p : nat) (g : list (nat * str)) :
  rmatch bin_name (fun st' => Some st') (MState s p g) =
  match strip_prefix (u "/bin/") s with
  | Some s2 =>
    if has_name s2
    then Some (MState (after_run Any s2) (p + 5 + length (run Any s2))
                      ((2%nat, run Any s2) :: g))
    else None
  | None => None
  end.
Proof.
  unfold bin_name. cbn [rmatch rest pos caps].
  destruct (strip_prefix (u "/bin/") s) as [s2|]; [|reflexivity].
  unfold step1. cbn [rest pos caps].
  destruct s2 as [|c s2]; [reflexivity|].
  cbn [has_name in_cset run after_run].
  destruct (negb (c =? 10)); [|reflexivity].
  rewrite many_greedy by discriminate.
  cbn [rest pos caps length].
  replace (p + length (u "/bin/"))%nat with (p + 5)%nat by reflexivity.
  f_equal. f_equal.
  - lia.
  - f_equal. f_equal.
    replace (S (p + 5) + length (run Any s2) - (p + 5))%nat
      with (S (length (run Any s2))) by lia.
    cbn [firstn]. f_equal. apply firstn_run.
Qed.

Lemma usr_then_bin (s s1 : str) :
  strip_prefix (u "/usr") s = Some s1 -> strip_prefix (u "/bin/") s = None.
Proof.
  intros H. apply strip_prefix_some in H. subst s. reflexivity.
Qed.

Lemma usr_bin_match (s : str) :
  match_at (fst USR_BIN_REMOVER) s 0 false =
  match strip_prefix (u "/usr/bin/") s with
  | Some s2 =>
    if has_name s2
    then Some (MState (after_run Any s2) (9 + length (run Any s2))
                      [(2%nat, run Any s2); (1%nat, u "/usr")])
    else None
  | None =>
    match strip_prefix (u "/bin/") s with
    | Some s2 =>
      if has_name s2
      then Some (MState (after_run Any s2) (5 + length (run Any s2))
                        [(2%nat, run Any s2)])
      else None
    | None => None
    end
  end.
Proof.
  unfold match_at.
  change (fst USR_BIN_REMOVER)
    with (Seq Bol (Seq (Opt (Group 1 (Lit (u "/usr")))) bin_name)).
  cbn [rmatch pos rest caps andb].
  change (u "/usr/bin/") with (u "/usr" ++ u "/bin/").
  rewrite strip_prefix_split, bin_name_match.
  destruct (strip_prefix (u "/usr") s) as [s1|] eqn:E1.
  - rewrite bin_name_match, (usr_then_bin _ _ E1).
    destruct (strip_prefix (u "/bin/") s1) as [s2|]; [|reflexivity].
    destruct (has_name s2); [|reflexivity].
    cbn [first_of]. apply strip_prefix_some in E1. subst s.
    reflexivity.
  - reflexivity.
Qed.

Lemma usr_bin_template_ok :
  template_ok (fst USR_BIN_REMOVER) (snd USR_BIN_REMOVER) = true.
Proof. reflexivity. Qed.

Lemma program_name_stripped_eq (name : str) :
  program_name_stripped name = Ok (strip_usr_bin name).
Proof.
  unfold program_name_stripped, re_sub. rewrite usr_bin_template_ok.
  f_equal.
  replace (2 * length name + 2)%nat with (S (2 * length name + 1)) by lia.
  cbn [sub_loop]. rewrite usr_bin_match. unfold strip_usr_bin.
  assert (Hno : match name with
                | [] => []
                | c :: s' =>
                  c :: sub_loop (2 * length name + 1) (fst USR_BIN_REMOVER)
                         (snd USR_BIN_REMOVER) s' 1 false
                end = name).
  { destruct name as [|c s']; [reflexivity|].
    f_equal. now apply sub_loop_anchored. }
  assert (Hyes : forall s2 n g,
             n <> O -> group_text 2 g = run Any s2 ->
             expand (snd USR_BIN_REMOVER) (firstn (n - 0) name) g ++
             sub_loop (2 * length name + 1) (fst USR_BIN_REMOVER)
               (snd USR_BIN_REMOVER) (after_run Any s2) n (Nat.eqb n 0) = s2).
  { intros s2 n g Hn Hg.
    change (expand (snd USR_BIN_REMOVER) (firstn (n - 0) name) g)
      with (group_text 2 g ++ []).
    rewrite Hg, app_nil_r.
    change (fst USR_BIN_REMOVER)
      with (Seq Bol (Seq (Opt (Group 1 (Lit (u "/usr")))) bin_name)).
    rewrite sub_loop_anchored by assumption. apply run_after_run. }
  destruct (strip_prefix (u "/usr/bin/") name) as [s2|].
  - destruct (has_name s2); [|exact Hno].
    cbn [pos rest caps]. apply Hyes; [discriminate|reflexivity].
  - destruct (strip_prefix (u "/bin/") name) as [s2|]; [|exact Hno].
    destruct (has_name s2); [|exact Hno].
    cbn [pos rest caps]. apply Hyes; [discriminate|reflexivity].
Qed.

(** ** The resolver, line by line *)

Lemma resolve_line_other (line : bytes) (pid : str) (options : Options) (a c : Z) :
  line_ppid line = Ok a -> int_of_str pid = Ok c -> a <> c ->
  resolve_line line pid options = Ok Continue.
Proof.
  unfold line_ppid, resolve_line. intros Ha Hc Hne.
  destruct (index (bytes_split line) 0) as [ppid|e]; [|discriminate].
  simpl in *. rewrite Ha, Hc. simpl.
  destruct (Z.eqb_spec a c); [contradiction|reflexivity].
Qed.

(** A line whose process id is the pane's: the three filtering tests, in
    order, then the three ways of returning. *)
Lemma resolve_line_matched (line : bytes) (pid : str) (options : Options)
      (ppid name0 : bytes) (args : list bytes) (c : Z) (name : str) :
  bytes_split line = ppid :: name0 :: args ->
  int_of_bytes ppid = Ok c -> int_of_str pid = Ok c ->
  decode name0 = Ok name ->
  resolve_line line pid options =
  (skip <- match args with
           | arg1 :: _ => (d <- decode arg1 ;; Ok (contains d script_token))
           | [] => Ok false
           end ;;
   if skip then Ok Continue
   else if str_in (strip_usr_bin name) (ignored_programs options) then Ok Continue
   else if str_in (strip_usr_bin name) (shells options)
        then fmap Return (parse_shell_command (name0 :: args))
   else if negb (show_program_args options) then Ok (Return (Some name))
   else fmap (fun s => Return (Some s)) (decode (join (b " ") (name0 :: args)))).
Proof.
  intros Hs Ha Hc Hn. unfold resolve_line. rewrite Hs.
  cbn [index nth_error bind skipn]. rewrite Ha, Hc. cbn [bind].
  rewrite Z.eqb_refl, Hn. cbn [bind].
  rewrite program_name_stripped_eq. cbn [bind fmap].
  destruct args as [|arg1 args]; cbn [length Nat.ltb Nat.leb nth_error bind];
    reflexivity.
Qed.

Lemma resolve_lines_skip (pre : list bytes) (line : bytes) (more : list bytes)
      (pid : str) (options : Options) :
  Forall (fun l => resolve_line l pid options = Ok Continue) pre ->
  resolve_lines (pre ++ line :: more) pid options =
  resolve_lines (line :: more) pid options.
Proof.
  induction 1 as [|l pre Hl _ IH]; [reflexivity|].
  cbn [app resolve_lines]. rewrite Hl. exact IH.
Qed.

(** ** UTF-8: decoding a concatenation *)

Lemma utf8_decode_app_bounded (n : nat) :
  forall x y dx dy, (length x <= n)%nat ->
    utf8_decode x = Some dx -> utf8_decode y = Some dy ->
    utf8_decode (x ++ y) = Some (dx ++ dy).
Proof.
  induction n as [|n IH]; intros x y dx dy Hlen Hx Hy.
  - destruct x; [|simpl in Hlen; lia]. simpl in Hx. injection Hx as <-. exact Hy.
  - destruct x as [|b0 r0].
    { simpl in Hx. injection Hx as <-. exact Hy. }
    simpl in Hlen.
    assert (Hrec : forall r d, (length r <= n)%nat -> utf8_decode r = Some d ->
                               utf8_decode (r ++ y) = Some (d ++ dy))
      by (intros; eapply IH; eauto).
    cbn [utf8_decode app] in *.
    destruct (b0 <? 128).
    { destruct (utf8_decode r0) as [d|] eqn:E; [|discriminate].
      simpl in Hx. injection Hx as <-.
      rewrite (Hrec r0 d) by (auto; lia). reflexivity. }
    destruct (b0 <? 194); [discriminate|].
    destruct (b0 <? 224).
    { destruct r0 as [|b1 r1]; [discriminate|]. cbn [app].
      destruct (is_cont b1); [|discriminate].
      destruct (utf8_decode r1) as [d|] eqn:E; [|discriminate].
      simpl in Hx. injection Hx as <-. simpl in Hlen.
      rewrite (Hrec r1 d) by (auto; lia). reflexivity. }
    destruct (b0 <? 240).
    { destruct r0 as [|b1 [|b2 r2]]; try discriminate. cbn [app].
      match goal with |- context [if ?c then _ else _] => destruct c end;
        [|discriminate].
      destruct (utf8_decode r2) as [d|] eqn:E; [|discriminate].
      simpl in Hx. injection Hx as <-. simpl in Hlen.
      rewrite (Hrec r2 d) by (auto; lia). reflexivity. }
    destruct (b0 <? 245); [|discriminate].
    destruct r0 as [|b1 [|b2 [|b3 r3]]]; try discriminate. cbn [app].
    match goal with |- context [if ?c then _ else _] => destruct c end;
      [|discriminate].
    destruct (utf8_decode r3) as [d|] eqn:E; [|discriminate].
    simpl in Hx. injection Hx as <-. simpl in Hlen.
    rewrite (Hrec r3 d) by (auto; lia). reflexivity.
Qed.

Lemma decode_app (x y : bytes) (dx dy : str) :
  decode x = Ok dx -> decode y = Ok dy -> decode (x ++ y) = Ok (dx ++ dy).
Proof.
  unfold decode. rewrite map_app. intros Hx Hy.
  destruct (utf8_decode (map to_N x)) as [d1|] eqn:E1; [|discriminate].
  destruct (utf8_decode (map to_N y)) as [d2|] eqn:E2; [|discriminate].
  injection Hx as <-. injection Hy as <-.
  now rewrite (utf8_decode_app_bounded (length (map to_N x)) _ _ _ _ (le_n _) E1 E2).
Qed.

(** Joining with spaces and decoding commute when every token decodes. *)
Lemma decode_join (tokens : list bytes) (strs : list str) :
  mapM decode tokens = Ok strs ->
  decode (join (b " ") tokens) = Ok (join (u " ") strs).
Proof.
  revert strs; induction tokens as [|t tokens IH]; intros strs H.
  - simpl in H. injection H as <-. reflexivity.
  - cbn [mapM] in H. destruct (decode t) as [d|] eqn:Ed; [|discriminate].
    cbn [bind] in H. destruct (mapM decode tokens) as [ds|] eqn:Em; [|discriminate].
    cbn [bind] in H. injection H as <-.
    destruct tokens as [|t' tokens].
    + simpl in Em. injection Em as <-. exact Ed.
    + destruct ds as [|d' ds].
      { cbn [mapM] in Em. destruct (decode t'); [|discriminate].
        cbn [bind] in Em. destruct (mapM decode tokens); discriminate. }
      change (join (b " ") (t :: t' :: tokens))
        with (t ++ b " " ++ join (b " ") (t' :: tokens)).
      change (join (u " ") (d :: d' :: ds))
        with (d ++ u " " ++ join (u " ") (d' :: ds)).
      apply decode_app; [exact Ed|].
      apply decode_app; [reflexivity|]. now apply IH.
Qed.

Lemma mapM_decode_total (tokens : list bytes) :
  forallb (fun t => is_ok (decode t)) tokens = true ->
  exists strs, mapM decode tokens = Ok strs /\ length strs = length tokens.
Proof.
  induction tokens as [|t tokens IH]; intros H.
  - now exists [].
  - cbn [forallb] in H. apply andb_true_iff in H as [Ht H].
    destruct (IH H) as (strs & Hs & Hl).
    destruct (decode t) as [d|] eqn:Ed; [|discriminate].
    exists (d :: strs). cbn [mapM]. rewrite Ed, Hs. cbn [bind length]. auto.
Qed.

Lemma mapM_length {A B : Type} (f : A -> result B) (l : list A) (ys : list B) :
  mapM f l = Ok ys -> length ys = length l.
Proof.
  revert ys; induction l as [|x l IH]; intros ys H.
  - simpl in H. now injection H as <-.
  - cbn [mapM] in H. destruct (f x); [|discriminate]. cbn [bind] in H.
    destruct (mapM f l) as [zs|]; [|discriminate]. cbn [bind] in H.
    injection H as <-. simpl. now rewrite (IH zs).
Qed.

Lemma parse_shell_command_eq (shell_cmd : list bytes) (name : str) (args : list str) :
  mapM decode shell_cmd = Ok (name :: args) ->
  parse_shell_command shell_cmd =
  Ok match args with
     | [] => None
     | arg1 :: more => Some (join (u " ") (path_name arg1 :: more))
     end.
Proof.
  intros H. unfold parse_shell_command.
  assert (Hl : length shell_cmd = S (length args))
    by (rewrite <- (mapM_length _ _ _ H); reflexivity).
  rewrite Hl, H. cbn [bind].
  destruct args as [|arg1 more]; reflexivity.
Qed.

Lemma resolve_line_total (line : bytes) (pid : str) (options : Options) (c : Z) :
  readable line = true -> int_of_str pid = Ok c ->
  exists s, resolve_line line pid options = Ok s.
Proof.
  unfold readable. intros Hr Hc.
  destruct (bytes_split line) as [|ppid [|name0 args]] eqn:Hs; try discriminate.
  apply andb_true_iff in Hr as [Hp Hd].
  destruct (int_of_bytes ppid) as [a|] eqn:Ha; [|discriminate].
  destruct (Z.eq_dec a c) as [->|Hne].
  - destruct (mapM_decode_total _ Hd) as (strs & Hm & Hlen).
    destruct strs as [|name strs]; [discriminate|].
    assert (Hn : decode name0 = Ok name).
    { cbn [mapM] in Hm. destruct (decode name0); [|discriminate].
      cbn [bind] in Hm. destruct (mapM decode args); [|discriminate].
      cbn [bind] in Hm. congruence. }
    rewrite (resolve_line_matched _ _ options _ _ _ _ _ Hs Ha Hc Hn).
    rewrite (parse_shell_command_eq _ _ _ Hm), (decode_join _ _ Hm).
    assert (Ha1 : exists f, match args with
                            | arg1 :: _ => (d <- decode arg1 ;; Ok (contains d script_token))
                            | [] => Ok false
                            end = Ok f).
    { destruct args as [|arg1 args]; [now exists false|].
      cbn [forallb] in Hd. apply andb_true_iff in Hd as [_ Hd].
      apply andb_true_iff in Hd as [Hd _].
      destruct (decode arg1); [|discriminate]. cbn [bind]. eauto. }
    destruct Ha1 as [f ->]. cbn [bind fmap].
    destruct f; [eauto|].
    destruct (str_in _ _); [eauto|].
    destruct (str_in _ _); [eauto|].
    destruct (negb _); eauto.
  - exists Continue. eapply resolve_line_other; eauto.
    unfold line_ppid. rewrite Hs. exact Ha.
Qed.

(** ** Claims on the Foreground Program Resolver *)

(** C1, as the code has it: for every pane whose process id, a numeral that
    [int] reads, equals the process id of no line of the snapshot, each line
    starting with a numeral that [int] reads (so of 4300 digits at most), the
    resolver returns [None]; it does not signal a failure. *)
Theorem unmatched_pid_resolves_to_none
        (lines : list bytes) (pane : TmuxPane) (options : Options)
        (pid : str) (c : Z) :
  pane_pid pane = Some pid ->
  int_of_str pid = Ok c ->
  Forall (fun line => exists a, line_ppid line = Ok a /\ a <> c) lines ->
  get_current_program lines pane options = Ok None.
Proof.
  intros Hp Hc Hall. unfold get_current_program. rewrite Hp.
  induction Hall as [|line lines (a & Ha & Hne) _ IH]; [reflexivity|].
  cbn [resolve_lines]. now rewrite (resolve_line_other _ _ options _ _ Ha Hc Hne).
Qed.

Lemma unmatched_pid_resolves_to_none_witness :
  get_current_program [b "1 bash"; b "1 vim notes.txt"]
                      (pane_of (Some (u "5"))) default_options = Ok None.
Proof.
  apply (unmatched_pid_resolves_to_none _ _ _ (u "5") 5%Z).
  - reflexivity.
  - reflexivity.
  - apply Forall_cons; [exists 1%Z; split; [reflexivity|discriminate]|].
    apply Forall_cons; [exists 1%Z; split; [reflexivity|discriminate]|].
    apply Forall_nil.
Defined.

(** C1 as stated fails: a pane whose process id matches no line gets [None],
    not a failure. *)
Lemma unmatched_pid_does_not_raise :
  Forall (fun line => exists a, line_ppid line = Ok a /\ a <> 5%Z) [b "1 vim"] /\
  get_current_program [b "1 vim"] (pane_of (Some (u "5"))) default_options = Ok None /\
  ~ raises (get_current_program [b "1 vim"] (pane_of (Some (u "5"))) default_options).
Proof.
  split; [|split].
  - apply Forall_cons; [|apply Forall_nil].
    exists 1%Z. split; [reflexivity|discriminate].
  - reflexivity.
  - intros [e He]. discriminate He.
Qed.

(** C9, as the code has it: a pane without process id makes the resolver
    raise [ValueError] whatever the snapshot holds; with a process id that
    [int] reads and a snapshot of readable lines (a first token that [int]
    reads, so a numeral of 4300 digits at most, then a command of UTF-8
    tokens) it does not raise. *)
Theorem absent_pid_raises_value_error :
  (forall lines pane options,
      pane_pid pane = None ->
      get_current_program lines pane options = Raise ValueError) /\
  (forall lines pane options pid c,
      pane_pid pane = Some pid ->
      int_of_str pid = Ok c ->
      forallb readable lines = true ->
      exists r, get_current_program lines pane options = Ok r).
Proof.
  split.
  - intros lines pane options H. unfold get_current_program. now rewrite H.
  - intros lines pane options pid c Hp Hc Hall.
    unfold get_current_program. rewrite Hp.
    induction lines as [|line lines IH]; [now exists None|].
    cbn [forallb] in Hall. apply andb_true_iff in Hall as [Hl Hall].
    destruct (resolve_line_total _ _ options _ Hl Hc) as [s Hs].
    cbn [resolve_lines]. rewrite Hs. cbn [bind].
    destruct s; [now apply IH|eauto].
Qed.

Lemma absent_pid_raises_value_error_witness :
  get_current_program [b "5 vim"] (pane_of None) default_options = Raise ValueError /\
  exists r, get_current_program [b "1 bash"; b "5 /usr/bin/vim a.txt"]
                                (pane_of (Some (u "5"))) default_options = Ok r.
Proof.
  destruct absent_pid_raises_value_error as [H1 H2]. split.
  - apply H1. reflexivity.
  - apply (H2 _ _ _ (u "5") 5%Z); reflexivity.
Defined.

(** C9 as stated fails: a pane with a process id also makes the resolver
    raise, here on a command argument that is not UTF-8. *)
Lemma present_pid_can_raise :
  pane_pid (pane_of (Some (u "5"))) <> None /\
  get_current_program [b "5 vim " ++ [xff]] (pane_of (Some (u "5")))
                      default_options = Raise UnicodeDecodeError.
Proof. split; [discriminate|reflexivity]. Qed.

(** C7: a command that reaches the shell test, its bare first token being in
    the shell list, resolves to the base name of its second token followed
    by the remaining tokens, joined by spaces; to [None] when it has one
    token only.  The command is the first of the pane that the self-exclusion
    and ignore-list tests, which come before, let through. *)
Theorem shell_command_is_unwrapped
        (pre : list bytes) (line : bytes) (more : list bytes)
        (pane : TmuxPane) (options : Options) (pid : str) (c : Z)
        (ppid : bytes) (cmd : list bytes) (name bare : str) (args : list str) :
  pane_pid pane = Some pid ->
  int_of_str pid = Ok c ->
  Forall (fun l => resolve_line l pid options = Ok Continue) pre ->
  bytes_split line = ppid :: cmd ->
  int_of_bytes ppid = Ok c ->
  mapM decode cmd = Ok (name :: args) ->
  is_script args = false ->
  program_name_stripped name = Ok bare ->
  str_in bare (ignored_programs options) = false ->
  str_in bare (shells options) = true ->
  get_current_program (pre ++ line :: more) pane options =
  Ok match args with
     | [] => None
     | arg1 :: rest => Some (join (u " ") (path_name arg1 :: rest))
     end.
Proof.
  intros Hp Hc Hpre Hs Ha Hm Hscript Hbare Hign Hsh.
  unfold get_current_program. rewrite Hp, resolve_lines_skip by exact Hpre.
  rewrite program_name_stripped_eq in Hbare. injection Hbare as <-.
  destruct cmd as [|name0 args0]; [discriminate|].
  assert (Hn : decode name0 = Ok name).
  { cbn [mapM] in Hm. destruct (decode name0); [|discriminate].
    cbn [bind] in Hm. destruct (mapM decode args0); [|discriminate].
    cbn [bind] in Hm. congruence. }
  assert (Hskip : match args0 with
                  | arg1 :: _ => (d <- decode arg1 ;; Ok (contains d script_token))
                  | [] => Ok false
                  end = Ok false).
  { cbn [mapM] in Hm. rewrite Hn in Hm. cbn [bind] in Hm.
    destruct args0 as [|arg1 args0]; [reflexivity|].
    cbn [mapM] in Hm. destruct (decode arg1) as [d|]; [|discriminate].
    cbn [bind] in Hm. destruct (mapM decode args0); [|discriminate].
    cbn [bind] in Hm. injection Hm as <-. cbn [is_script] in Hscript.
    cbn [bind]. now rewrite Hscript. }
  cbn [resolve_lines].
  rewrite (resolve_line_matched _ _ options _ _ _ _ _ Hs Ha Hc Hn).
  rewrite Hskip. cbn [bind]. rewrite Hign, Hsh.
  rewrite (parse_shell_command_eq _ _ _ Hm). reflexivity.
Qed.

Lemma shell_command_is_unwrapped_witness :
  get_current_program
    [b "1 bash"; b "5 /bin/bash /opt/tools/deploy.sh --fast prod"; b "5 vim"]
    (pane_of (Some (u "5"))) default_options =
  Ok (Some (u "deploy.sh --fast prod")).
Proof.
  apply (shell_command_is_unwrapped
           [b "1 bash"] (b "5 /bin/bash /opt/tools/deploy.sh --fast prod")
           [b "5 vim"] (pane_of (Some (u "5"))) default_options (u "5") 5%Z
           (b "5") [b "/bin/bash"; b "/opt/tools/deploy.sh"; b "--fast"; b "prod"]
           (u "/bin/bash") (u "bash")
           [u "/opt/tools/deploy.sh"; u "--fast"; u "prod"]).
  - reflexivity.
  - reflexivity.
  - apply Forall_cons; [reflexivity|apply Forall_nil].
  - reflexivity.
  - reflexivity.
  - reflexivity.
  - reflexivity.
  - reflexivity.
  - reflexivity.
  - reflexivity.
Defined.

(** C5, as the code has it: the bare program name behind the ignore-list and
    shell-list tests is the first token without a leading [/bin/] or
    [/usr/bin/], when a name follows that prefix; a token with any other
    prefix, the Nix-profile and current-system prefixes among them, is kept
    whole. *)
Theorem filter_name_drops_usr_bin_only :
  (forall name, program_name_stripped name = Ok (strip_usr_bin name)) /\
  (forall rest, has_name rest = true ->
     strip_usr_bin (u "/bin/" ++ rest) = rest /\
     strip_usr_bin (u "/usr/bin/" ++ rest) = rest) /\
  (forall name,
     startswith name (u "/bin/") = false ->
     startswith name (u "/usr/bin/") = false ->
     strip_usr_bin name = name) /\
  (forall rest,
     strip_usr_bin (u "/run/current-system/sw/bin/" ++ rest) =
       u "/run/current-system/sw/bin/" ++ rest /\
     strip_usr_bin (u "/home/" ++ rest) = u "/home/" ++ rest /\
     strip_usr_bin (u "/nix/store/" ++ rest) = u "/nix/store/" ++ rest).
Proof.
  split; [exact program_name_stripped_eq|]. split; [|split].
  - intros rest Hr. split.
    + unfold strip_usr_bin.
      replace (strip_prefix (u "/usr/bin/") (u "/bin/" ++ rest)) with (@None str)
        by reflexivity.
      now rewrite strip_prefix_app, Hr.
    + unfold strip_usr_bin. now rewrite strip_prefix_app, Hr.
  - intros name H1 H2. unfold strip_usr_bin, startswith in *.
    destruct (strip_prefix (u "/usr/bin/") name); [discriminate|].
    destruct (strip_prefix (u "/bin/") name); [discriminate|reflexivity].
  - intros rest. repeat split; reflexivity.
Qed.

Lemma filter_name_drops_usr_bin_only_witness :
  strip_usr_bin (u "/bin/" ++ u "zsh") = u "zsh" /\
  strip_usr_bin (u "/usr/bin/" ++ u "zsh") = u "zsh" /\
  strip_usr_bin (u "/opt/bin/zsh") = u "/opt/bin/zsh".
Proof.
  destruct filter_name_drops_usr_bin_only as (_ & H2 & H3 & _).
  split; [|split].
  - apply (H2 (u "zsh")). reflexivity.
  - apply (H2 (u "zsh")). reflexivity.
  - apply (H3 (u "/opt/bin/zsh")); reflexivity.
Defined.

(** C5 as stated fails: a shell under the current-system profile keeps its
    prefix in the filtering name, so it is not taken for a shell, where the
    four-prefix reading of the specification gives [bash]. *)
Lemma current_system_prefix_is_kept :
  strip_interpreter_prefix_spec (u "/run/current-system/sw/bin/bash") = Ok (u "bash") /\
  program_name_stripped (u "/run/current-system/sw/bin/bash") =
    Ok (u "/run/current-system/sw/bin/bash") /\
  get_current_program [b "5 /run/current-system/sw/bin/bash"]
                      (pane_of (Some (u "5"))) default_options =
    Ok (Some (u "/run/current-system/sw/bin/bash")) /\
  get_current_program [b "5 /usr/bin/bash"]
                      (pane_of (Some (u "5"))) default_options = Ok None.
Proof. repeat split; reflexivity. Qed.

(** ** Claims on the Substitution Pipeline *)

Lemma substitute_name_app (name : str) (rules1 rules2 : list (regex * template)) :
  substitute_name name (rules1 ++ rules2) =
  (name' <- substitute_name name rules1 ;; substitute_name name' rules2).
Proof.
  revert name; induction rules1 as [|[pattern replacement] rules1 IH]; intros name.
  - reflexivity.
  - cbn [app substitute_name].
    destruct (re_sub pattern replacement name) as [name'|e]; [|reflexivity].
    cbn [bind]. apply IH.
Qed.

(** A literal pattern rewrites the string equal to it into the replacement. *)
Lemma re_sub_lit_self (a r : str) : re_sub (Lit a) [TLit r] a = Ok r.
Proof.
  unfold re_sub. cbn [template_ok forallb andb]. f_equal.
  replace (2 * length a + 2)%nat with (S (S (2 * length a))) by lia.
  cbn [sub_loop]. unfold match_at at 1. cbn [rmatch rest pos caps andb].
  rewrite strip_prefix_self. cbn [pos rest caps expand flat_map].
  rewrite app_nil_r.
  assert (E : match_at (Lit a) [] (0 + length a) (Nat.eqb (0 + length a) 0) = None).
  { unfold match_at. cbn [rmatch rest pos caps].
    destruct a as [|x a]; [reflexivity|reflexivity]. }
  rewrite E. now rewrite app_nil_r.
Qed.

(** A literal pattern that does not occur leaves the string as it is. *)
Lemma re_sub_lit_absent (l r s : str) :
  contains s l = false -> re_sub (Lit l) [TLit r] s = Ok s.
Proof.
  intros H. unfold re_sub. cbn [template_ok forallb andb]. f_equal.
  now apply sub_loop_absent.
Qed.

Lemma contains_self (s : str) : contains s s = true.
Proof.
  destruct s; cbn [contains]; unfold startswith; rewrite strip_prefix_self;
    reflexivity.
Qed.

(** C3: the pipeline applies the rules in list order, each by [re.sub] on
    the output of the one before, and skips none.  For literal [A], [B] and
    [C], the rules [A -> B], [B -> C] turn [A] into [C]; in the other order,
    when [B] does not occur in [A] and differs from [C], they turn [A] into
    [B]. *)
Theorem substitute_name_feeds_forward :
  (forall name, substitute_name name [] = Ok name) /\
  (forall name pattern replacement more,
     substitute_name name ((pattern, replacement) :: more) =
     (name' <- re_sub pattern replacement name ;; substitute_name name' more)) /\
  (forall name rules1 rules2,
     substitute_name name (rules1 ++ rules2) =
     (name' <- substitute_name name rules1 ;; substitute_name name' rules2)) /\
  (forall A B C : str,
     substitute_name A [(Lit A, [TLit B]); (Lit B, [TLit C])] = Ok C) /\
  (forall A B C : str,
     contains A B = false -> B <> C ->
     substitute_name A [(Lit B, [TLit C]); (Lit A, [TLit B])] = Ok B /\
     contains B B = true /\
     substitute_name A [(Lit B, [TLit C]); (Lit A, [TLit B])] <> Ok C).
Proof.
  split; [reflexivity|]. split; [reflexivity|].
  split; [exact substitute_name_app|]. split.
  - intros A B C. cbn [substitute_name].
    rewrite re_sub_lit_self. cbn [bind]. rewrite re_sub_lit_self. reflexivity.
  - intros A B C Habs Hne.
    assert (E : substitute_name A [(Lit B, [TLit C]); (Lit A, [TLit B])] = Ok B).
    { cbn [substitute_name]. rewrite re_sub_lit_absent by exact Habs.
      cbn [bind]. rewrite re_sub_lit_self. reflexivity. }
    rewrite E. split; [reflexivity|]. split; [apply contains_self|].
    intros H. injection H as H. contradiction.
Qed.

Lemma substitute_name_feeds_forward_witness :
  substitute_name (u "top") [(Lit (u "htop"), [TLit (u "mon")]);
                             (Lit (u "top"), [TLit (u "htop")])] = Ok (u "htop") /\
  contains (u "htop") (u "htop") = true /\
  substitute_name (u "top") [(Lit (u "htop"), [TLit (u "mon")]);
                             (Lit (u "top"), [TLit (u "htop")])] <> Ok (u "mon").
Proof.
  destruct substitute_name_feeds_forward as (_ & _ & _ & _ & H).
  apply (H (u "top") (u "htop") (u "mon")).
  - reflexivity.
  - discriminate.
Defined.

(** ** Claims on the Label Composer *)

Lemma slice_to_nonneg (s : str) (n : Z) :
  (0 <= n)%Z -> slice_to s n = firstn (Z.to_nat n) s.
Proof.
  intros H. unfold slice_to. destruct (Z.leb_spec 0 n); [reflexivity|lia].
Qed.

(** C4: a composed label longer than [max_name_len] is cut to its first
    [max_name_len] characters, no fewer and no more, with nothing appended;
    a label that fits is left as it is.  [max_name_len] is a length: for a
    negative value the slice of the code counts from the end instead. *)
Theorem label_is_cut_to_max_name_len
        (name : str) (max_name_len : Z) (options : Options) (label : str) :
  apply_icon_if_in_style name options = Ok label ->
  (0 <= max_name_len)%Z ->
  ((max_name_len < Z.of_nat (length label))%Z ->
   rename_window name max_name_len options = Ok (firstn (Z.to_nat max_name_len) label) /\
   Z.of_nat (length (firstn (Z.to_nat max_name_len) label)) = max_name_len) /\
  ((Z.of_nat (length label) <= max_name_len)%Z ->
   rename_window name max_name_len options = Ok label).
Proof.
  intros Hl Hn. unfold rename_window. rewrite Hl. cbn [bind].
  rewrite slice_to_nonneg by exact Hn. split.
  - intros Hlong. split; [reflexivity|].
    rewrite length_firstn. lia.
  - intros Hfits. f_equal. apply firstn_all2. lia.
Qed.

(** C10: the icon is applied first and the cut second, so the label is the
    slice of the decorated name.  In the name-and-icon style the bound
    covers the glyph and the space after it, and what shows of the name is
    shorter than [max_name_len] by that much. *)
Theorem icon_is_applied_before_the_cut
        (name : str) (max_name_len : Z) (options : Options) :
  rename_window name max_name_len options =
    fmap (fun decorated => slice_to decorated max_name_len) (apply_icon_if_in_style name options) /\
  ((0 <= max_name_len)%Z ->
   rename_window name max_name_len options =
     fmap (firstn (Z.to_nat max_name_len)) (apply_icon_if_in_style name options)) /\
  (forall icon,
     (0 <= max_name_len)%Z ->
     icon_style options = NAME_AND_ICON ->
     get_program_icon name options = Ok icon ->
     icon <> [] ->
     rename_window name max_name_len options =
       Ok (firstn (Z.to_nat max_name_len) (icon ++ u " " ++ name)) /\
     firstn (Z.to_nat max_name_len) (icon ++ u " " ++ name) =
       firstn (Z.to_nat max_name_len) (icon ++ u " ") ++
       firstn (Z.to_nat max_name_len - (length icon + 1)) name /\
     (length (firstn (Z.to_nat max_name_len) (icon ++ u " " ++ name))
        <= Z.to_nat max_name_len)%nat).
Proof.
  split; [reflexivity|]. split.
  - intros Hn. unfold rename_window, fmap.
    destruct (apply_icon_if_in_style name options); cbn [bind]; [|reflexivity].
    now rewrite slice_to_nonneg.
  - intros icon Hn Hstyle Hicon Hne.
    unfold rename_window, apply_icon_if_in_style.
    rewrite Hstyle, Hicon. cbn [bind].
    destruct icon as [|c icon]; [contradiction|]. cbn [bind].
    rewrite slice_to_nonneg by exact Hn. split; [reflexivity|]. split.
    + rewrite (app_assoc (c :: icon) (u " ") name), firstn_app.
      rewrite length_app. reflexivity.
    + rewrite length_firstn. lia.
Qed.
(** ** Claims on the run over a session *)

Lemma filter_split_perm {A : Type} (f : A -> bool) (l : list A) :
  Permutation (filter (fun x => negb (f x)) l ++ filter f l) l.
Proof.
  induction l as [|x l IH]; [constructor|].
  cbn [filter]. destruct (f x); cbn [negb app].
  - apply Permutation_sym, Permutation_cons_app, Permutation_sym, IH.
  - now constructor.
Qed.

Lemma filter_perm {A : Type} (f : A -> bool) (l l' : list A) :
  Permutation l l' -> Permutation (filter f l) (filter f l').
Proof.
  induction 1 as [|x l l' _ IH|x y l|l l' l'' _ IH1 _ IH2]; cbn [filter].
  - constructor.
  - destruct (f x); [now constructor|assumption].
  - destruct (f x), (f y); try reflexivity. constructor.
  - now transitivity (filter f l').
Qed.

Lemma fix_pane_path_program (p : Pane) (options : Options) :
  program (fix_pane_path p options) = program p.
Proof. unfold fix_pane_path. now destruct (pane_current_path (info p)). Qed.

Lemma fix_pane_path_info (p : Pane) (options : Options) :
  info (fix_pane_path p options) = fixed_info options (info p).
Proof.
  unfold fixed_info, fix_pane_path. cbn [info].
  now destruct (pane_current_path (info p)).
Qed.

Lemma get_panes_programs_info (panes : list TmuxPane) (ps_output : option bytes)
      (options : Options) (pp : list Pane) :
  get_panes_programs panes ps_output options = Ok pp -> map info pp = panes.
Proof.
  unfold get_panes_programs. revert pp.
  induction panes as [|p panes IH]; intros pp H; cbn [mapM] in H.
  - now injection H as <-.
  - destruct (get_current_program _ p options); [|discriminate].
    cbn [bind] in H.
    destruct (mapM _ panes) as [qs|]; [|discriminate].
    cbn [bind] in H. injection H as <-. cbn [map info]. now rewrite (IH qs).
Qed.

Lemma program_loop_targets (l : list Pane) (options : Options)
      (rs : list rename) (handed : list Pane) :
  program_loop l options = Ok (rs, handed) ->
  Permutation (map target rs ++ map info handed) (filter enabled_pane (map info l)) /\
  Forall (fun r => via r = ByProgram) rs /\
  filter enabled_pane (map info handed) = map info handed.
Proof.
  revert rs handed; induction l as [|p l IH]; intros rs handed H.
  - cbn in H. injection H as <- <-. repeat split; constructor.
  - cbn [program_loop] in H. cbn [map filter].
    change (enabled_in_window (window_id (info p))) with (enabled_pane (info p)) in H.
    destruct (enabled_pane (info p)) eqn:En; cbn [negb] in H.
    2:{ now apply IH. }
    destruct (get_program_if_dir _ _) as [[pn|]|]; cbn [bind] in H;
      try discriminate.
    + destruct (program_loop l options) as [[rs' handed']|]; [|discriminate].
      cbn [bind fst snd] in H. injection H as <- <-.
      destruct (IH _ _ eq_refl) as (P & V & F).
      split; [|split]; [|exact V|].
      * cbn [map info]. apply Permutation_sym, Permutation_cons_app.
        now apply Permutation_sym.
      * cbn [map info filter]. rewrite En. now f_equal.
    + destruct (substitute_name _ _); cbn [bind] in H; [|discriminate].
      destruct (rename_window _ _ _); cbn [bind] in H; [|discriminate].
      destruct (program_loop l options) as [[rs' handed']|]; [|discriminate].
      cbn [bind fst snd] in H. injection H as <- <-.
      destruct (IH _ _ eq_refl) as (P & V & F).
      split; [|split]; [|now constructor|exact F].
      cbn [map target app]. now constructor.
Qed.

Lemma path_loop_targets (ex : list (Pane * str)) (options : Options)
      (rs : list rename) :
  path_loop ex options = Ok rs ->
  map target rs = filter enabled_pane (map (fun x => info (fst x)) ex) /\
  Forall (fun r => via r = ByPath) rs.
Proof.
  revert rs; induction ex as [|[p d] ex IH]; intros rs H.
  - cbn in H. injection H as <-. split; constructor.
  - cbn [path_loop] in H. cbn [map filter fst].
    change (enabled_in_window (window_id (info p))) with (enabled_pane (info p)) in H.
    destruct (enabled_pane (info p)); cbn [negb] in H.
    2:{ now apply IH. }
    destruct (substitute_name d _); cbn [bind] in H; [|discriminate].
    destruct (match program p with Some _ => _ | None => _ end);
      cbn [bind] in H; [|discriminate].
    destruct (rename_window _ _ _); cbn [bind] in H; [|discriminate].
    destruct (path_loop ex options) as [rs'|]; [|discriminate].
    cbn [bind] in H. injection H as <-.
    destruct (IH _ eq_refl) as (E & V).
    split; [|now constructor]. cbn [map target]. now f_equal.
Qed.

Lemma get_exclusive_paths_panes (panes : list Pane) :
  map (fun x => info (fst x)) (get_exclusive_paths panes) = map info panes.
Proof.
  unfold get_exclusive_paths. rewrite map_map. reflexivity.
Qed.


Lemma mapM_all_none (lines : list bytes) (options : Options) (panes : list TmuxPane) :
  (forall p, In p panes -> get_current_program lines p options = Ok None) ->
  mapM (fun p => prog <- get_current_program lines p options ;;
                 Ok {| info := p; program := prog |}) panes =
  Ok (map (fun p => {| info := p; program := None |}) panes).
Proof.
  induction panes as [|p panes IH]; intros H; [reflexivity|].
  cbn [mapM map]. rewrite (H p) by now left. cbn [bind].
  rewrite IH by (intros q Hq; apply H; now right). reflexivity.
Qed.

Lemma str_eqb_sym (x y : str) : str_eqb x y = str_eqb y x.
Proof.
  destruct (str_eqb x y) eqn:E, (str_eqb y x) eqn:F; try reflexivity.
  - apply str_eqb_eq in E. subst. now rewrite str_eqb_refl in F.
  - apply str_eqb_eq in F. subst. now rewrite str_eqb_refl in E.
Qed.

(** [get_program_if_dir] by the words of the line. *)
Lemma get_program_if_dir_words (program_line : str) (dir_programs : list str) :
  get_program_if_dir program_line dir_programs =
  match str_split program_line with
  | word :: words =>
    Ok (if str_in word dir_programs
        then Some (join (u " ") (word :: words)) else None)
  | [] =>
    match dir_programs with
    | [] => Ok None
    | _ :: _ => Raise IndexError
    end
  end.
Proof.
  unfold get_program_if_dir.
  destruct (str_split program_line) as [|word words].
  - now destruct dir_programs.
  - induction dir_programs as [|p ps IH]; [reflexivity|].
    cbn [index nth_error bind str_in existsb skipn].
    rewrite (str_eqb_sym word p).
    destruct (str_eqb p word) eqn:E; cbn [orb].
    + apply str_eqb_eq in E. now subst.
    + exact IH.
Qed.

(** What the first loop sends and what it hands over, pane by pane. *)
Lemma program_loop_labels (l : list Pane) (options : Options)
      (rs : list rename) (handed : list Pane) :
  program_loop l options = Ok (rs, handed) ->
  Forall2 (program_label options) (filter (named_by_program options) l) rs /\
  Forall2 handed_for (filter (left_to_paths options) l) handed.
Proof.
  revert rs handed; induction l as [|p l IH]; intros rs handed H.
  - cbn in H. injection H as <- <-. split; constructor.
  - cbn [program_loop] in H. cbn [filter].
    assert (Hn : named_by_program options p =
                 enabled_pane (info p) && negb (runs_dir_program options p))
      by reflexivity.
    assert (Hl : left_to_paths options p =
                 enabled_pane (info p) && runs_dir_program options p)
      by reflexivity.
    rewrite Hn, Hl. clear Hn Hl.
    change (enabled_in_window (window_id (info p))) with (enabled_pane (info p)) in H.
    destruct (enabled_pane (info p)); cbn [negb andb] in *.
    2:{ now apply IH. }
    rewrite get_program_if_dir_words in H. unfold runs_dir_program.
    assert (Named :
              (prog <- substitute_name (py_str (program p)) (substitute_sets options) ;;
               name <- rename_window prog (max_name_len options) options ;;
               r <- program_loop l options ;;
               Ok ({| via := ByProgram; target := info p;
                      rn_window := py_str (window_id (info p)); rn_name := name |}
                     :: fst r, snd r)) = Ok (rs, handed) ->
              exists r rs',
                rs = r :: rs' /\ program_label options p r /\
                Forall2 (program_label options) (filter (named_by_program options) l) rs' /\
                Forall2 handed_for (filter (left_to_paths options) l) handed).
    { clear H. intros H.
      destruct (substitute_name _ _) as [prog|] eqn:Hs; cbn [bind] in H; [|discriminate].
      destruct (rename_window _ _ _) as [name|] eqn:Hr; cbn [bind] in H; [|discriminate].
      destruct (program_loop l options) as [[rs' handed']|]; [|discriminate].
      cbn [bind fst snd] in H. injection H as <- <-.
      destruct (IH _ _ eq_refl) as [F1 F2].
      eexists _, rs'. split; [reflexivity|]. split; [|split; assumption].
      unfold program_label. cbn [target rn_window rn_name].
      split; [reflexivity|]. split; [reflexivity|]. now exists prog. }
    destruct (str_split (py_str (program p))) as [|word words] eqn:Es.
    + destruct (dir_programs options); [|discriminate]. cbn [bind negb] in *.
      destruct (Named H) as (r & rs' & -> & L & F1 & F2).
      split; [now constructor|exact F2].
    + cbn [bind] in H. destruct (str_in word (dir_programs options)); cbn [negb].
      * destruct (program_loop l options) as [[rs' handed']|]; [|discriminate].
        cbn [bind fst snd] in H. injection H as <- <-.
        destruct (IH _ _ eq_refl) as [F1 F2].
        split; [exact F1|]. constructor; [|exact F2].
        unfold handed_for. cbn [info program]. rewrite Es. split; reflexivity.
      * destruct (Named H) as (r & rs' & -> & L & F1 & F2).
        split; [now constructor|exact F2].
Qed.

(** What the second loop sends, pane by pane. *)
Lemma path_loop_labels (ex : list (Pane * str)) (options : Options)
      (rs : list rename) :
  path_loop ex options = Ok rs ->
  Forall2 (path_label options)
          (filter (fun x => enabled_pane (info (fst x))) ex) rs.
Proof.
  revert rs; induction ex as [|[p d] ex IH]; intros rs H.
  - cbn in H. injection H as <-. constructor.
  - cbn [path_loop] in H. cbn [filter fst].
    change (enabled_in_window (window_id (info p))) with (enabled_pane (info p)) in H.
    destruct (enabled_pane (info p)); cbn [negb] in H.
    2:{ now apply IH. }
    destruct (substitute_name d _) as [d'|] eqn:Hd; cbn [bind] in H; [|discriminate].
    destruct (match program p with Some _ => _ | None => _ end) as [shown|] eqn:Hsh;
      cbn [bind] in H; [|discriminate].
    destruct (rename_window _ _ _) as [name|] eqn:Hr; cbn [bind] in H; [|discriminate].
    destruct (path_loop ex options) as [rs'|]; [|discriminate].
    cbn [bind] in H. injection H as <-.
    constructor; [|now apply IH].
    unfold path_label. cbn [fst snd target rn_window rn_name].
    split; [reflexivity|]. split; [reflexivity|].
    exists d'. split; [exact Hd|].
    destruct (program p) as [prog|].
    + destruct (substitute_name prog _) as [prog'|] eqn:Hp; cbn [bind] in Hsh;
        [|discriminate].
      injection Hsh as <-. now exists prog'.
    + injection Hsh as <-. exact Hr.
Qed.

(** C8, as the code has it: after resolution the panes with a program and
    the panes without are two disjoint lists that together hold every pane
    once, but the two loops do not follow that split.  In a run that
    completes, the first loop names, after its program, each pane of an
    enabled window that has a program not starting with a directory program;
    it hands the panes of enabled windows whose program starts with one to
    the second loop, which names them, and the panes of enabled windows
    without a program, after their display path.  So every pane of an enabled
    window is named once, by one loop, and no pane of another window is. *)
Theorem panes_fall_in_one_partition :
  (forall panes_programs : list Pane,
     Permutation (panes_with_programs panes_programs ++ panes_with_dir panes_programs)
                 panes_programs /\
     (forall p, In p (panes_with_programs panes_programs) <->
                In p panes_programs /\ program p <> None) /\
     (forall p, In p (panes_with_dir panes_programs) <->
                In p panes_programs /\ program p = None) /\
     (forall p, ~ (In p (panes_with_programs panes_programs) /\
                   In p (panes_with_dir panes_programs)))) /\
  (forall panes ps_output options renames,
     rename_windows false panes ps_output options = Ok renames ->
     exists panes_programs by_program handed by_path,
       get_panes_programs panes ps_output options = Ok panes_programs /\
       let fixed := map (fun p => fix_pane_path p options) panes_programs in
       program_loop (panes_with_programs fixed) options = Ok (by_program, handed) /\
       path_loop (get_exclusive_paths (panes_with_dir fixed ++ handed)) options =
         Ok by_path /\
       renames = by_program ++ by_path /\
       Forall2 (program_label options)
               (filter (named_by_program options) (panes_with_programs fixed))
               by_program /\
       Forall2 handed_for
               (filter (left_to_paths options) (panes_with_programs fixed))
               handed /\
       Forall2 (path_label options)
               (filter (fun x => enabled_pane (info (fst x)))
                       (get_exclusive_paths (panes_with_dir fixed ++ handed)))
               by_path /\
       Forall (fun r => via r = ByProgram) by_program /\
       Forall (fun r => via r = ByPath) by_path /\
       Permutation (map target renames)
                   (filter enabled_pane (map (fixed_info options) panes))).
Proof.
  split.
  - intros pp.
    assert (Hp : forall p, In p (panes_with_programs pp) <-> In p pp /\ program p <> None).
    { intros p. unfold panes_with_programs. rewrite filter_In.
      destruct (program p); cbn; intuition congruence. }
    assert (Hd : forall p, In p (panes_with_dir pp) <-> In p pp /\ program p = None).
    { intros p. unfold panes_with_dir. rewrite filter_In.
      destruct (program p); cbn; intuition congruence. }
    split; [apply filter_split_perm|]. split; [exact Hp|]. split; [exact Hd|].
    intros p [H1 H2]. apply Hp in H1. apply Hd in H2. tauto.
  - intros panes ps_output options renames H.
    unfold rename_windows in H.
    destruct (get_panes_programs panes ps_output options) as [pp|] eqn:Hpp;
      [|discriminate].
    cbn [bind] in H.
    exists pp. cbv zeta.
    set (fixed := map (fun p => fix_pane_path p options) pp) in *.
    destruct (program_loop (panes_with_programs fixed) options)
      as [[rs handed]|] eqn:Hloop; [|discriminate].
    cbn [bind fst snd] in H.
    destruct (path_loop _ options) as [rs2|] eqn:Hpath; [|discriminate].
    cbn [bind] in H. injection H as <-.
    destruct (program_loop_targets _ _ _ _ Hloop) as (P & V & F).
    destruct (program_loop_labels _ _ _ _ Hloop) as (L1 & L2).
    pose proof (path_loop_labels _ _ _ Hpath) as L3.
    destruct (path_loop_targets _ _ _ Hpath) as (E & V2).
    rewrite get_exclusive_paths_panes, map_app, filter_app, F in E.
    exists rs, handed, rs2.
    split; [reflexivity|]. split; [reflexivity|]. split; [exact Hpath|].
    split; [reflexivity|]. split; [exact L1|]. split; [exact L2|].
    split; [exact L3|]. split; [exact V|]. split; [exact V2|].
    rewrite map_app, E.
    assert (Hinfo : map info fixed = map (fixed_info options) panes).
    { unfold fixed. rewrite map_map.
      rewrite <- (get_panes_programs_info _ _ _ _ Hpp), map_map.
      apply map_ext. intros p. apply fix_pane_path_info. }
    rewrite <- Hinfo.
    transitivity (filter enabled_pane (map info (panes_with_programs fixed)) ++
                  filter enabled_pane (map info (panes_with_dir fixed))).
    + rewrite app_assoc.
      transitivity ((map target rs ++ map info handed) ++
                    filter enabled_pane (map info (panes_with_dir fixed))).
      * rewrite <- !app_assoc. apply Permutation_app_head, Permutation_app_comm.
      * now apply Permutation_app_tail.
    + rewrite <- filter_app, <- map_app.
      apply filter_perm, Permutation_map, filter_split_perm.
Qed.

(** C6, as the code has it: on an empty snapshot every pane that has a
    process id resolves to no program, so that every pane is left to the
    directory labels and every rename of the run comes from the second
    loop; a pane without process id still makes the run raise. *)
Theorem empty_snapshot_leaves_all_to_paths
        (panes : list TmuxPane) (ps_output : option bytes) (options : Options) :
  running_programs ps_output = [] ->
  Forall (fun p => pane_pid p <> None) panes ->
  (forall p, In p panes ->
             get_current_program (running_programs ps_output) p options = Ok None) /\
  get_panes_programs panes ps_output options =
    Ok (map (fun p => {| info := p; program := None |}) panes) /\
  (forall panes_programs,
     get_panes_programs panes ps_output options = Ok panes_programs ->
     panes_with_programs panes_programs = [] /\
     panes_with_dir panes_programs = panes_programs) /\
  (forall renames,
     rename_windows false panes ps_output options = Ok renames ->
     Forall (fun r => via r = ByPath) renames).
Proof.
  intros Hempty Hpid.
  assert (Hnone : forall p, In p panes ->
            get_current_program (running_programs ps_output) p options = Ok None).
  { intros p Hin. rewrite Hempty. unfold get_current_program.
    rewrite Forall_forall in Hpid. specialize (Hpid p Hin).
    destruct (pane_pid p); [reflexivity|contradiction]. }
  assert (Hpp : get_panes_programs panes ps_output options =
                Ok (map (fun p => {| info := p; program := None |}) panes))
    by (apply mapM_all_none, Hnone).
  assert (Hpart : forall l : list TmuxPane,
            panes_with_programs (map (fun p => {| info := p; program := None |}) l) = [] /\
            panes_with_dir (map (fun p => {| info := p; program := None |}) l) =
              map (fun p => {| info := p; program := None |}) l).
  { induction l as [|x l [IH1 IH2]]; [split; reflexivity|].
    unfold panes_with_programs, panes_with_dir in *. cbn [map filter program is_none negb].
    split; [exact IH1|now f_equal]. }
  split; [exact Hnone|]. split; [exact Hpp|]. split.
  - intros pp H. rewrite Hpp in H. injection H as <-. apply Hpart.
  - intros renames H. unfold rename_windows in H. rewrite Hpp in H.
    cbn [bind] in H.
    assert (Hfix : panes_with_programs
                     (map (fun p => fix_pane_path p options)
                          (map (fun p => {| info := p; program := None |}) panes)) = []).
    { clear. induction panes as [|x l IH]; [reflexivity|].
      cbn [map]. unfold panes_with_programs in *. cbn [filter].
      rewrite fix_pane_path_program. cbn [program is_none negb]. exact IH. }
    rewrite Hfix in H. cbn [program_loop bind fst snd] in H.
    destruct (path_loop _ options) as [rs2|] eqn:Hpath; [|discriminate].
    cbn [bind app] in H. injection H as <-.
    now destruct (path_loop_targets _ _ _ Hpath).
Qed.

(** * Further properties of the code *)

(** ** The resolver *)

Lemma mapM_decode_cons (t : bytes) (ts : list bytes) (d : str) (ds : list str) :
  mapM decode (t :: ts) = Ok (d :: ds) ->
  decode t = Ok d /\ mapM decode ts = Ok ds.
Proof.
  cbn [mapM]. intros H. destruct (decode t) as [d'|]; [|discriminate].
  cbn [bind] in H. destruct (mapM decode ts) as [ds'|]; [|discriminate].
  cbn [bind] in H. injection H as -> ->. split; reflexivity.
Qed.

(** X1: a command of the pane that is neither the script, nor ignored, nor
    a shell is returned as it was run: its first token alone when arguments
    are not shown, else its tokens joined by single spaces.  The process id
    and the spacing of the line are gone; a leading [/usr/bin/] is not. *)
Theorem program_is_shown_as_run
        (pre : list bytes) (line : bytes) (more : list bytes)
        (pane : TmuxPane) (options : Options) (pid : str) (c : Z)
        (ppid : bytes) (cmd : list bytes) (name bare : str) (args : list str) :
  pane_pid pane = Some pid ->
  int_of_str pid = Ok c ->
  Forall (fun l => resolve_line l pid options = Ok Continue) pre ->
  bytes_split line = ppid :: cmd ->
  int_of_bytes ppid = Ok c ->
  mapM decode cmd = Ok (name :: args) ->
  is_script args = false ->
  program_name_stripped name = Ok bare ->
  str_in bare (ignored_programs options) = false ->
  str_in bare (shells options) = false ->
  get_current_program (pre ++ line :: more) pane options =
  Ok (Some (if show_program_args options
            then join (u " ") (name :: args) else name)).
Proof.
  intros Hp Hc Hpre Hs Ha Hm Hscript Hbare Hign Hsh.
  unfold get_current_program. rewrite Hp, resolve_lines_skip by exact Hpre.
  rewrite program_name_stripped_eq in Hbare. injection Hbare as <-.
  destruct cmd as [|name0 args0]; [discriminate|].
  destruct (mapM_decode_cons _ _ _ _ Hm) as [Hn Hargs].
  assert (Hskip : match args0 with
                  | arg1 :: _ => (d <- decode arg1 ;; Ok (contains d script_token))
                  | [] => Ok false
                  end = Ok false).
  { destruct args0 as [|arg1 args0]; [reflexivity|].
    destruct args as [|d ds]; [discriminate (mapM_length _ _ _ Hargs)|].
    destruct (mapM_decode_cons _ _ _ _ Hargs) as [Hd _].
    rewrite Hd. cbn [bind]. cbn [is_script] in Hscript. now rewrite Hscript. }
  cbn [resolve_lines].
  rewrite (resolve_line_matched _ _ options _ _ _ _ _ Hs Ha Hc Hn).
  rewrite Hskip. cbn [bind]. rewrite Hign, Hsh.
  destruct (show_program_args options); cbn [negb bind fmap]; [|reflexivity].
  now rewrite (decode_join _ _ Hm).
Qed.

Lemma resolve_lines_drop (pre : list bytes) (line : bytes) (more : list bytes)
      (pid : str) (options : Options) :
  resolve_line line pid options = Ok Continue ->
  resolve_lines (pre ++ line :: more) pid options =
  resolve_lines (pre ++ more) pid options.
Proof.
  intros H. induction pre as [|l pre IH]; cbn [app resolve_lines].
  - now rewrite H.
  - destruct (resolve_line l pid options) as [[|r]|e]; cbn [bind];
      [exact IH|reflexivity|reflexivity].
Qed.

(** X2: a line of another process, one that starts with a numeral that
    [int] reads (so of 4300 digits at most) and that is not the process id
    of the pane, can be taken out of the snapshot, wherever it stands,
    without changing what the resolver answers. *)
Theorem other_processes_do_not_matter
        (pre : list bytes) (line : bytes) (more : list bytes)
        (pane : TmuxPane) (options : Options) (pid : str) (a c : Z) :
  pane_pid pane = Some pid ->
  int_of_str pid = Ok c ->
  line_ppid line = Ok a ->
  a <> c ->
  get_current_program (pre ++ line :: more) pane options =
  get_current_program (pre ++ more) pane options.
Proof.
  intros Hp Hc Ha Hne. unfold get_current_program. rewrite Hp.
  apply resolve_lines_drop. now apply (resolve_line_other _ _ _ a c).
Qed.

(** X3: the script's own invocation and the ignored programs are passed
    over: such a line of the pane can be taken out of the snapshot without
    changing the answer, so the resolver goes on to the pane's next line. *)
Theorem script_and_ignored_are_passed_over
        (pre : list bytes) (line : bytes) (more : list bytes)
        (pane : TmuxPane) (options : Options) (pid : str) (c : Z)
        (ppid name0 : bytes) (args : list bytes) (name : str) :
  pane_pid pane = Some pid ->
  int_of_str pid = Ok c ->
  bytes_split line = ppid :: name0 :: args ->
  int_of_bytes ppid = Ok c ->
  decode name0 = Ok name ->
  (exists arg1 rest d,
      args = arg1 :: rest /\ decode arg1 = Ok d /\
      contains d script_token = true) \/
  (exists ds bare,
      mapM decode (firstn 1 args) = Ok ds /\ is_script ds = false /\
      program_name_stripped name = Ok bare /\
      str_in bare (ignored_programs options) = true) ->
  get_current_program (pre ++ line :: more) pane options =
  get_current_program (pre ++ more) pane options.
Proof.
  intros Hp Hc Hs Ha Hn Hcase. unfold get_current_program. rewrite Hp.
  apply resolve_lines_drop.
  rewrite (resolve_line_matched _ _ options _ _ _ _ _ Hs Ha Hc Hn).
  destruct Hcase as [(arg1 & rest & d & -> & Hd & Hscr)|(ds & bare & Hm & Hscr & Hb & Hign)].
  - rewrite Hd. cbn [bind]. now rewrite Hscr.
  - rewrite program_name_stripped_eq in Hb. injection Hb as <-.
    destruct args as [|arg1 rest].
    + cbn [bind]. now rewrite Hign.
    + cbn [firstn] in Hm. destruct ds as [|d ds];
        [discriminate (mapM_length _ _ _ Hm)|].
      destruct (mapM_decode_cons _ _ _ _ Hm) as [Hd _].
      rewrite Hd. cbn [bind]. cbn [is_script] in Hscr.
      now rewrite Hscr, Hign.
Qed.

(** X4: the lines the resolver cannot read.  Reached before any line has
    made it return, a blank line raises [IndexError], a line whose first
    token is no numeral raises [ValueError], and a line of the pane with
    nothing after the process id raises [IndexError]. *)
Theorem unreadable_line_raises
        (pre : list bytes) (line : bytes) (more : list bytes)
        (pane : TmuxPane) (options : Options) (pid : str) :
  pane_pid pane = Some pid ->
  Forall (fun l => resolve_line l pid options = Ok Continue) pre ->
  (bytes_split line = [] ->
   get_current_program (pre ++ line :: more) pane options = Raise IndexError) /\
  (forall ppid cmd,
      bytes_split line = ppid :: cmd -> int_of_bytes ppid = Raise ValueError ->
      get_current_program (pre ++ line :: more) pane options = Raise ValueError) /\
  (forall ppid c,
      bytes_split line = [ppid] -> int_of_bytes ppid = Ok c ->
      int_of_str pid = Ok c ->
      get_current_program (pre ++ line :: more) pane options = Raise IndexError).
Proof.
  intros Hp Hpre. unfold get_current_program. rewrite Hp.
  rewrite resolve_lines_skip by exact Hpre. cbn [resolve_lines].
  unfold resolve_line. split; [|split].
  - intros ->. reflexivity.
  - intros ppid cmd -> Hv. cbn [index nth_error bind]. now rewrite Hv.
  - intros ppid c -> Ha Hc. cbn [index nth_error bind]. rewrite Ha, Hc.
    cbn [bind]. now rewrite Z.eqb_refl.
Qed.

Lemma resolve_line_return (line : bytes) (pid : str) (options : Options)
      (r : option str) :
  resolve_line line pid options = Ok (Return r) ->
  exists c, line_ppid line = Ok c /\ int_of_str pid = Ok c.
Proof.
  unfold resolve_line, line_ppid.
  destruct (index (bytes_split line) 0) as [ppid|]; [|discriminate].
  cbn [bind]. destruct (int_of_bytes ppid) as [a|]; [|discriminate].
  cbn [bind]. destruct (int_of_str pid) as [c|]; [|discriminate].
  cbn [bind]. destruct (Z.eqb_spec a c) as [->|]; [|discriminate].
  intros _. now exists c.
Qed.

(** X5: the resolver invents nothing: when it answers with a program, the
    pane has a process id and some line of the snapshot starts with it. *)
Theorem resolved_program_has_a_line
        (lines : list bytes) (pane : TmuxPane) (options : Options) (s : str) :
  get_current_program lines pane options = Ok (Some s) ->
  exists pid c line,
    pane_pid pane = Some pid /\ int_of_str pid = Ok c /\
    In line lines /\ line_ppid line = Ok c.
Proof.
  unfold get_current_program. destruct (pane_pid pane) as [pid|]; [|discriminate].
  induction lines as [|l lines IH]; cbn [resolve_lines]; [discriminate|].
  destruct (resolve_line l pid options) as [[|r]|] eqn:E; cbn [bind];
    [|intros _|discriminate].
  - intros H. destruct (IH H) as (pid' & c & line & Hpid & Hc & Hin & Hl).
    exists pid', c, line. repeat split; try assumption. now right.
  - destruct (resolve_line_return _ _ _ _ E) as (c & Hl & Hc).
    exists pid, c, l. repeat split; try assumption. now left.
Qed.

(** ** The snapshot *)

Lemma splitlines_first (header rest cur : bytes) :
  one_line header = true ->
  splitlines (header ++ x0a :: rest) cur =
  (rev cur ++ header) :: splitlines rest [].
Proof.
  revert cur; induction header as [|h header IH]; intros cur H.
  - cbn [app splitlines]. change (to_N x0a =? 10) with true. cbn iota.
    now rewrite app_nil_r.
  - cbn [one_line forallb] in H. apply andb_true_iff in H as [Hh H].
    apply andb_true_iff in Hh as [H10 H13].
    apply negb_true_iff in H10, H13.
    cbn [app splitlines]. rewrite H10, H13, (IH (h :: cur) H).
    cbn [rev]. now rewrite <- app_assoc.
Qed.

Lemma splitlines_one_line (header cur : bytes) :
  one_line header = true ->
  splitlines header cur =
  match rev cur ++ header with [] => [] | l => [l] end.
Proof.
  revert cur; induction header as [|h header IH]; intros cur H.
  - cbn [splitlines]. rewrite app_nil_r.
    destruct cur as [|x cur]; [reflexivity|].
    cbn [rev]. now destruct (rev cur ++ [x]) eqn:E;
      [destruct (rev cur); discriminate|].
  - cbn [one_line forallb] in H. apply andb_true_iff in H as [Hh H].
    apply andb_true_iff in Hh as [H10 H13].
    apply negb_true_iff in H10, H13.
    cbn [splitlines]. rewrite H10, H13, (IH (h :: cur) H).
    cbn [rev]. now rewrite <- app_assoc.
Qed.

(** X6: the first line of what [ps] printed is the header and is never read
    as a process, whatever it says: the snapshot is made of the lines after
    it, and an output of one line gives the empty snapshot. *)
Theorem header_is_dropped (header rest : bytes) :
  one_line header = true ->
  running_programs (Some (header ++ x0a :: rest)) = splitlines rest [] /\
  running_programs (Some header) = [] /\
  (forall header' panes options,
      one_line header' = true ->
      get_panes_programs panes (Some (header ++ x0a :: rest)) options =
      get_panes_programs panes (Some (header' ++ x0a :: rest)) options).
Proof.
  intros H.
  assert (E : running_programs (Some (header ++ x0a :: rest)) = splitlines rest []).
  { unfold running_programs. now rewrite splitlines_first. }
  split; [exact E|]. split.
  - unfold running_programs. rewrite splitlines_one_line by exact H.
    now destruct (rev [] ++ header).
  - intros header' panes options H'. unfold get_panes_programs. rewrite E.
    unfold running_programs. now rewrite splitlines_first.
Qed.

Lemma mapM_raises {A B : Type} (f : A -> result B) (l : list A) (x : A) :
  In x l -> raises (f x) -> raises (mapM f l).
Proof.
  intros Hin [e He]. induction l as [|y l IH]; [contradiction|].
  cbn [mapM]. destruct Hin as [->|Hin].
  - rewrite He. now exists e.
  - destruct (f y) as [z|e']; cbn [bind]; [|now exists e'].
    destruct (IH Hin) as [e'' ->]. now exists e''.
Qed.

(** X7: one pane without process id is enough to abort the resolution of
    the whole session, and with it the run that renames the windows and the
    run that prints the programs. *)
Theorem pane_without_pid_aborts_the_session
        (panes : list TmuxPane) (ps_output : option bytes) (options : Options)
        (p : TmuxPane) :
  In p panes ->
  pane_pid p = None ->
  raises (get_panes_programs panes ps_output options) /\
  raises (rename_windows false panes ps_output options) /\
  raises (print_programs panes ps_output options).
Proof.
  intros Hin Hp.
  assert (R : raises (get_panes_programs panes ps_output options)).
  { unfold get_panes_programs. apply (mapM_raises _ _ p Hin).
    unfold get_current_program. rewrite Hp. now exists ValueError. }
  split; [exact R|]. destruct R as [e He].
  split; exists e.
  - unfold rename_windows. now rewrite He.
  - unfold print_programs. now rewrite He.
Qed.

(** ** Directory programs *)

(** X8: [get_program_if_dir] looks at the first word only.  When it is one
    of the directory programs the answer is the words of the line joined by
    single spaces, else [None]; a line without any word raises [IndexError]
    unless the list of directory programs is empty. *)
Theorem get_program_if_dir_first_word
        (program_line : str) (dir_programs : list str) :
  get_program_if_dir program_line dir_programs =
  match str_split program_line with
  | word :: words =>
    Ok (if str_in word dir_programs
        then Some (join (u " ") (word :: words)) else None)
  | [] =>
    match dir_programs with
    | [] => Ok None
    | _ :: _ => Raise IndexError
    end
  end.
Proof.
  unfold get_program_if_dir.
  destruct (str_split program_line) as [|word words].
  - now destruct dir_programs.
  - induction dir_programs as [|p ps IH]; [reflexivity|].
    cbn [index nth_error bind str_in existsb skipn].
    rewrite (str_eqb_sym word p).
    destruct (str_eqb p word) eqn:E; cbn [orb].
    + apply str_eqb_eq in E. now subst.
    + exact IH.
Qed.

Lemma program_loop_raises (l : list Pane) (options : Options) (p : Pane) (e : exn) :
  In p l ->
  enabled_in_window (window_id (info p)) = true ->
  get_program_if_dir (py_str (program p)) (dir_programs options) = Raise e ->
  raises (program_loop l options).
Proof.
  intros Hin Hen He. induction l as [|q l IH]; [contradiction|].
  cbn [program_loop]. destruct Hin as [->|Hin].
  - rewrite Hen, He. now exists e.
  - destruct (negb (enabled_in_window (window_id (info q)))); [now apply IH|].
    destruct (get_program_if_dir (py_str (program q)) (dir_programs options))
      as [[pn|]|e1]; cbn [bind]; [| |now exists e1].
    + destruct (IH Hin) as [e2 ->]. now exists e2.
    + destruct (substitute_name _ _) as [n1|e1]; cbn [bind]; [|now exists e1].
      destruct (rename_window _ _ _) as [n2|e1]; cbn [bind]; [|now exists e1].
      destruct (IH Hin) as [e2 ->]. now exists e2.
Qed.

(** X9: a resolved program without any word (empty, or blank) makes the
    run raise when the pane's window is enabled and there is at least one
    directory program; a shell started on [.] or [/] resolves to such a
    program. *)
Theorem blank_program_aborts_the_run
        (panes : list TmuxPane) (ps_output : option bytes) (options : Options)
        (panes_programs : list Pane) (p : Pane) (prog : str) :
  get_panes_programs panes ps_output options = Ok panes_programs ->
  In p panes_programs ->
  program p = Some prog ->
  str_split prog = [] ->
  enabled_in_window (window_id (info p)) = true ->
  dir_programs options <> [] ->
  raises (rename_windows false panes ps_output options).
Proof.
  intros Hpp Hin Hprog Hblank Hen Hdirs.
  unfold rename_windows. rewrite Hpp. cbn [bind].
  assert (R : raises (program_loop
                        (panes_with_programs
                           (map (fun p => fix_pane_path p options) panes_programs))
                        options)).
  { apply (program_loop_raises _ _ (fix_pane_path p options) IndexError).
    - unfold panes_with_programs. apply filter_In. split.
      + now apply (in_map (fun p => fix_pane_path p options)).
      + now rewrite fix_pane_path_program, Hprog.
    - rewrite fix_pane_path_info. unfold fixed_info, fix_pane_path. cbn [info].
      now destruct (pane_current_path (info p)).
    - rewrite fix_pane_path_program, Hprog. cbn [py_str].
      rewrite get_program_if_dir_words, Hblank.
      destruct (dir_programs options); [contradiction|reflexivity]. }
  destruct R as [e ->]. now exists e.
Qed.

Lemma program_loop_origin (l : list Pane) (options : Options)
      (rs : list rename) (handed : list Pane) :
  program_loop l options = Ok (rs, handed) ->
  Forall (fun r => exists p,
              In p l /\ target r = info p /\
              get_program_if_dir (py_str (program p)) (dir_programs options) = Ok None)
         rs /\
  Forall (fun h => exists p,
              In p l /\ info h = info p /\ program h <> None /\
              get_program_if_dir (py_str (program p)) (dir_programs options) =
                Ok (program h))
         handed.
Proof.
  revert rs handed; induction l as [|p l IH]; intros rs handed H.
  - cbn in H. injection H as <- <-. split; constructor.
  - assert (W : forall (P : Pane -> Prop) (x : Pane),
                (exists q, In q l /\ P q) -> exists q, In q (p :: l) /\ P q).
    { intros P x (q & Hq & HP). exists q. split; [now right|exact HP]. }
    cbn [program_loop] in H.
    destruct (negb (enabled_in_window (window_id (info p)))).
    { destruct (IH _ _ H) as [F1 F2]. split.
      - eapply Forall_impl; [|exact F1]. intros r (q & Hq & HP).
        exists q. split; [now right|exact HP].
      - eapply Forall_impl; [|exact F2]. intros r (q & Hq & HP).
        exists q. split; [now right|exact HP]. }
    destruct (get_program_if_dir _ _) as [[pn|]|] eqn:G; cbn [bind] in H;
      try discriminate.
    + destruct (program_loop l options) as [[rs' handed']|]; [|discriminate].
      cbn [bind fst snd] in H. injection H as <- <-.
      destruct (IH _ _ eq_refl) as [F1 F2]. split.
      * eapply Forall_impl; [|exact F1]. intros r (q & Hq & HP).
        exists q. split; [now right|exact HP].
      * constructor.
        -- exists p. cbn [info program]. repeat split;
             [now left|discriminate|exact G].
        -- eapply Forall_impl; [|exact F2]. intros r (q & Hq & HP).
           exists q. split; [now right|exact HP].
    + destruct (substitute_name _ _); cbn [bind] in H; [|discriminate].
      destruct (rename_window _ _ _); cbn [bind] in H; [|discriminate].
      destruct (program_loop l options) as [[rs' handed']|]; [|discriminate].
      cbn [bind fst snd] in H. injection H as <- <-.
      destruct (IH _ _ eq_refl) as [F1 F2]. split.
      * constructor.
        -- exists p. cbn [target]. repeat split; [now left|exact G].
        -- eapply Forall_impl; [|exact F1]. intros r (q & Hq & HP).
           exists q. split; [now right|exact HP].
      * eapply Forall_impl; [|exact F2]. intros r (q & Hq & HP).
        exists q. split; [now right|exact HP].
Qed.

(** X10: the first loop never names a window after a directory program.
    Each of its renames is for a pane whose program does not start with a
    directory program, and each pane it hands to the second loop runs one,
    its program line re-joined with single spaces. *)
Theorem program_loop_leaves_dir_programs
        (l : list Pane) (options : Options)
        (rs : list rename) (handed : list Pane) :
  program_loop l options = Ok (rs, handed) ->
  Forall (fun r => exists p,
              In p l /\ target r = info p /\
              forall word words,
                str_split (py_str (program p)) = word :: words ->
                str_in word (dir_programs options) = false)
         rs /\
  Forall (fun h => exists p word words,
              In p l /\ info h = info p /\
              str_split (py_str (program p)) = word :: words /\
              str_in word (dir_programs options) = true /\
              program h = Some (join (u " ") (word :: words)))
         handed.
Proof.
  intros H. destruct (program_loop_origin _ _ _ _ H) as [F1 F2]. split.
  - eapply Forall_impl; [|exact F1]. intros r (p & Hin & Ht & G).
    rewrite get_program_if_dir_words in G.
    exists p. repeat split; try assumption.
    intros word words E. rewrite E in G.
    destruct (str_in word (dir_programs options)); [discriminate|reflexivity].
  - eapply Forall_impl; [|exact F2]. intros h (p & Hin & Hi & Hn & G).
    rewrite get_program_if_dir_words in G.
    destruct (str_split (py_str (program p))) as [|word words] eqn:E.
    + destruct (dir_programs options); [|discriminate].
      injection G as G. now rewrite <- G in Hn.
    + exists p, word, words.
      destruct (str_in word (dir_programs options)); injection G as G.
      * repeat split; try assumption. now symmetry.
      * now rewrite <- G in Hn.
Qed.

(** ** What a run sends *)

Lemma rename_window_length (name : str) (max_len : Z) (options : Options)
      (out : str) :
  (0 <= max_len)%Z ->
  rename_window name max_len options = Ok out ->
  (Z.of_nat (length out) <= max_len)%Z.
Proof.
  intros Hn. unfold rename_window.
  destruct (apply_icon_if_in_style name options) as [d|]; [|discriminate].
  cbn [bind]. rewrite slice_to_nonneg by exact Hn. intros H. injection H as <-.
  rewrite length_firstn. lia.
Qed.

Lemma program_loop_names (l : list Pane) (options : Options)
      (rs : list rename) (handed : list Pane) :
  (0 <= max_name_len options)%Z ->
  program_loop l options = Ok (rs, handed) ->
  Forall (fun r => (Z.of_nat (length (rn_name r)) <= max_name_len options)%Z /\
                   rn_window r = py_str (window_id (target r))) rs.
Proof.
  intros Hn. revert rs handed; induction l as [|p l IH]; intros rs handed H.
  - cbn in H. injection H as <- <-. constructor.
  - cbn [program_loop] in H.
    destruct (negb (enabled_in_window (window_id (info p)))); [now apply (IH _ handed)|].
    destruct (get_program_if_dir _ _) as [[pn|]|]; cbn [bind] in H;
      try discriminate.
    + destruct (program_loop l options) as [[rs' handed']|]; [|discriminate].
      cbn [bind fst snd] in H. injection H as <- <-. now apply (IH _ handed').
    + destruct (substitute_name _ _); cbn [bind] in H; [|discriminate].
      destruct (rename_window _ _ _) as [name|] eqn:R; cbn [bind] in H;
        [|discriminate].
      destruct (program_loop l options) as [[rs' handed']|]; [|discriminate].
      cbn [bind fst snd] in H. injection H as <- <-.
      constructor; [|now apply (IH _ handed')].
      cbn [rn_name rn_window target]. split; [|reflexivity].
      now apply (rename_window_length _ _ _ _ Hn R).
Qed.

Lemma path_loop_names (ex : list (Pane * str)) (options : Options)
      (rs : list rename) :
  (0 <= max_name_len options)%Z ->
  path_loop ex options = Ok rs ->
  Forall (fun r => (Z.of_nat (length (rn_name r)) <= max_name_len options)%Z /\
                   rn_window r = py_str (window_id (target r))) rs.
Proof.
  intros Hn. revert rs; induction ex as [|[p d] ex IH]; intros rs H.
  - cbn in H. injection H as <-. constructor.
  - cbn [path_loop] in H.
    destruct (negb (enabled_in_window (window_id (info p)))); [now apply IH|].
    destruct (substitute_name d _); cbn [bind] in H; [|discriminate].
    destruct (match program p with Some _ => _ | None => _ end);
      cbn [bind] in H; [|discriminate].
    destruct (rename_window _ _ _) as [name|] eqn:R; cbn [bind] in H;
      [|discriminate].
    destruct (path_loop ex options) as [rs'|]; [|discriminate].
    cbn [bind] in H. injection H as <-.
    constructor; [|now apply IH].
    cbn [rn_name rn_window target]. split; [|reflexivity].
    now apply (rename_window_length _ _ _ _ Hn R).
Qed.

(** X11: no name sent by a run is longer than [max_name_len] (a length),
    whichever loop sends it and with or without icon; and each name is sent
    to the window of the pane it was made for. *)
Theorem names_sent_are_bounded
        (already_running : bool) (panes : list TmuxPane)
        (ps_output : option bytes) (options : Options) (renames : list rename) :
  (0 <= max_name_len options)%Z ->
  rename_windows already_running panes ps_output options = Ok renames ->
  Forall (fun r => (Z.of_nat (length (rn_name r)) <= max_name_len options)%Z /\
                   rn_window r = py_str (window_id (target r))) renames.
Proof.
  intros Hn H. unfold rename_windows in H.
  destruct already_running; [injection H as <-; constructor|].
  destruct (get_panes_programs panes ps_output options); [|discriminate].
  cbn [bind] in H.
  destruct (program_loop _ options) as [[rs handed]|] eqn:Hloop; [|discriminate].
  cbn [bind fst snd] in H.
  destruct (path_loop _ options) as [rs2|] eqn:Hpath; [|discriminate].
  cbn [bind] in H. injection H as <-.
  apply Forall_app. split.
  - now apply (program_loop_names _ _ _ _ Hn Hloop).
  - now apply (path_loop_names _ _ _ Hn Hpath).
Qed.

(** X12: a window whose enabled option is off is never renamed, and a run
    that finds another run under way sends nothing at all. *)
Theorem disabled_windows_are_left_alone
        (already_running : bool) (panes : list TmuxPane)
        (ps_output : option bytes) (options : Options) (renames : list rename) :
  rename_windows already_running panes ps_output options = Ok renames ->
  Forall (fun r => enabled_in_window (window_id (target r)) = true) renames /\
  (already_running = true -> renames = []).
Proof.
  intros H. unfold rename_windows in H.
  destruct already_running; [injection H as <-; split; [constructor|reflexivity]|].
  split; [|discriminate].
  destruct (get_panes_programs panes ps_output options) as [pp|]; [|discriminate].
  cbn [bind] in H.
  destruct (program_loop _ options) as [[rs handed]|] eqn:Hloop; [|discriminate].
  cbn [bind fst snd] in H.
  destruct (path_loop _ options) as [rs2|] eqn:Hpath; [|discriminate].
  cbn [bind] in H. injection H as <-.
  destruct (program_loop_targets _ _ _ _ Hloop) as (P & _ & _).
  destruct (path_loop_targets _ _ _ Hpath) as (E & _).
  apply Forall_app. split; apply Forall_forall; intros r Hr.
  - assert (Hin : In (target r) (filter enabled_pane (map info (panes_with_programs
                    (map (fun p => fix_pane_path p options) pp))))).
    { apply (Permutation_in _ P), in_or_app. left. now apply in_map. }
    apply filter_In in Hin. exact (proj2 Hin).
  - assert (Hin : In (target r) (map target rs2)) by now apply in_map.
    rewrite E in Hin. apply filter_In in Hin. exact (proj2 Hin).
Qed.

(** ** Icons *)

Lemma get_program_icon_key (program_name : str) (options : Options) :
  get_program_icon program_name options =
  (key <- icon_key program_name ;;
   if startswith (icon_for options key) [92; 117]
   then unicode_escape (icon_for options key)
   else Ok (icon_for options key)).
Proof.
  unfold get_program_icon, icon_key, icon_for.
  destruct (index (str_split program_name) 0) as [word0|]; [|reflexivity].
  cbn [bind].
  destruct (index_last (split_on 47 word0 [])) as [base|]; [|reflexivity].
  cbn [bind].
  destruct (if contains base (u ":") then _ else _); reflexivity.
Qed.

Lemma split_ws_word {A : Type} (ws : A -> bool) (w cur : list A) :
  forallb (fun c => negb (ws c)) w = true ->
  (split_ws ws w cur =
   match rev cur ++ w with [] => [] | x :: t => [x :: t] end) /\
  (forall c rest, ws c = true ->
     split_ws ws (w ++ c :: rest) cur =
     match rev cur ++ w with
     | [] => split_ws ws rest []
     | x :: t => (x :: t) :: split_ws ws rest []
     end).
Proof.
  revert cur; induction w as [|d w IH]; intros cur H.
  - rewrite app_nil_r. split.
    + cbn [split_ws]. destruct cur as [|x cur]; [reflexivity|].
      cbn [rev]. now destruct (rev cur ++ [x]) eqn:E;
        [destruct (rev cur); discriminate|].
    + intros c rest Hc. cbn [app split_ws]. rewrite Hc.
      destruct cur as [|x cur]; [reflexivity|].
      cbn [rev]. now destruct (rev cur ++ [x]) eqn:E;
        [destruct (rev cur); discriminate|].
  - cbn [forallb] in H. apply andb_true_iff in H as [Hd H].
    apply negb_true_iff in Hd.
    destruct (IH (d :: cur) H) as [IH1 IH2].
    cbn [rev] in IH1, IH2. rewrite <- app_assoc in IH1, IH2. cbn [app] in IH1, IH2.
    split.
    + cbn [split_ws]. rewrite Hd. exact IH1.
    + intros c rest Hc. cbn [app split_ws]. rewrite Hd. now apply IH2.
Qed.

Lemma first_word (w args : str) :
  no_space w = true -> w <> [] ->
  args = [] \/ (exists c rest, args = c :: rest /\ is_space_unicode c = true) ->
  index (str_split (w ++ args)) 0 = Ok w.
Proof.
  intros Hw Hne Hargs. unfold str_split.
  destruct (split_ws_word is_space_unicode w [] Hw) as [E1 E2].
  cbn [rev app] in E1, E2.
  destruct Hargs as [->|(c & rest & -> & Hc)].
  - rewrite app_nil_r, E1. destruct w; [contradiction|reflexivity].
  - specialize (E2 c rest Hc). unfold str, char in *. rewrite E2.
    destruct w; [contradiction|reflexivity].
Qed.

Lemma split_on_plain (sep : char) (s cur : str) :
  no_char sep s = true -> split_on sep s cur = [rev cur ++ s].
Proof.
  revert cur; induction s as [|d s IH]; intros cur H.
  - cbn [split_on]. now rewrite app_nil_r.
  - cbn [no_char forallb] in H. apply andb_true_iff in H as [Hd H].
    apply negb_true_iff in Hd. cbn [split_on]. rewrite Hd, (IH (d :: cur) H).
    cbn [rev]. now rewrite <- app_assoc.
Qed.

Lemma index_last_cons {A : Type} (x y : A) (l : list A) :
  index_last (x :: y :: l) = index_last (y :: l).
Proof.
  unfold index_last. cbn [rev].
  destruct (rev l) as [|z t]; reflexivity.
Qed.

Lemma split_on_nonempty (sep : char) (s cur : str) :
  exists x t, split_on sep s cur = x :: t.
Proof.
  revert cur; induction s as [|d s IH]; intros cur; cbn [split_on].
  - eauto.
  - destruct (d =? sep); [eauto|apply IH].
Qed.

Lemma split_on_last (sep : char) (d base cur : str) :
  no_char sep base = true ->
  index_last (split_on sep (d ++ sep :: base) cur) = Ok base.
Proof.
  intros Hb. revert cur; induction d as [|c d IH]; intros cur.
  - cbn [app split_on]. rewrite N.eqb_refl, split_on_plain by exact Hb.
    reflexivity.
  - cbn [app split_on]. destruct (c =? sep); [|apply IH].
    destruct (split_on_nonempty sep (d ++ sep :: base) []) as (x & t & E).
    specialize (IH []). rewrite E in *. now rewrite index_last_cons.
Qed.

Lemma split_on_head (sep : char) (s cur : str) :
  index (split_on sep s cur) 0 = Ok (rev cur ++ upto sep s).
Proof.
  revert cur; induction s as [|d s IH]; intros cur; cbn [split_on upto].
  - now rewrite app_nil_r.
  - destruct (d =? sep); [now rewrite app_nil_r|].
    rewrite (IH (d :: cur)). cbn [rev]. now rewrite <- app_assoc.
Qed.

Lemma upto_absent (c : char) (s : str) :
  contains s [c] = false -> upto c s = s.
Proof.
  induction s as [|d s IH]; [reflexivity|].
  cbn [contains upto]. unfold startswith. cbn [strip_prefix].
  rewrite (N.eqb_sym d c). destruct (c =? d); [discriminate|].
  cbn [orb]. intros H. now rewrite IH.
Qed.

Lemma forallb_upto (f : char -> bool) (c : char) (s : str) :
  forallb f s = true -> forallb f (upto c s) = true.
Proof.
  induction s as [|d s IH]; [reflexivity|]. cbn [forallb upto].
  intros H. apply andb_true_iff in H as [Hd H].
  destruct (d =? c); [reflexivity|]. cbn [forallb]. now rewrite Hd, IH.
Qed.

Lemma contains_upto (c : char) (s : str) : contains (upto c s) [c] = false.
Proof.
  induction s as [|d s IH]; [reflexivity|]. cbn [upto].
  destruct (d =? c) eqn:E; [reflexivity|].
  cbn [contains]. unfold startswith. cbn [strip_prefix].
  rewrite (N.eqb_sym c d), E. exact IH.
Qed.

(** X13: the icon is looked up under the last path component of the first
    word of the name, up to its first colon: the directory of the program,
    its arguments and what follows a colon play no part.  For a label
    [program:dir/leaf] that key is the leaf, not the program. *)
Theorem icon_key_of_command (dir base args : str) :
  no_space dir = true ->
  no_space base = true ->
  no_char 47 base = true ->
  dir ++ base <> [] ->
  dir = [] \/ (exists d, dir = d ++ u "/") ->
  args = [] \/ (exists c rest, args = c :: rest /\ is_space_unicode c = true) ->
  icon_key (dir ++ base ++ args) = Ok (upto 58 base) /\
  forall options,
    get_program_icon (dir ++ base ++ args) options =
    get_program_icon (upto 58 base) options \/
    upto 58 base = [].
Proof.
  intros Hd Hb Hslash Hne Hdir Hargs.
  assert (K : forall name, index (str_split name) 0 = Ok (dir ++ base) ->
                           icon_key name = Ok (upto 58 base)).
  { intros name Hw. unfold icon_key. rewrite Hw. cbn [bind].
    assert (L : index_last (split_on 47 (dir ++ base) []) = Ok base).
    { destruct Hdir as [->|(d & ->)].
      - cbn [app]. now rewrite split_on_plain.
      - rewrite <- app_assoc. now apply split_on_last. }
    rewrite L. cbn [bind].
    destruct (contains base (u ":")) eqn:C.
    - apply split_on_head.
    - now rewrite (upto_absent 58 base C). }
  assert (E : icon_key (dir ++ base ++ args) = Ok (upto 58 base)).
  { apply K. rewrite app_assoc. apply first_word; try assumption.
    unfold no_space in *. rewrite forallb_app.
    apply andb_true_iff. split; assumption. }
  split; [exact E|]. intros options.
  destruct (upto 58 base) as [|k key] eqn:U; [now right|]. left.
  rewrite !get_program_icon_key, E.
  assert (E' : icon_key (k :: key) = Ok (k :: key)).
  { assert (Hk : no_space (k :: key) = true /\ no_char 47 (k :: key) = true /\
                 contains (k :: key) (u ":") = false).
    { rewrite <- U. repeat split.
      - now apply forallb_upto.
      - now apply forallb_upto.
      - apply contains_upto. }
    destruct Hk as (H1 & H2 & H3).
    unfold icon_key.
    rewrite <- (app_nil_r (k :: key)) at 1.
    rewrite first_word by (try assumption; try discriminate; now left).
    cbn [bind]. rewrite split_on_plain by exact H2. cbn [rev app].
    unfold index_last. cbn [rev app bind]. now rewrite H3. }
  now rewrite E'.
Qed.

Lemma default_icons_are_glyphs (key icon : str) :
  dict_get DEFAULT_PROGRAM_ICONS key = Some icon ->
  startswith icon [92; 117] = false /\ icon <> [].
Proof.
  unfold DEFAULT_PROGRAM_ICONS.
  repeat (cbn [dict_get];
          match goal with
          | |- (if ?c then _ else _) = _ -> _ =>
            destruct c; [intros H; injection H as <-; split; [reflexivity|discriminate]|]
          end).
  discriminate.
Qed.

(** X14: a custom icon wins over the built-in one for the same key; where
    no custom icon is given, or an empty one, the built-in icon is used;
    a key in neither table has the empty icon.  A custom icon written as a
    [\u] escape goes through the codec, any other is used as it is. *)
Theorem custom_icons_come_first
        (program_name : str) (options : Options) (key : str) :
  icon_key program_name = Ok key ->
  (forall c icon,
      dict_get (custom_icons options) key = Some (c :: icon) ->
      get_program_icon program_name options =
      if startswith (c :: icon) [92; 117]
      then unicode_escape (c :: icon) else Ok (c :: icon)) /\
  (dict_get (custom_icons options) key = None \/
   dict_get (custom_icons options) key = Some [] ->
   get_program_icon program_name options =
   Ok match dict_get DEFAULT_PROGRAM_ICONS key with
      | Some icon => icon
      | None => []
      end).
Proof.
  intros K. rewrite get_program_icon_key, K. cbn [bind]. unfold icon_for.
  split.
  - intros c icon ->. reflexivity.
  - intros H.
    assert (E : match dict_get (custom_icons options) key with
                | Some (c :: v) => c :: v
                | _ => match dict_get DEFAULT_PROGRAM_ICONS key with
                       | Some v => v
                       | None => []
                       end
                end = match dict_get DEFAULT_PROGRAM_ICONS key with
                      | Some v => v
                      | None => []
                      end)
      by (destruct H as [-> | ->]; reflexivity).
    rewrite E.
    destruct (dict_get DEFAULT_PROGRAM_ICONS key) as [icon|] eqn:D;
      [|reflexivity].
    now rewrite (proj1 (default_icons_are_glyphs _ _ D)).
Qed.

(** X15: how the style decorates.  In the name style the name is kept as
    it is, whatever it is.  In the two icon styles a name without any word
    raises [IndexError], a name whose key has no icon is kept as it is, and
    with an icon the icon style shows the icon alone. *)
Theorem style_decides_the_decoration (name : str) (options : Options) :
  (icon_style options = NAME -> apply_icon_if_in_style name options = Ok name) /\
  (icon_style options <> NAME -> str_split name = [] ->
   apply_icon_if_in_style name options = Raise IndexError) /\
  (forall key,
      icon_key name = Ok key ->
      icon_for options key = [] ->
      apply_icon_if_in_style name options = Ok name) /\
  (forall c icon,
      icon_style options = ICON ->
      get_program_icon name options = Ok (c :: icon) ->
      apply_icon_if_in_style name options = Ok (c :: icon) /\
      forall max_len, rename_window name max_len options =
                      Ok (slice_to (c :: icon) max_len)).
Proof.
  unfold rename_window, apply_icon_if_in_style. split; [|split; [|split]].
  - intros ->. reflexivity.
  - intros Hs Hb.
    assert (E : get_program_icon name options = Raise IndexError)
      by (unfold get_program_icon; now rewrite Hb).
    rewrite E. destruct (icon_style options); [contradiction| |]; reflexivity.
  - intros key K Hi.
    assert (E : get_program_icon name options = Ok [])
      by (rewrite get_program_icon_key, K; cbn [bind]; now rewrite Hi).
    rewrite E. now destruct (icon_style options).
  - intros c icon -> ->. cbn [bind]. split; reflexivity.
Qed.

(** ** The tilde *)

Lemma replace_from_skip (old new x rest : str) :
  replace_from old new (x ++ rest) (length x) = replace_from old new rest O.
Proof.
  induction x as [|c x IH]; [reflexivity|]. cbn [app length replace_from].
  exact IH.
Qed.

Lemma replace_from_absent (old new s : str) :
  contains s old = false -> replace_from old new s O = s.
Proof.
  induction s as [|c s IH]; [reflexivity|].
  intros H. pose proof (contains_startswith _ _ H) as Hs.
  cbn [replace_from]. rewrite Hs. cbn [contains] in H.
  apply orb_false_iff in H as [_ H]. now rewrite IH.
Qed.

Lemma str_replace_prefix (old new rest : str) :
  old <> [] ->
  str_replace (old ++ rest) old new = new ++ str_replace rest old new.
Proof.
  intros Hne. destruct old as [|c old]; [contradiction|].
  unfold str_replace. cbn [app replace_from].
  unfold startswith. change (c :: old ++ rest) with ((c :: old) ++ rest).
  rewrite strip_prefix_app.
  replace (length (c :: old) - 1)%nat with (length old) by (cbn [length]; lia).
  now rewrite replace_from_skip.
Qed.

Lemma str_replace_absent (s old new : str) :
  contains s old = false -> str_replace s old new = s.
Proof.
  intros H. destruct old as [|c old].
  - destruct s; cbn in H; discriminate.
  - unfold str_replace. now apply replace_from_absent.
Qed.

(** X16: [fix_pane_path] touches the directory only, and only when the
    tilde is asked for.  A directory under the home directory then starts
    with a tilde, and every other occurrence of the home directory in it is
    replaced as well; a directory in which the home directory does not
    occur is kept. *)
Theorem fix_pane_path_writes_the_tilde (pane : Pane) (options : Options) :
  program (fix_pane_path pane options) = program pane /\
  pane_pid (info (fix_pane_path pane options)) = pane_pid (info pane) /\
  window_id (info (fix_pane_path pane options)) = window_id (info pane) /\
  (use_tilde options = false \/ pane_current_path (info pane) = None ->
   pane_current_path (info (fix_pane_path pane options)) =
   pane_current_path (info pane)) /\
  (forall rest,
      use_tilde options = true -> HOME_DIR <> [] ->
      pane_current_path (info pane) = Some (HOME_DIR ++ rest) ->
      pane_current_path (info (fix_pane_path pane options)) =
      Some (u "~" ++ str_replace rest HOME_DIR (u "~"))) /\
  (forall path,
      pane_current_path (info pane) = Some path ->
      contains path HOME_DIR = false ->
      pane_current_path (info (fix_pane_path pane options)) = Some path).
Proof.
  unfold fix_pane_path.
  destruct (pane_current_path (info pane)) as [path|] eqn:P; cbn [info program
    pane_pid window_id pane_current_path];
    (split; [reflexivity|]); (split; [reflexivity|]); (split; [reflexivity|]).
  - split; [|split].
    + intros [-> | H]; [reflexivity|discriminate].
    + intros rest -> Hne H. injection H as ->.
      now rewrite str_replace_prefix.
    + intros path' H Habs. injection H as <-.
      destruct (use_tilde options); [|reflexivity].
      now rewrite str_replace_absent.
  - split; [|split].
    + intros _. exact P.
    + intros rest _ _ H. discriminate.
    + intros path H. discriminate.
Qed.

(** ** The default substitutions *)

Lemma default_rules :
  substitute_sets default_options =
  [ipython_rule; USR_BIN_REMOVER; CUR_SYSTEM_REMOVER; PROFILE_REMOVER;
   NIX_STORE_REMOVER; bash_script_rule; poetry_rule].
Proof. reflexivity. Qed.

Lemma contains_step (c : N) (s l : list N) :
  startswith (c :: s) l = false -> contains (c :: s) l = contains s l.
Proof. intros H. cbn [contains]. now rewrite H. Qed.

Lemma nowhere_of_contains (l s : str) : contains s l = false -> nowhere l s.
Proof.
  intros H n. revert s H; induction n as [|n IH]; intros s H.
  - pose proof (contains_startswith _ _ H) as Hs. unfold startswith in Hs.
    cbn [skipn]. now destruct (strip_prefix l s).
  - destruct s as [|c s].
    + pose proof (contains_startswith _ _ H) as Hs. unfold startswith in Hs.
      cbn [skipn]. now destruct (strip_prefix l []).
    + cbn [skipn]. apply IH. cbn [contains] in H.
      now apply orb_false_iff in H as [_ H].
Qed.

Lemma nowhere_skipn (l s : str) (n : nat) : nowhere l s -> nowhere l (skipn n s).
Proof. intros H m. rewrite skipn_skipn. apply H. Qed.

Lemma nowhere_tail (l s : str) (c : char) : nowhere l (c :: s) -> nowhere l s.
Proof. intros H. exact (nowhere_skipn l (c :: s) 1 H). Qed.

Lemma nowhere_after (l p s r : str) :
  nowhere l s -> strip_prefix p s = Some r -> nowhere l r.
Proof.
  intros H E. apply strip_prefix_some in E. subst s.
  intros n. specialize (H (length p + n)%nat).
  assert (E : skipn (length p + n) (p ++ r) = skipn n r)
    by (clear; induction p as [|c p IH]; [reflexivity|exact IH]).
  now rewrite E in H.
Qed.

Lemma nowhere_longer (c : char) (l s : str) :
  nowhere [c] s -> nowhere (c :: l) s.
Proof.
  intros H n. specialize (H n).
  change (c :: l) with ([c] ++ l). rewrite strip_prefix_split. now rewrite H.
Qed.

Lemma many_none (cs : cset) (k : cont) (s : str) (p : nat) (g : list (nat * str)) :
  (forall n p' g', k (MState (skipn n s) p' g') = None) ->
  many cs k s p g = None.
Proof.
  revert p; induction s as [|c s IH]; intros p H; cbn [many].
  - exact (H O p g).
  - assert (H0 : k (MState (c :: s) p g) = None) by exact (H O p g).
    destruct (in_cset cs c); [|exact H0].
    rewrite IH, H0; [reflexivity|].
    intros n p' g'. exact (H (S n) p' g').
Qed.

Lemma sub_loop_never (fuel : nat) (r : regex) (t : template) (s : str)
      (p : nat) (ma : bool) :
  (forall n p' ma', match_at r (skipn n s) p' ma' = None) ->
  sub_loop fuel r t s p ma = s.
Proof.
  revert s p ma; induction fuel as [|fuel IH]; intros s p ma H; cbn [sub_loop];
    [reflexivity|].
  pose proof (H O p ma) as H0. cbn [skipn] in H0. rewrite H0.
  destruct s as [|c s]; [reflexivity|].
  rewrite IH; [reflexivity|]. intros n p' ma'. exact (H (S n) p' ma').
Qed.

Lemma re_sub_never (r : regex) (t : template) (s : str) :
  template_ok r t = true ->
  (forall n p ma, match_at r (skipn n s) p ma = None) ->
  re_sub r t s = Ok s.
Proof.
  intros Ht H. unfold re_sub. rewrite Ht. f_equal. now apply sub_loop_never.
Qed.

(** A pattern [.+l...] finds nothing where [l] starts nowhere: [k] stands
    for what follows [.+], which begins with the literal [l]. *)
Lemma floating_literal_never (l : str) (k : cont) (s : str) (p : nat)
      (g : list (nat * str)) :
  (forall st, strip_prefix l (rest st) = None -> k st = None) ->
  nowhere l s ->
  step1 Any (fun st' => many Any k (rest st') (pos st') (caps st'))
        (MState s p g) = None.
Proof.
  intros Hk H. unfold step1. cbn [rest pos caps].
  destruct s as [|c s]; [reflexivity|].
  destruct (in_cset Any c); [|reflexivity].
  apply many_none. intros n p' g'. apply Hk. cbn [rest].
  exact (nowhere_tail _ _ _ H n).
Qed.

Lemma ipython_rule_never (s : str) (p : nat) (ma : bool) :
  nowhere (u "ipython") s -> match_at (fst ipython_rule) s p ma = None.
Proof.
  intros H. unfold match_at, ipython_rule. cbn [fst rmatch].
  apply (floating_literal_never (u "ipython")); [|exact H].
  intros st E. now rewrite E.
Qed.

Lemma poetry_rule_never (s : str) (p : nat) (ma : bool) :
  nowhere (u "poetry shell") s -> match_at (fst poetry_rule) s p ma = None.
Proof.
  intros H. unfold match_at, poetry_rule. cbn [fst rmatch].
  apply (floating_literal_never (u "poetry shell")); [|exact H].
  intros st E. now rewrite E.
Qed.

Lemma bash_script_rule_never (s : str) (p : nat) (ma : bool) :
  nowhere (u "/") s -> match_at (fst bash_script_rule) s p ma = None.
Proof.
  intros H. unfold match_at, bash_script_rule. cbn [fst rmatch rest pos caps].
  destruct (strip_prefix (u "bash") s) as [s1|] eqn:E1; [|reflexivity].
  cbn [rest pos caps].
  destruct (strip_prefix (u " ") s1) as [s2|] eqn:E2; [|reflexivity].
  pose proof (nowhere_after _ _ _ _ (nowhere_after _ _ _ _ H E1) E2) as H2.
  apply (floating_literal_never (u "/")); [|exact H2].
  intros st E. cbn [rest]. now rewrite E.
Qed.

Lemma rooted_rule_never (l : str) (r : regex) (s : str) (p : nat) (ma : bool) :
  nowhere (u "/") s ->
  match_at (Seq Bol (Seq (Lit (47 :: l)) r)) s p ma = None.
Proof.
  intros H. unfold match_at. cbn [rmatch rest pos caps].
  destruct p; [|reflexivity].
  pose proof (nowhere_longer 47 l s H O) as E. cbn [skipn] in E.
  unfold char in *. now rewrite E.
Qed.

Lemma rooted_rule_keeps (l : str) (r : regex) (t : template) (name : str) :
  template_ok (Seq Bol (Seq (Lit (47 :: l)) r)) t = true ->
  nowhere (u "/") name ->
  re_sub (Seq Bol (Seq (Lit (47 :: l)) r)) t name = Ok name.
Proof.
  intros Ht H. apply re_sub_never; [exact Ht|].
  intros n p ma. apply rooted_rule_never. now apply nowhere_skipn.
Qed.

Lemma strip_usr_bin_plain (s : str) : nowhere (u "/") s -> strip_usr_bin s = s.
Proof.
  intros H. unfold strip_usr_bin.
  assert (E : forall l, strip_prefix (u "/" ++ l) s = None).
  { intros l. rewrite strip_prefix_split. pose proof (H O) as H0.
    cbn [skipn] in H0. now rewrite H0. }
  change (u "/usr/bin/") with (u "/" ++ u "usr/bin/").
  change (u "/bin/") with (u "/" ++ u "bin/"). now rewrite !E.
Qed.

Lemma filter_strip_facts :
  (forall rest, has_name rest = true ->
     strip_usr_bin (u "/bin/" ++ rest) = rest /\
     strip_usr_bin (u "/usr/bin/" ++ rest) = rest) /\ True.
Proof.
  split; [|exact I]. intros rest Hr. split.
  - unfold strip_usr_bin.
    replace (strip_prefix (u "/usr/bin/") (u "/bin/" ++ rest)) with (@None str)
      by reflexivity.
    now rewrite strip_prefix_app, Hr.
  - unfold strip_usr_bin. now rewrite strip_prefix_app, Hr.
Qed.

(** What the rules after [USR_BIN_REMOVER] do to a name without [/]. *)
Lemma later_rules_keep_plain (name : str) :
  nowhere (u "/") name ->
  nowhere (u "poetry shell") name ->
  substitute_name name
    [CUR_SYSTEM_REMOVER; PROFILE_REMOVER; NIX_STORE_REMOVER;
     bash_script_rule; poetry_rule] = Ok name.
Proof.
  intros Hs Hp.
  assert (C : re_sub (fst CUR_SYSTEM_REMOVER) (snd CUR_SYSTEM_REMOVER) name = Ok name)
    by (apply (rooted_rule_keeps (u "run/current-system/sw/bin/"));
        [reflexivity|exact Hs]).
  assert (F : re_sub (fst PROFILE_REMOVER) (snd PROFILE_REMOVER) name = Ok name)
    by (apply (rooted_rule_keeps (u "home/")); [reflexivity|exact Hs]).
  assert (N : re_sub (fst NIX_STORE_REMOVER) (snd NIX_STORE_REMOVER) name = Ok name)
    by (apply (rooted_rule_keeps (u "nix/store/")); [reflexivity|exact Hs]).
  assert (B : re_sub (fst bash_script_rule) (snd bash_script_rule) name = Ok name).
  { apply re_sub_never; [reflexivity|].
    intros n p ma. apply bash_script_rule_never. now apply nowhere_skipn. }
  assert (P : re_sub (fst poetry_rule) (snd poetry_rule) name = Ok name).
  { apply re_sub_never; [reflexivity|].
    intros n p ma. apply poetry_rule_never. now apply nowhere_skipn. }
  change (substitute_name name
            [CUR_SYSTEM_REMOVER; PROFILE_REMOVER; NIX_STORE_REMOVER;
             bash_script_rule; poetry_rule])
    with (n1 <- re_sub (fst CUR_SYSTEM_REMOVER) (snd CUR_SYSTEM_REMOVER) name ;;
          n2 <- re_sub (fst PROFILE_REMOVER) (snd PROFILE_REMOVER) n1 ;;
          n3 <- re_sub (fst NIX_STORE_REMOVER) (snd NIX_STORE_REMOVER) n2 ;;
          n4 <- re_sub (fst bash_script_rule) (snd bash_script_rule) n3 ;;
          n5 <- re_sub (fst poetry_rule) (snd poetry_rule) n4 ;;
          Ok n5).
  rewrite C. cbn [bind]. rewrite F. cbn [bind]. rewrite N. cbn [bind].
  rewrite B. cbn [bind]. rewrite P. reflexivity.
Qed.

Lemma ipython_rule_keeps (name : str) :
  nowhere (u "ipython") name ->
  re_sub (fst ipython_rule) (snd ipython_rule) name = Ok name.
Proof.
  intros H. apply re_sub_never; [reflexivity|].
  intros n p ma. apply ipython_rule_never. now apply nowhere_skipn.
Qed.

(** X17: with the default substitution rules, a name in which [/],
    [ipython] and [poetry shell] do not occur is shown as it is, and a name
    under [/usr/bin/] or [/bin/] loses that prefix and nothing else. *)
Theorem default_rules_keep_plain_names (name : str) :
  contains name (u "/") = false ->
  contains name (u "ipython") = false ->
  contains name (u "poetry shell") = false ->
  substitute_name name (substitute_sets default_options) = Ok name /\
  (has_name name = true ->
   substitute_name (u "/usr/bin/" ++ name) (substitute_sets default_options) =
     Ok name /\
   substitute_name (u "/bin/" ++ name) (substitute_sets default_options) =
     Ok name).
Proof.
  intros Hs Hi Hp.
  pose proof (nowhere_of_contains _ _ Hs) as Ns.
  pose proof (nowhere_of_contains _ _ Hi) as Ni.
  pose proof (nowhere_of_contains _ _ Hp) as Np.
  pose proof (later_rules_keep_plain name Ns Np) as L.
  assert (U : forall s, re_sub (fst USR_BIN_REMOVER) (snd USR_BIN_REMOVER) s =
                        Ok (strip_usr_bin s))
    by exact program_name_stripped_eq.
  rewrite default_rules.
  assert (S1 : forall full,
             nowhere (u "ipython") full -> strip_usr_bin full = name ->
             substitute_name full
               [ipython_rule; USR_BIN_REMOVER; CUR_SYSTEM_REMOVER; PROFILE_REMOVER;
                NIX_STORE_REMOVER; bash_script_rule; poetry_rule] = Ok name).
  { intros full Hn Hstrip.
    change (substitute_name full
              [ipython_rule; USR_BIN_REMOVER; CUR_SYSTEM_REMOVER; PROFILE_REMOVER;
               NIX_STORE_REMOVER; bash_script_rule; poetry_rule])
      with (n1 <- re_sub (fst ipython_rule) (snd ipython_rule) full ;;
            n2 <- re_sub (fst USR_BIN_REMOVER) (snd USR_BIN_REMOVER) n1 ;;
            substitute_name n2
              [CUR_SYSTEM_REMOVER; PROFILE_REMOVER; NIX_STORE_REMOVER;
               bash_script_rule; poetry_rule]).
    rewrite (ipython_rule_keeps full Hn). cbn [bind].
    rewrite U, Hstrip. cbn [bind]. exact L. }
  split.
  - apply S1; [exact Ni|]. now apply strip_usr_bin_plain.
  - intros Hname.
    destruct filter_strip_facts as [F _].
    specialize (F name Hname). split.
    + apply S1; [|exact (proj2 F)].
      apply nowhere_of_contains.
      change (u "/usr/bin/" ++ name)
        with (47 :: 117 :: 115 :: 114 :: 47 :: 98 :: 105 :: 110 :: 47 :: name).
      repeat (rewrite contains_step by reflexivity). exact Hi.
    + apply S1; [|exact (proj1 F)].
      apply nowhere_of_contains.
      change (u "/bin/" ++ name) with (47 :: 98 :: 105 :: 110 :: 47 :: name).
      repeat (rewrite contains_step by reflexivity). exact Hi.
Qed.

(** X19: the cut only takes characters off the end.  For every bound the
    name sent is a prefix of the decorated name; a bound of zero empties
    it, and a negative bound, which the slice counts from the end, drops
    that many characters. *)
Theorem cut_keeps_a_prefix
        (name : str) (max_len : Z) (options : Options) (out : str) :
  rename_window name max_len options = Ok out ->
  exists decorated tail,
    apply_icon_if_in_style name options = Ok decorated /\
    decorated = out ++ tail /\
    (max_len = 0%Z -> out = []) /\
    ((max_len < 0)%Z ->
     length tail = Nat.min (Z.to_nat (- max_len)) (length decorated)).
Proof.
  unfold rename_window.
  destruct (apply_icon_if_in_style name options) as [d|]; [|discriminate].
  cbn [bind]. intros H. injection H as <-. unfold slice_to.
  destruct (Z.leb_spec 0 max_len) as [Hn|Hn].
  - exists d, (skipn (Z.to_nat max_len) d). split; [reflexivity|].
    split; [now rewrite firstn_skipn|]. split; [intros ->; reflexivity|lia].
  - exists d, (skipn (length d - Z.to_nat (- max_len)) d).
    split; [reflexivity|]. split; [now rewrite firstn_skipn|].
    split; [lia|]. intros _. rewrite length_skipn. lia.
Qed.

(** ** The printed programs *)

Lemma print_lines_count (panes_programs : list Pane) (options : Options)
      (lines : list str) :
  print_lines panes_programs options = Ok lines ->
  length lines = length (filter has_program panes_programs).
Proof.
  revert lines; induction panes_programs as [|p l IH]; intros lines H.
  - cbn in H. now injection H as <-.
  - cbn [print_lines] in H. cbn [filter]. unfold has_program at 1.
    destruct (program p) as [[|c prog]|]; try (now apply IH).
    destruct (substitute_name _ _); cbn [bind] in H; [|discriminate].
    destruct (apply_icon_if_in_style _ _); cbn [bind] in H; [|discriminate].
    destruct (print_lines l options) as [ls|]; [|discriminate].
    cbn [bind] in H. injection H as <-. cbn [length]. now rewrite (IH ls).
Qed.

(** X18: [print_programs] prints one line for each pane whose program is
    not empty, and what it prints after the arrow is the name before the
    cut: where the first loop of [rename_windows] renames the window of such
    a pane, the name it sends is that one cut to [max_name_len]. *)
Theorem print_shows_the_name_before_the_cut (options : Options) :
  (forall panes_programs lines,
      print_lines panes_programs options = Ok lines ->
      length lines = length (filter has_program panes_programs)) /\
  (forall pane more prog sub shown,
      program pane = Some prog ->
      prog <> [] ->
      substitute_name prog (substitute_sets options) = Ok sub ->
      apply_icon_if_in_style sub options = Ok shown ->
      (forall lines,
          print_lines more options = Ok lines ->
          print_lines (pane :: more) options =
            Ok ((prog ++ u " -> " ++ shown) :: lines)) /\
      (forall rs handed,
          enabled_in_window (window_id (info pane)) = true ->
          get_program_if_dir prog (dir_programs options) = Ok None ->
          program_loop more options = Ok (rs, handed) ->
          program_loop (pane :: more) options =
            Ok ({| via := ByProgram; target := info pane;
                   rn_window := py_str (window_id (info pane));
                   rn_name := slice_to shown (max_name_len options) |} :: rs,
                handed))).
Proof.
  split; [intros pp lines; apply print_lines_count|].
  intros pane more prog sub shown Hp Hne Hs Ha. split.
  - intros lines Hl.
    cbn [print_lines]. rewrite Hp. destruct prog as [|c prog]; [contradiction|].
    rewrite Hs. cbn [bind]. rewrite Ha. cbn [bind]. now rewrite Hl.
  - intros rs handed Hen Hd Hl. cbn [program_loop].
    rewrite Hen, Hp. cbn [negb py_str]. rewrite Hd. cbn [bind].
    rewrite Hs. cbn [bind]. unfold rename_window. rewrite Ha. cbn [bind].
    now rewrite Hl.
Qed.

End Engine.

(** ** Claims on the Directory Disambiguator *)

Lemma segs_eqb_eq (x y : list str) : segs_eqb x y = true <-> x = y.
Proof.
  revert y; induction x as [|a x IH]; intros [|c y]; cbn [segs_eqb]; split;
    try congruence; try reflexivity.
  - intros H. apply andb_true_iff in H as [H1 H2].
    apply str_eqb_eq in H1. apply IH in H2. congruence.
  - intros H. injection H as -> ->. rewrite str_eqb_refl. now apply IH.
Qed.

Lemma sharing_perm (k : nat) (segs : list str) (all all' : list (list str)) :
  Permutation all all' -> sharing k segs all = sharing k segs all'.
Proof.
  intros H. unfold sharing. now apply Permutation_length, filter_perm.
Qed.

Lemma extend_perm (all all' : list (list str)) (segs : list str) (k fuel : nat) :
  Permutation all all' -> extend all segs k fuel = extend all' segs k fuel.
Proof.
  intros H. revert k; induction fuel as [|fuel IH]; intros k; cbn [extend];
    [reflexivity|].
  rewrite (sharing_perm k segs _ _ H). now rewrite IH.
Qed.

Lemma suffix_app (k : nat) (pre tail : list str) :
  length tail = k -> suffix k (pre ++ tail) = tail.
Proof.
  intros H. unfold suffix. rewrite length_app, H.
  replace (length pre + k - k)%nat with (length pre) by lia.
  now rewrite skipn_app, skipn_all, Nat.sub_diag.
Qed.

Lemma suffix_1_of_suffix (k : nat) (x : list str) :
  suffix 1 (suffix (S k) x) = suffix 1 x.
Proof.
  unfold suffix. rewrite skipn_skipn, length_skipn. f_equal. lia.
Qed.

Lemma segments_nonempty (d seg : str) : In seg (segments d) -> seg <> [].
Proof.
  unfold segments. rewrite in_app_iff, filter_In. intros [H|[_ H]].
  - destruct (startswith d (u "/")); [|contradiction].
    destruct H as [<-|[]]. discriminate.
  - intros ->. discriminate.
Qed.

Lemma join_path_leaf (leaf : str) : join_path [leaf] = leaf.
Proof.
  unfold join_path. destruct (str_eqb leaf (u "/")) eqn:E; [|reflexivity].
  apply str_eqb_eq in E. now subst.
Qed.

Lemma join_path_two (parent leaf : str) :
  parent <> u "/" -> join_path [parent; leaf] = parent ++ u "/" ++ leaf.
Proof.
  intros H. unfold join_path. apply str_eqb_neq in H. now rewrite H.
Qed.

Lemma join_path_two_inj (p1 p2 leaf : str) :
  p1 <> [] -> p2 <> [] ->
  join_path [p1; leaf] = join_path [p2; leaf] -> p1 = p2.
Proof.
  intros N1 N2. unfold join_path.
  destruct (str_eqb p1 (u "/")) eqn:E1, (str_eqb p2 (u "/")) eqn:E2;
    cbn [join]; intros H.
  - apply str_eqb_eq in E1, E2. congruence.
  - exfalso. apply N2.
    change (u "/" ++ leaf) with ([] ++ u "/" ++ leaf) in H.
    now apply app_inv_tail in H.
  - exfalso. apply N1.
    change (u "/" ++ leaf) with ([] ++ u "/" ++ leaf) in H.
    now apply app_inv_tail in H.
  - now apply app_inv_tail in H.
Qed.

Lemma segs_eqb_refl_true (x : list str) : segs_eqb x x = true.
Proof. now apply segs_eqb_eq. Qed.

Lemma sharing_cons (k : nat) (segs x : list str) (all : list (list str)) :
  sharing k segs (x :: all) =
  if segs_eqb (suffix k x) (suffix k segs)
  then S (sharing k segs all) else sharing k segs all.
Proof.
  unfold sharing. cbn [filter]. now destruct (segs_eqb _ _).
Qed.

Lemma segs_eqb_neq (x y : list str) : x <> y -> segs_eqb x y = false.
Proof.
  intros H. destruct (segs_eqb x y) eqn:E; [|reflexivity].
  apply segs_eqb_eq in E. contradiction.
Qed.

(** Panes with another leaf share no suffix with a pane of leaf [leaf]. *)
Lemma sharing_other_leaves (k : nat) (segs : list str) (leaf : str)
      (others : list Pane) :
  suffix 1 segs = [leaf] ->
  Forall (fun o => suffix 1 (dir_segments o) <> [leaf]) others ->
  sharing (S k) segs (map dir_segments others) = O.
Proof.
  intros Hleaf. induction 1 as [|o others Ho _ IH]; [reflexivity|].
  cbn [map]. rewrite sharing_cons, IH, segs_eqb_neq; [reflexivity|].
  intros E. apply Ho.
  now rewrite <- (suffix_1_of_suffix k), E, suffix_1_of_suffix.
Qed.

(** The display path of a pane whose leaf no other pane has. *)
Lemma display_path_alone (p : Pane) (others : list Pane) (pre : list str) (leaf : str) :
  dir_segments p = pre ++ [leaf] ->
  Forall (fun o => suffix 1 (dir_segments o) <> [leaf]) others ->
  display_path (p :: others) p = leaf.
Proof.
  intros Hp Ho. unfold display_path. cbn [map]. rewrite Hp.
  assert (H1 : suffix 1 (pre ++ [leaf]) = [leaf]) by now apply suffix_app.
  destruct (length (pre ++ [leaf]) - 1)%nat; cbn [extend].
  - rewrite H1. apply join_path_leaf.
  - rewrite sharing_cons, segs_eqb_refl_true.
    rewrite (sharing_other_leaves 0 _ leaf others H1 Ho).
    cbn [Nat.ltb Nat.leb]. rewrite H1. apply join_path_leaf.
Qed.

(** The display path of a pane that shares its leaf, but not its parent,
    with one other pane: [q] stands before or after [p] in the list. *)
Lemma display_path_pair (all : list (list str)) (segs pre : list str)
      (parent leaf : str) :
  segs = pre ++ [parent; leaf] ->
  sharing 1 segs all = 2%nat ->
  sharing 2 segs all = 1%nat ->
  extend all segs 1 (length segs - 1) = [parent; leaf].
Proof.
  intros Hs H1 H2.
  assert (E2 : suffix 2 segs = [parent; leaf]) by (subst; now apply suffix_app).
  assert (Hl : (length segs - 1 = S (length pre))%nat)
    by (subst; rewrite length_app; simpl; lia).
  rewrite Hl. cbn [extend]. rewrite H1. cbn [Nat.ltb Nat.leb].
  destruct (length pre); cbn [extend]; [exact E2|].
  rewrite H2. cbn [Nat.ltb Nat.leb]. exact E2.
Qed.

Lemma dir_segments_nonempty (p : Pane) (seg : str) :
  In seg (dir_segments p) -> seg <> [].
Proof.
  unfold dir_segments. destruct (pane_current_path (info p)); [|contradiction].
  apply segments_nonempty.
Qed.

(** C2: the display paths depend on the panes only through the multiset of
    their directories, so a permutation of the panes changes no pane's
    display path; a pane whose leaf no other pane has is shown by that leaf;
    two panes with the same leaf and different parents, no other pane having
    that leaf, are shown by their [parent/leaf] suffixes, which differ. *)
Theorem display_paths_depend_on_directories_only :
  (forall panes panes' p,
     Permutation (map dir_segments panes) (map dir_segments panes') ->
     display_path panes p = display_path panes' p) /\
  (forall panes panes',
     Permutation panes panes' ->
     Permutation (get_exclusive_paths panes) (get_exclusive_paths panes') /\
     (forall p d, In (p, d) (get_exclusive_paths panes) <->
                  In (p, d) (get_exclusive_paths panes'))) /\
  (forall panes p others pre leaf,
     Permutation panes (p :: others) ->
     dir_segments p = pre ++ [leaf] ->
     Forall (fun o => suffix 1 (dir_segments o) <> [leaf]) others ->
     display_path panes p = leaf /\ In (p, leaf) (get_exclusive_paths panes)) /\
  (forall panes p q others pre_p pre_q parent_p parent_q leaf,
     Permutation panes (p :: q :: others) ->
     dir_segments p = pre_p ++ [parent_p; leaf] ->
     dir_segments q = pre_q ++ [parent_q; leaf] ->
     parent_p <> parent_q ->
     Forall (fun o => suffix 1 (dir_segments o) <> [leaf]) others ->
     display_path panes p = join_path [parent_p; leaf] /\
     display_path panes q = join_path [parent_q; leaf] /\
     display_path panes p <> display_path panes q).
Proof.
  assert (Hdirs : forall panes panes' p,
            Permutation (map dir_segments panes) (map dir_segments panes') ->
            display_path panes p = display_path panes' p).
  { intros panes panes' p H. unfold display_path. f_equal.
    now apply extend_perm. }
  assert (Hperm : forall panes panes' p,
            Permutation panes panes' ->
            display_path panes p = display_path panes' p).
  { intros panes panes' p H. apply Hdirs. now apply Permutation_map. }
  assert (Hgep : forall panes panes',
            Permutation panes panes' ->
            Permutation (get_exclusive_paths panes) (get_exclusive_paths panes')).
  { intros panes panes' H. unfold get_exclusive_paths.
    rewrite (map_ext (fun p => (p, display_path panes p))
                     (fun p => (p, display_path panes' p)))
      by (intros p; now rewrite (Hperm panes panes' p H)).
    now apply Permutation_map. }
  split; [exact Hdirs|]. split; [|split].
  - intros panes panes' H. split; [now apply Hgep|].
    intros p d. split; apply Permutation_in; [|apply Permutation_sym];
      now apply Hgep.
  - intros panes p others pre leaf H Hp Ho.
    assert (E : display_path panes p = leaf).
    { rewrite (Hperm _ _ p H). eapply display_path_alone; eauto. }
    split; [exact E|]. rewrite <- E. unfold get_exclusive_paths.
    apply (in_map (fun p => (p, display_path panes p))).
    apply Permutation_sym in H. apply (Permutation_in _ H). now left.
  - intros panes p q others pre_p pre_q parent_p parent_q leaf
           H Hp Hq Hne Ho.
    assert (Lp : suffix 1 (dir_segments p) = [leaf])
      by (rewrite Hp; change [parent_p; leaf] with ([parent_p] ++ [leaf]);
          rewrite app_assoc; now apply suffix_app).
    assert (Lq : suffix 1 (dir_segments q) = [leaf])
      by (rewrite Hq; change [parent_q; leaf] with ([parent_q] ++ [leaf]);
          rewrite app_assoc; now apply suffix_app).
    assert (Pp : suffix 2 (dir_segments p) = [parent_p; leaf])
      by (rewrite Hp; now apply suffix_app).
    assert (Pq : suffix 2 (dir_segments q) = [parent_q; leaf])
      by (rewrite Hq; now apply suffix_app).
    assert (Dpq : segs_eqb [parent_q; leaf] [parent_p; leaf] = false)
      by (apply segs_eqb_neq; congruence).
    assert (Dqp : segs_eqb [parent_p; leaf] [parent_q; leaf] = false)
      by (apply segs_eqb_neq; congruence).
    assert (Ep : display_path panes p = join_path [parent_p; leaf]).
    { rewrite (Hperm _ _ p H). unfold display_path. f_equal. cbn [map].
      apply (display_path_pair _ _ pre_p); [exact Hp| |].
      - rewrite !sharing_cons, Lp, Lq, segs_eqb_refl_true.
        now rewrite (sharing_other_leaves 0 _ leaf others Lp Ho).
      - rewrite !sharing_cons, Pp, Pq, segs_eqb_refl_true, Dpq.
        now rewrite (sharing_other_leaves 1 _ leaf others Lp Ho). }
    assert (Eq : display_path panes q = join_path [parent_q; leaf]).
    { rewrite (Hperm _ _ q H). unfold display_path. f_equal. cbn [map].
      apply (display_path_pair _ _ pre_q); [exact Hq| |].
      - rewrite !sharing_cons, Lp, Lq, segs_eqb_refl_true.
        now rewrite (sharing_other_leaves 0 _ leaf others Lq Ho).
      - rewrite !sharing_cons, Pp, Pq, segs_eqb_refl_true, Dqp.
        now rewrite (sharing_other_leaves 1 _ leaf others Lq Ho). }
    split; [exact Ep|]. split; [exact Eq|].
    rewrite Ep, Eq. intros E. apply Hne.
    apply (join_path_two_inj _ _ leaf); [| |exact E].
    + apply (dir_segments_nonempty p). rewrite Hp, in_app_iff. right. now left.
    + apply (dir_segments_nonempty q). rewrite Hq, in_app_iff. right. now left.
Qed.

(** ** Worked instances *)

(** The two directory scenarios of the spec (8), and two panes in one
    directory, which keep the same full path. *)
Example scenario_unique_leaves :
  map snd (get_exclusive_paths
             [ {| info := example_pane "1" "@1" "/home/u/proj/api"; program := None |};
               {| info := example_pane "2" "@2" "/home/u/proj/web"; program := None |} ])
  = [u "api"; u "web"].
Proof. reflexivity. Qed.

Example scenario_shared_leaf :
  map snd (get_exclusive_paths
             [ {| info := example_pane "1" "@1" "/home/u/a/x"; program := None |};
               {| info := example_pane "2" "@2" "/home/u/b/x"; program := None |} ])
  = [u "a/x"; u "b/x"].
Proof. reflexivity. Qed.

Example scenario_same_directory :
  map snd (get_exclusive_paths
             [ {| info := example_pane "1" "@1" "/srv/www"; program := None |};
               {| info := example_pane "2" "@2" "/srv/www"; program := None |} ])
  = [u "/srv/www"; u "/srv/www"].
Proof. reflexivity. Qed.

(** A run over four panes, with the default options: a web server, two
    shells in directories of the same name, and an editor, which is a
    directory program and is labelled with its directory. *)
Example example_run :
  fmap (map (fun r => (via r, rn_window r, rn_name r)))
       (rename_windows example_home example_codec all_enabled false
                       example_panes example_ps default_options)
  = Ok [ (ByProgram, u "@3", u "python3 -m http.serv");
         (ByPath, u "@2", u "b/x");
         (ByPath, u "@4", u "web");
         (ByPath, u "@1", u "vim notes.txt:a/x") ].
Proof. reflexivity. Qed.

(** The limit on the digits of a numeral: 4300 digits are read, one more
    is refused, in the snapshot as in the process id of the pane. *)
Example numeral_of_4300_digits :
  is_ok (int_of_bytes (repeat x31 4300)) = true /\
  int_of_bytes (repeat x31 4301) = Raise ValueError /\
  int_of_str (repeat 49 4301) = Raise ValueError /\
  get_current_program [repeat x31 4301 ++ b " vim"] (pane_of (Some (u "5")))
                      default_options = Raise ValueError.
Proof. repeat split; vm_compute; reflexivity. Qed.

(** A process id written in other decimal digits or between other spaces
    is read as [int] reads it. *)
Example numeral_in_other_digits :
  int_of_str [1637] = Ok 5%Z /\
  int_of_str [160; 65301; 12288] = Ok 5%Z /\
  int_of_str [178] = Raise ValueError /\
  get_current_program [b "5 top"] (pane_of (Some [1637])) default_options =
    Ok (Some (u "top")).
Proof. repeat split; vm_compute; reflexivity. Qed.

Lemma display_paths_depend_on_directories_only_witness :
  let p := {| info := example_pane "5" "@1" "/home/u/a/x"; program := None |} in
  let q := {| info := example_pane "7" "@2" "/home/u/b/x"; program := None |} in
  let w := {| info := example_pane "8" "@4" "/home/u/proj/web"; program := None |} in
  display_path [p; q; w] p = display_path [w; q; p] p /\
  Permutation (get_exclusive_paths [p; q; w]) (get_exclusive_paths [w; p; q]) /\
  display_path [p; q; w] w = u "web" /\
  display_path [p; q; w] p = u "a/x" /\
  display_path [p; q; w] q = u "b/x".
Proof.
  intros p q w.
  destruct display_paths_depend_on_directories_only as (H1 & H2 & H3 & H4).
  split; [|split; [|split]].
  - apply H1. cbn [map]. apply perm_trans with (dir_segments q :: dir_segments p :: [dir_segments w]).
    + apply perm_swap.
    + apply perm_trans with (dir_segments q :: dir_segments w :: [dir_segments p]).
      * apply perm_skip, perm_swap.
      * apply perm_swap.
  - apply H2. apply perm_trans with (p :: w :: [q]).
    + apply perm_skip, perm_swap.
    + apply perm_swap.
  - apply (H3 [p; q; w] w [p; q] [u "/"; u "home"; u "u"; u "proj"] (u "web")).
    + apply perm_trans with (p :: w :: [q]).
      * apply perm_skip, perm_swap.
      * apply perm_swap.
    + reflexivity.
    + apply Forall_cons; [discriminate|].
      apply Forall_cons; [discriminate|apply Forall_nil].
  - assert (H : display_path [p; q; w] p = u "a/x" /\
                display_path [p; q; w] q = u "b/x" /\
                display_path [p; q; w] p <> display_path [p; q; w] q).
    { apply (H4 [p; q; w] p q [w] [u "/"; u "home"; u "u"] [u "/"; u "home"; u "u"]
                (u "a") (u "b") (u "x")).
      - apply Permutation_refl.
      - reflexivity.
      - reflexivity.
      - discriminate.
      - apply Forall_cons; [discriminate|apply Forall_nil]. }
    split; apply H.
Defined.

Lemma label_is_cut_to_max_name_len_witness :
  rename_window example_codec (u "python3 -m http.server 8000") 20 default_options =
    Ok (u "python3 -m http.serv") /\
  rename_window example_codec (u "vim notes.txt") 20 default_options =
    Ok (u "vim notes.txt").
Proof.
  assert (H0 : (0 <= 20)%Z) by discriminate.
  split.
  - destruct (label_is_cut_to_max_name_len example_codec
                (u "python3 -m http.server 8000") 20 default_options
                (u "python3 -m http.server 8000") eq_refl H0) as [Hlong _].
    apply Hlong. reflexivity.
  - destruct (label_is_cut_to_max_name_len example_codec
                (u "vim notes.txt") 20 default_options (u "vim notes.txt")
                eq_refl H0) as [_ Hfits].
    apply Hfits. discriminate.
Defined.

Lemma icon_is_applied_before_the_cut_witness :
  rename_window example_codec (u "vim notes.txt") 8
                (with_icons NAME_AND_ICON [] default_options) =
    Ok ([58923] ++ u " " ++ u "vim no") /\
  rename_window example_codec (u "python3 -m http.server") 8
                (with_icons NAME_AND_ICON [(u "python3", [92; 117] ++ u "e606")]
                            default_options) =
    Ok ([58886] ++ u " " ++ u "python").
Proof.
  assert (H0 : (0 <= 8)%Z) by discriminate.
  split.
  - destruct (icon_is_applied_before_the_cut example_codec (u "vim notes.txt") 8
                (with_icons NAME_AND_ICON [] default_options)) as (_ & _ & H).
    apply (H [58923] H0); [reflexivity|reflexivity|discriminate].
  - destruct (icon_is_applied_before_the_cut example_codec
                (u "python3 -m http.server") 8
                (with_icons NAME_AND_ICON [(u "python3", [92; 117] ++ u "e606")]
                            default_options)) as (_ & _ & H).
    apply (H [58886] H0); [reflexivity|reflexivity|discriminate].
Defined.

Lemma panes_fall_in_one_partition_witness :
  match rename_windows example_home example_codec all_enabled false
                       example_panes example_ps default_options with
  | Ok renames =>
    exists panes_programs by_program handed by_path,
      get_panes_programs example_panes example_ps default_options =
        Ok panes_programs /\
      let fixed :=
        map (fun p => fix_pane_path example_home p default_options) panes_programs in
      program_loop example_codec all_enabled (panes_with_programs fixed)
                   default_options = Ok (by_program, handed) /\
      path_loop example_codec all_enabled
                (get_exclusive_paths (panes_with_dir fixed ++ handed))
                default_options = Ok by_path /\
      renames = by_program ++ by_path /\
      Forall2 (program_label example_codec default_options)
              (filter (named_by_program all_enabled default_options)
                      (panes_with_programs fixed))
              by_program /\
      Forall2 handed_for
              (filter (left_to_paths all_enabled default_options)
                      (panes_with_programs fixed))
              handed /\
      Forall2 (path_label example_codec default_options)
              (filter (fun x => enabled_pane all_enabled (info (fst x)))
                      (get_exclusive_paths (panes_with_dir fixed ++ handed)))
              by_path /\
      Forall (fun r => via r = ByProgram) by_program /\
      Forall (fun r => via r = ByPath) by_path /\
      Permutation (map target renames)
                  (filter (enabled_pane all_enabled)
                          (map (fixed_info example_home default_options)
                               example_panes))
  | Raise _ => False
  end.
Proof.
  pose proof (proj2 (panes_fall_in_one_partition example_home example_codec all_enabled)
                    example_panes example_ps default_options) as H.
  destruct (rename_windows example_home example_codec all_enabled false
                           example_panes example_ps default_options)
    as [renames|e] eqn:E.
  - exact (H renames eq_refl).
  - vm_compute in E. discriminate E.
Defined.

(** C8 as stated fails: a pane of the list of panes with a program, here an
    editor, gets no name from the first loop.  It is appended to the list of
    the panes without a program and named by the second loop, after its
    directory; and when its window is not enabled neither loop names it. *)
Lemma program_pane_is_named_by_the_path_loop :
  get_panes_programs [info vim_pane] vim_ps default_options = Ok [vim_pane] /\
  panes_with_programs [vim_pane] = [vim_pane] /\
  panes_with_dir [vim_pane] = [] /\
  program_loop example_codec all_enabled (panes_with_programs [vim_pane])
               default_options = Ok ([], [vim_pane]) /\
  path_loop example_codec all_enabled
            (get_exclusive_paths (panes_with_dir [vim_pane] ++ [vim_pane]))
            default_options =
    Ok [ {| via := ByPath; target := info vim_pane;
            rn_window := u "@1"; rn_name := u "vim notes.txt:x" |} ] /\
  rename_windows example_home example_codec all_enabled false
                 [info vim_pane] vim_ps default_options =
    Ok [ {| via := ByPath; target := info vim_pane;
            rn_window := u "@1"; rn_name := u "vim notes.txt:x" |} ] /\
  rename_windows example_home example_codec only_third false
                 [info vim_pane] vim_ps default_options = Ok [].
Proof. repeat split; vm_compute; reflexivity. Qed.

Lemma empty_snapshot_leaves_all_to_paths_witness :
  get_panes_programs example_panes None default_options =
    Ok (map (fun p => {| info := p; program := None |}) example_panes) /\
  match rename_windows example_home example_codec all_enabled false
                       example_panes (Some (b "PPID COMMAND")) default_options with
  | Ok renames => Forall (fun r => via r = ByPath) renames
  | Raise _ => False
  end.
Proof.
  split.
  - apply (empty_snapshot_leaves_all_to_paths example_home example_codec all_enabled
             example_panes None default_options).
    + reflexivity.
    + repeat (apply Forall_cons; [discriminate|]). apply Forall_nil.
  - assert (Hpid : Forall (fun p => pane_pid p <> None) example_panes)
      by (repeat (apply Forall_cons; [discriminate|]); apply Forall_nil).
    pose proof (empty_snapshot_leaves_all_to_paths example_home example_codec
                  all_enabled example_panes (Some (b "PPID COMMAND"))
                  default_options eq_refl Hpid) as (_ & _ & _ & H).
    destruct (rename_windows example_home example_codec all_enabled false
                             example_panes (Some (b "PPID COMMAND")) default_options)
      as [renames|e] eqn:E.
    + apply (H renames). reflexivity.
    + vm_compute in E. discriminate E.
Defined.

(** C6 as stated fails: on an empty snapshot a pane without process id
    yields no [None] program; the resolver raises and the run is aborted. *)
Lemma pane_without_pid_aborts_on_empty_snapshot :
  running_programs None = [] /\
  get_current_program (running_programs None) (pane_of None) default_options =
    Raise ValueError /\
  get_panes_programs [pane_of None] None default_options = Raise ValueError /\
  rename_windows example_home example_codec all_enabled false
                 [pane_of None] None default_options = Raise ValueError.
Proof. repeat split; reflexivity. Qed.

(** ** Worked instances of the further properties *)

Lemma program_is_shown_as_run_witness :
  get_current_program
    [b "1 bash"; b "5   /usr/bin/vim    notes.txt"; b "5 top"]
    (pane_of (Some (u "5"))) default_options =
  Ok (Some (u "/usr/bin/vim notes.txt")).
Proof.
  apply (program_is_shown_as_run
           [b "1 bash"] (b "5   /usr/bin/vim    notes.txt") [b "5 top"]
           (pane_of (Some (u "5"))) default_options (u "5") 5%Z
           (b "5") [b "/usr/bin/vim"; b "notes.txt"]
           (u "/usr/bin/vim") (u "vim") [u "notes.txt"]).
  - reflexivity.
  - reflexivity.
  - apply Forall_cons; [reflexivity|apply Forall_nil].
  - reflexivity.
  - reflexivity.
  - reflexivity.
  - reflexivity.
  - reflexivity.
  - reflexivity.
  - reflexivity.
Defined.

Lemma other_processes_do_not_matter_witness :
  get_current_program ([b "5 top"] ++ b "1 bash" :: [b "5 vim"])
                      (pane_of (Some (u "5"))) default_options =
  get_current_program ([b "5 top"] ++ [b "5 vim"])
                      (pane_of (Some (u "5"))) default_options.
Proof.
  apply (other_processes_do_not_matter
           [b "5 top"] (b "1 bash") [b "5 vim"]
           (pane_of (Some (u "5"))) default_options (u "5") 1%Z 5%Z).
  - reflexivity.
  - reflexivity.
  - reflexivity.
  - discriminate.
Defined.

Lemma script_and_ignored_are_passed_over_witness :
  get_current_program
    ([] ++ b "5 python3 /x/scripts/rename_session_windows.py" :: [b "5 vim"])
    (pane_of (Some (u "5"))) default_options =
  get_current_program ([] ++ [b "5 vim"]) (pane_of (Some (u "5"))) default_options /\
  get_current_program
    ([] ++ b "5 /usr/bin/htop -d 5" :: [b "5 vim"])
    (pane_of (Some (u "5"))) (ignoring [u "htop"] default_options) =
  get_current_program ([] ++ [b "5 vim"]) (pane_of (Some (u "5")))
                      (ignoring [u "htop"] default_options).
Proof.
  split.
  - apply (script_and_ignored_are_passed_over
             [] (b "5 python3 /x/scripts/rename_session_windows.py") [b "5 vim"]
             (pane_of (Some (u "5"))) default_options (u "5") 5%Z
             (b "5") (b "python3") [b "/x/scripts/rename_session_windows.py"]
             (u "python3")).
    + reflexivity.
    + reflexivity.
    + reflexivity.
    + reflexivity.
    + reflexivity.
    + left. exists (b "/x/scripts/rename_session_windows.py"), [],
        (u "/x/scripts/rename_session_windows.py").
      split; [reflexivity|]. split; reflexivity.
  - apply (script_and_ignored_are_passed_over
             [] (b "5 /usr/bin/htop -d 5") [b "5 vim"]
             (pane_of (Some (u "5"))) (ignoring [u "htop"] default_options)
             (u "5") 5%Z (b "5") (b "/usr/bin/htop") [b "-d"; b "5"]
             (u "/usr/bin/htop")).
    + reflexivity.
    + reflexivity.
    + reflexivity.
    + reflexivity.
    + reflexivity.
    + right. exists [u "-d"], (u "htop").
      split; [reflexivity|]. split; [reflexivity|]. split; reflexivity.
Defined.

Lemma unreadable_line_raises_witness :
  get_current_program ([b "1 bash"] ++ b "   " :: [b "5 vim"])
                      (pane_of (Some (u "5"))) default_options = Raise IndexError /\
  get_current_program ([b "1 bash"] ++ b "PPID COMMAND" :: [b "5 vim"])
                      (pane_of (Some (u "5"))) default_options = Raise ValueError /\
  get_current_program ([b "1 bash"] ++ b "5" :: [b "5 vim"])
                      (pane_of (Some (u "5"))) default_options = Raise IndexError.
Proof.
  assert (Hpre : Forall (fun l => resolve_line l (u "5") default_options = Ok Continue)
                        [b "1 bash"])
    by (apply Forall_cons; [reflexivity|apply Forall_nil]).
  split; [|split].
  - apply (proj1 (unreadable_line_raises [b "1 bash"] (b "   ") [b "5 vim"]
                    (pane_of (Some (u "5"))) default_options (u "5")
                    eq_refl Hpre)).
    reflexivity.
  - apply (proj1 (proj2 (unreadable_line_raises [b "1 bash"] (b "PPID COMMAND")
                           [b "5 vim"] (pane_of (Some (u "5"))) default_options
                           (u "5") eq_refl Hpre))
             (b "PPID") [b "COMMAND"]); reflexivity.
  - apply (proj2 (proj2 (unreadable_line_raises [b "1 bash"] (b "5") [b "5 vim"]
                           (pane_of (Some (u "5"))) default_options (u "5")
                           eq_refl Hpre))
             (b "5") 5%Z); reflexivity.
Defined.

Lemma resolved_program_has_a_line_witness :
  exists pid c line,
    pane_pid (pane_of (Some (u "5"))) = Some pid /\ int_of_str pid = Ok c /\
    In line [b "1 bash"; b "5 vim notes.txt"] /\ line_ppid line = Ok c.
Proof.
  apply (resolved_program_has_a_line [b "1 bash"; b "5 vim notes.txt"]
           (pane_of (Some (u "5"))) default_options (u "vim notes.txt")).
  reflexivity.
Defined.

Lemma header_is_dropped_witness :
  running_programs (Some (b "5 vim" ++ x0a :: b "5 top")) = [b "5 top"] /\
  running_programs (Some (b "5 vim")) = [].
Proof.
  destruct (header_is_dropped (b "5 vim") (b "5 top") eq_refl) as (H1 & H2 & _).
  split; [exact H1|exact H2].
Defined.

Lemma pane_without_pid_aborts_the_session_witness :
  raises (get_panes_programs [example_pane "5" "@1" "/srv"; pane_of None]
                             example_ps default_options) /\
  raises (rename_windows example_home example_codec all_enabled false
                         [example_pane "5" "@1" "/srv"; pane_of None]
                         example_ps default_options) /\
  raises (print_programs example_codec
                         [example_pane "5" "@1" "/srv"; pane_of None]
                         example_ps default_options).
Proof.
  apply (pane_without_pid_aborts_the_session example_home example_codec all_enabled
           [example_pane "5" "@1" "/srv"; pane_of None] example_ps default_options
           (pane_of None)).
  - right. left. reflexivity.
  - reflexivity.
Defined.

Lemma blank_program_aborts_the_run_witness :
  raises (rename_windows example_home example_codec all_enabled false
                         [example_pane "5" "@1" "/srv"]
                         (Some (b "PPID COMMAND" ++ x0a :: b "5 sh ."))
                         default_options).
Proof.
  apply (blank_program_aborts_the_run example_home example_codec all_enabled
           [example_pane "5" "@1" "/srv"]
           (Some (b "PPID COMMAND" ++ x0a :: b "5 sh ."))
           default_options
           [ {| info := example_pane "5" "@1" "/srv"; program := Some [] |} ]
           {| info := example_pane "5" "@1" "/srv"; program := Some [] |} []).
  - reflexivity.
  - left. reflexivity.
  - reflexivity.
  - reflexivity.
  - reflexivity.
  - discriminate.
Defined.

Lemma program_loop_leaves_dir_programs_witness :
  let l :=
    [ {| info := example_pane "5" "@1" "/srv"; program := Some (u "vim  a.txt") |};
      {| info := example_pane "6" "@2" "/srv"; program := Some (u "top") |} ] in
  match program_loop example_codec all_enabled l default_options with
  | Ok (rs, handed) =>
    Forall (fun r => exists p,
                In p l /\ target r = info p /\
                forall word words,
                  str_split (py_str (program p)) = word :: words ->
                  str_in word (dir_programs default_options) = false)
           rs /\
    Forall (fun h => exists p word words,
                In p l /\ info h = info p /\
                str_split (py_str (program p)) = word :: words /\
                str_in word (dir_programs default_options) = true /\
                program h = Some (join (u " ") (word :: words)))
           handed
  | Raise _ => False
  end.
Proof.
  intros l.
  pose proof (program_loop_leaves_dir_programs example_codec all_enabled
                l default_options) as H.
  destruct (program_loop example_codec all_enabled l default_options)
    as [[rs handed]|e] eqn:E.
  - apply (H rs handed). reflexivity.
  - vm_compute in E. discriminate E.
Defined.

Lemma names_sent_are_bounded_witness :
  match rename_windows example_home example_codec all_enabled false
                       example_panes example_ps default_options with
  | Ok renames =>
    Forall (fun r => (Z.of_nat (length (rn_name r)) <= 20)%Z /\
                     rn_window r = py_str (window_id (target r))) renames
  | Raise _ => False
  end.
Proof.
  assert (H0 : (0 <= max_name_len default_options)%Z) by discriminate.
  pose proof (names_sent_are_bounded example_home example_codec all_enabled false
                example_panes example_ps default_options) as H.
  destruct (rename_windows example_home example_codec all_enabled false
                           example_panes example_ps default_options)
    as [renames|e] eqn:E.
  - apply (H renames H0). reflexivity.
  - vm_compute in E. discriminate E.
Defined.

Lemma disabled_windows_are_left_alone_witness :
  match rename_windows example_home example_codec only_third false
                       example_panes example_ps default_options with
  | Ok renames =>
    Forall (fun r => only_third (window_id (target r)) = true) renames
  | Raise _ => False
  end.
Proof.
  pose proof (disabled_windows_are_left_alone example_home example_codec only_third
                false example_panes example_ps default_options) as H.
  destruct (rename_windows example_home example_codec only_third false
                           example_panes example_ps default_options)
    as [renames|e] eqn:E.
  - apply (H renames). reflexivity.
  - vm_compute in E. discriminate E.
Defined.

Lemma icon_key_of_command_witness :
  icon_key (u "/usr/bin/" ++ u "vim" ++ u " notes.txt") = Ok (u "vim") /\
  icon_key (u "vim:a/" ++ u "x" ++ []) = Ok (u "x") /\
  icon_key ([] ++ u "git:main" ++ u " log") = Ok (u "git").
Proof.
  split; [|split].
  - apply (icon_key_of_command example_codec (u "/usr/bin/") (u "vim") (u " notes.txt"));
      try reflexivity; try discriminate.
    + right. exists (u "/usr/bin"). reflexivity.
    + right. exists 32, (u "notes.txt"). split; reflexivity.
  - apply (icon_key_of_command example_codec (u "vim:a/") (u "x") []);
      try reflexivity; try discriminate.
    + right. exists (u "vim:a"). reflexivity.
    + left. reflexivity.
  - apply (icon_key_of_command example_codec [] (u "git:main") (u " log"));
      try reflexivity; try discriminate.
    + left. reflexivity.
    + right. exists 32, (u "log"). split; reflexivity.
Defined.

Lemma custom_icons_come_first_witness :
  get_program_icon example_codec (u "vim notes.txt")
                   (with_icons ICON [(u "vim", [9997])] default_options) = Ok [9997] /\
  get_program_icon example_codec (u "vim notes.txt")
                   (with_icons ICON [(u "vim", [])] default_options) = Ok [58923].
Proof.
  split.
  - apply (proj1 (custom_icons_come_first example_codec (u "vim notes.txt")
                    (with_icons ICON [(u "vim", [9997])] default_options)
                    (u "vim") eq_refl) 9997 []).
    reflexivity.
  - apply (proj2 (custom_icons_come_first example_codec (u "vim notes.txt")
                    (with_icons ICON [(u "vim", [])] default_options)
                    (u "vim") eq_refl)).
    right. reflexivity.
Defined.

Lemma style_decides_the_decoration_witness :
  apply_icon_if_in_style example_codec (u " ") default_options = Ok (u " ") /\
  apply_icon_if_in_style example_codec (u " ")
                         (with_icons ICON [] default_options) = Raise IndexError /\
  apply_icon_if_in_style example_codec (u "htop")
                         (with_icons NAME_AND_ICON [] default_options) = Ok (u "htop") /\
  apply_icon_if_in_style example_codec (u "vim notes.txt")
                         (with_icons ICON [] default_options) = Ok [58923].
Proof.
  split; [|split; [|split]].
  - apply (proj1 (style_decides_the_decoration example_codec (u " ")
                    default_options)).
    reflexivity.
  - apply (proj1 (proj2 (style_decides_the_decoration example_codec (u " ")
                           (with_icons ICON [] default_options)))).
    + discriminate.
    + reflexivity.
  - apply (proj1 (proj2 (proj2 (style_decides_the_decoration example_codec (u "htop")
                           (with_icons NAME_AND_ICON [] default_options))))
             (u "htop")); reflexivity.
  - apply (proj2 (proj2 (proj2 (style_decides_the_decoration example_codec
                           (u "vim notes.txt")
                           (with_icons ICON [] default_options))))
             58923 []); reflexivity.
Defined.

Lemma fix_pane_path_writes_the_tilde_witness :
  pane_current_path
    (info (fix_pane_path example_home
             {| info := example_pane "5" "@1" "/home/u/backup/home/u/x"; program := None |}
             (with_tilde default_options))) =
  Some (u "~/backup~/x") /\
  pane_current_path
    (info (fix_pane_path example_home
             {| info := example_pane "5" "@1" "/home/u/x"; program := None |}
             default_options)) =
  Some (u "/home/u/x").
Proof.
  split.
  - apply (proj1 (proj2 (proj2 (proj2 (proj2
             (fix_pane_path_writes_the_tilde example_home
                {| info := example_pane "5" "@1" "/home/u/backup/home/u/x";
                   program := None |}
                (with_tilde default_options))))))
             (u "/backup/home/u/x")).
    + reflexivity.
    + discriminate.
    + reflexivity.
  - apply (proj1 (proj2 (proj2 (proj2
             (fix_pane_path_writes_the_tilde example_home
                {| info := example_pane "5" "@1" "/home/u/x"; program := None |}
                default_options))))).
    left. reflexivity.
Defined.

Lemma default_rules_keep_plain_names_witness :
  substitute_name (u "python3 -m http.server")
                  (substitute_sets default_options) =
    Ok (u "python3 -m http.server") /\
  substitute_name (u "/usr/bin/" ++ u "python3 -m http.server")
                  (substitute_sets default_options) =
    Ok (u "python3 -m http.server").
Proof.
  destruct (default_rules_keep_plain_names (u "python3 -m http.server")
              eq_refl eq_refl eq_refl) as [H1 H2].
  split; [exact H1|]. exact (proj1 (H2 eq_refl)).
Defined.

Lemma print_shows_the_name_before_the_cut_witness :
  print_lines example_codec
    [ {| info := example_pane "6" "@3" "/srv";
         program := Some (u "/usr/bin/python3 -m http.server 8000") |} ]
    default_options =
  Ok [u "/usr/bin/python3 -m http.server 8000 -> python3 -m http.server 8000"] /\
  program_loop example_codec all_enabled
    [ {| info := example_pane "6" "@3" "/srv";
         program := Some (u "/usr/bin/python3 -m http.server 8000") |} ]
    default_options =
  Ok ([ {| via := ByProgram; target := example_pane "6" "@3" "/srv";
           rn_window := u "@3"; rn_name := u "python3 -m http.serv" |} ], []).
Proof.
  destruct (proj2 (print_shows_the_name_before_the_cut example_codec all_enabled
                     default_options)
              {| info := example_pane "6" "@3" "/srv";
                 program := Some (u "/usr/bin/python3 -m http.server 8000") |}
              [] (u "/usr/bin/python3 -m http.server 8000")
              (u "python3 -m http.server 8000")
              (u "python3 -m http.server 8000"))
    as [H1 H2].
  - reflexivity.
  - discriminate.
  - reflexivity.
  - reflexivity.
  - split.
    + apply (H1 []). reflexivity.
    + apply (H2 [] []); reflexivity.
Defined.

Lemma cut_keeps_a_prefix_witness :
  exists decorated tail,
    apply_icon_if_in_style example_codec (u "vim notes.txt") default_options =
      Ok decorated /\
    decorated = u "vim notes" ++ tail /\
    ((-4)%Z = 0%Z -> u "vim notes" = []) /\
    ((-4 < 0)%Z -> length tail = Nat.min (Z.to_nat (- -4)) (length decorated)).
Proof.
  apply (cut_keeps_a_prefix example_codec (u "vim notes.txt") (-4)
                            default_options (u "vim notes")).
  reflexivity.
Defined.
